(** * I2C driver of the dsPIC33FJ32MC204 board support code (src/I2C/i2c.c)

    A shallow embedding of the driver: the per-unit accessors, the baud rate
    computation, the wait primitive, the condition sequencer, the byte
    transfer engine, the transaction orchestrator, initialisation and the
    interrupt handler, followed by the properties of the bus transaction
    engine.

    Modelling choices.
    - The special function registers are [volatile]: every access is an
      interaction with the peripheral.  The peripheral is an abstract
      transition system (class [Hardware]); a read returns a value and a new
      peripheral state, a write returns a new peripheral state.  The bits the
      driver tests and sets are the ones the source names, whatever the data
      sheet calls them.
    - The driver's globals ([I2C1_State], [I2C1_Busy], ...) are the fields of
      the record [Driver]; the functions of the driver are computations in a
      state monad over that record.
    - The target compiler (XC16) has 16-bit [int]: an [uint16_t] operand is
      not promoted to a wider type, see [_I2C_WaitCondition]. *)

From Stdlib Require Import ZArith List Bool Lia RelationClasses Sorted.
Import ListNotations.
Open Scope Z_scope.

(** ** Fixed-width integers *)

Definition uint8 (x : Z) : Z := x mod 2 ^ 8.
Definition uint16 (x : Z) : Z := x mod 2 ^ 16.
Definition uint32 (x : Z) : Z := x mod 2 ^ 32.

(** C truth value of an integer expression used as a condition. *)
Definition nonzero (x : Z) : bool := negb (x =? 0).

(** ** Types of i2c.h *)

(** [I2C_Module_t] is an enumeration with the enumerators
    [I2C_MODULE_1 = 1] and [I2C_MODULE_2 = 2]; as a C enumeration it is an
    integer type, and a caller can pass any integer. *)
Definition I2C_Module_t := Z.
Definition I2C_MODULE_1 : I2C_Module_t := 1.
Definition I2C_MODULE_2 : I2C_Module_t := 2.

Inductive I2C_Mode_t :=
| I2C_MODE_MASTER
| I2C_MODE_SLAVE
| I2C_MODE_SLAVE_7BIT
| I2C_MODE_SLAVE_10BIT.

Inductive I2C_State_t :=
| I2C_STATE_IDLE
| I2C_STATE_BUSY
| I2C_STATE_ERROR
| I2C_STATE_TIMEOUT
| I2C_STATE_ADDR_NACK
| I2C_STATE_DATA_NACK
| I2C_STATE_ARB_LOST
| I2C_STATE_BUS_COLLISION
| I2C_STATE_OVERRUN
| I2C_STATE_SUCCESS.

Inductive I2C_Event_t :=
| I2C_EVENT_START
| I2C_EVENT_RESTART
| I2C_EVENT_STOP
| I2C_EVENT_ADDR_RECEIVED
| I2C_EVENT_DATA_RECEIVED
| I2C_EVENT_DATA_REQUESTED
| I2C_EVENT_ACK_SENT
| I2C_EVENT_NACK_SENT
| I2C_EVENT_ERROR.

(** A callback is a pointer to user code; the driver only stores it, compares
    it with NULL and calls it.  [None] is NULL, [Some f] names the function. *)
Definition I2C_Callback_t := option nat.

Record I2C_Config_t := mkConfig {
  module : I2C_Module_t;
  mode : I2C_Mode_t;
  speed : Z;
  slave_address : Z;
  general_call_enable : bool;
  slew_rate_control : bool;
  smbus_enable : bool;
  timeout_ms : Z;
  interrupt_enable : bool;
  callback : I2C_Callback_t
}.

(** ** The peripheral *)

(** The two values [_I2C_GetModuleBase] can return: [&I2C1CON], [&I2C2CON]. *)
Inductive RegBase := I2C1CON | I2C2CON.

(** Bit fields of other special function registers the driver writes. *)
Inductive SfrBit :=
| ANSELCbits_ANSC3 | ANSELCbits_ANSC4 | TRISCbits_TRISC3 | TRISCbits_TRISC4
| ODCONCbits_ODCC3 | ODCONCbits_ODCC4
| ANSELGbits_ANSG2 | ANSELGbits_ANSG3 | TRISGbits_TRISG2 | TRISGbits_TRISG3
| ODCONGbits_ODCG2 | ODCONGbits_ODCG3
| IFS1bits_I2C1BIF | IEC1bits_I2C1BIE | IPC7bits_I2C1BIP
| IFS3bits_I2C2BIF | IEC3bits_I2C2BIE | IPC14bits_I2C2BIP.

(** A location of the peripheral: the 16-bit word [base + offset] of an I2C
    unit (offset 0 is I2CxCON, 1 I2CxSTAT, 2 I2CxADD, 3 I2CxMSK, 4 I2CxBRG,
    5 I2CxTRN, 6 I2CxRCV, as the driver indexes them), or a named bit field. *)
Inductive Sfr :=
| I2C_REG (base : RegBase) (offset : Z)
| SFR_BIT (name : SfrBit).

Class Hardware (H : Type) := {
  hw_read : Sfr -> H -> Z * H;
  hw_write : Sfr -> Z -> H -> H
}.

Arguments hw_read : simpl never.
Arguments hw_write : simpl never.

(** ** Record of the bus operations (instrumentation)

    The record has no counterpart in the source.  Every bus operation of the
    driver appends one entry when it returns, with its arguments and its
    outcome; [CallReadByte] keeps the outcome of the wait inside
    [I2C_ReadByte], which the C function drops. *)
Inductive Call :=
| CallStart (m : I2C_Module_t) (ok : bool)
| CallRestart (m : I2C_Module_t) (ok : bool)
| CallStop (m : I2C_Module_t) (ok : bool)
| CallWriteByte (m : I2C_Module_t) (data : Z) (ok : bool)
| CallReadByte (m : I2C_Module_t) (ack : bool) (wait_ok : bool) (byte : Z).

(** Pointers to the per-unit globals, as the accessors return them. *)
Inductive StatePtr := Addr_I2C1_State | Addr_I2C2_State.
Inductive BusyPtr := Addr_I2C1_Busy | Addr_I2C2_Busy.
Inductive ConfigPtr := Addr_I2C1_Config | Addr_I2C2_Config.

Section Driver.

Context {H : Type} `{Hardware H}.

(** ** Globals of i2c.c *)

Record Driver := mkDriver {
  hw : H;
  I2C1_State : I2C_State_t;
  I2C2_State : I2C_State_t;
  I2C1_Busy : bool;
  I2C2_Busy : bool;
  I2C1_Config : I2C_Config_t;
  I2C2_Config : I2C_Config_t;
  i2c1_callback : I2C_Callback_t;
  i2c2_callback : I2C_Callback_t;
  (* instrumentation *)
  calls : list Call;          (* bus operations, oldest first *)
  waits : nat;                (* calls of _I2C_WaitCondition *)
  polls : nat;                (* evaluations of its loop condition *)
  fired : list (nat * I2C_Event_t * Z); (* callbacks the ISR invoked *)
  stores : list (StatePtr * I2C_State_t) (* assignments to a status code *)
}.

(** ** State monad *)

Definition M (A : Type) : Type := Driver -> A * Driver.

Definition ret {A} (a : A) : M A := fun s => (a, s).

Definition bind {A B} (c : M A) (k : A -> M B) : M B :=
  fun s => let (a, s') := c s in k a s'.

Notation "x <- c ;; k" := (bind c (fun x => k))
  (at level 61, c at next level, right associativity).
Notation "c ;; k" := (bind c (fun _ => k))
  (at level 61, right associativity).

Definition get {A} (f : Driver -> A) : M A := fun s => (f s, s).

Definition set_hw (h : H) (s : Driver) : Driver :=
  mkDriver h (I2C1_State s) (I2C2_State s) (I2C1_Busy s) (I2C2_Busy s)
    (I2C1_Config s) (I2C2_Config s) (i2c1_callback s) (i2c2_callback s)
    (calls s) (waits s) (polls s) (fired s) (stores s).

(** [*p = v] on a status code.  The assignment is also appended to
    [stores]: a status code is volatile and can be read between two
    assignments, by an interrupt for instance. *)
Definition set_state (p : StatePtr) (v : I2C_State_t) (s : Driver) : Driver :=
  match p with
  | Addr_I2C1_State =>
    mkDriver (hw s) v (I2C2_State s) (I2C1_Busy s) (I2C2_Busy s)
      (I2C1_Config s) (I2C2_Config s) (i2c1_callback s) (i2c2_callback s)
      (calls s) (waits s) (polls s) (fired s)
      (stores s ++ [(p, v)])
  | Addr_I2C2_State =>
    mkDriver (hw s) (I2C1_State s) v (I2C1_Busy s) (I2C2_Busy s)
      (I2C1_Config s) (I2C2_Config s) (i2c1_callback s) (i2c2_callback s)
      (calls s) (waits s) (polls s) (fired s)
      (stores s ++ [(p, v)])
  end.

Definition set_busy (p : BusyPtr) (v : bool) (s : Driver) : Driver :=
  match p with
  | Addr_I2C1_Busy =>
    mkDriver (hw s) (I2C1_State s) (I2C2_State s) v (I2C2_Busy s)
      (I2C1_Config s) (I2C2_Config s) (i2c1_callback s) (i2c2_callback s)
      (calls s) (waits s) (polls s) (fired s) (stores s)
  | Addr_I2C2_Busy =>
    mkDriver (hw s) (I2C1_State s) (I2C2_State s) (I2C1_Busy s) v
      (I2C1_Config s) (I2C2_Config s) (i2c1_callback s) (i2c2_callback s)
      (calls s) (waits s) (polls s) (fired s) (stores s)
  end.

Definition set_config (p : ConfigPtr) (v : I2C_Config_t) (s : Driver)
  : Driver :=
  match p with
  | Addr_I2C1_Config =>
    mkDriver (hw s) (I2C1_State s) (I2C2_State s) (I2C1_Busy s) (I2C2_Busy s)
      v (I2C2_Config s) (i2c1_callback s) (i2c2_callback s)
      (calls s) (waits s) (polls s) (fired s) (stores s)
  | Addr_I2C2_Config =>
    mkDriver (hw s) (I2C1_State s) (I2C2_State s) (I2C1_Busy s) (I2C2_Busy s)
      (I2C1_Config s) v (i2c1_callback s) (i2c2_callback s)
      (calls s) (waits s) (polls s) (fired s) (stores s)
  end.

Definition get_state (p : StatePtr) (s : Driver) : I2C_State_t :=
  match p with
  | Addr_I2C1_State => I2C1_State s
  | Addr_I2C2_State => I2C2_State s
  end.

Definition get_busy (p : BusyPtr) (s : Driver) : bool :=
  match p with
  | Addr_I2C1_Busy => I2C1_Busy s
  | Addr_I2C2_Busy => I2C2_Busy s
  end.

Definition get_config (p : ConfigPtr) (s : Driver) : I2C_Config_t :=
  match p with
  | Addr_I2C1_Config => I2C1_Config s
  | Addr_I2C2_Config => I2C2_Config s
  end.

(** Loads and stores through the pointers. *)
Definition load_state (p : StatePtr) : M I2C_State_t := get (get_state p).
Definition load_busy (p : BusyPtr) : M bool := get (get_busy p).
Definition load_config (p : ConfigPtr) : M I2C_Config_t := get (get_config p).
Definition store_state (p : StatePtr) (v : I2C_State_t) : M unit :=
  fun s => (tt, set_state p v s).
Definition store_busy (p : BusyPtr) (v : bool) : M unit :=
  fun s => (tt, set_busy p v s).
Definition store_config (p : ConfigPtr) (v : I2C_Config_t) : M unit :=
  fun s => (tt, set_config p v s).

(** Volatile accesses.  A register is an [uint16_t]: the value read is a
    16-bit value, the value stored is truncated to 16 bits. *)
Definition reg_read (r : Sfr) : M Z :=
  fun s => let (v, h) := hw_read r (hw s) in (uint16 v, set_hw h s).

Definition reg_write (r : Sfr) (v : Z) : M unit :=
  fun s => (tt, set_hw (hw_write r (uint16 v) (hw s)) s).

(** [*r |= mask] and [*r &= mask]: one read, then one write. *)
Definition reg_or (r : Sfr) (mask : Z) : M unit :=
  v <- reg_read r ;; reg_write r (Z.lor v mask).

Definition reg_and (r : Sfr) (mask : Z) : M unit :=
  v <- reg_read r ;; reg_write r (Z.land v mask).

(** Instrumentation. *)
Definition log (c : Call) : M unit :=
  fun s => (tt, mkDriver (hw s) (I2C1_State s) (I2C2_State s) (I2C1_Busy s)
                  (I2C2_Busy s) (I2C1_Config s) (I2C2_Config s)
                  (i2c1_callback s) (i2c2_callback s)
                  (calls s ++ [c]) (waits s) (polls s) (fired s) (stores s)).

Definition count_wait : M unit :=
  fun s => (tt, mkDriver (hw s) (I2C1_State s) (I2C2_State s) (I2C1_Busy s)
                  (I2C2_Busy s) (I2C1_Config s) (I2C2_Config s)
                  (i2c1_callback s) (i2c2_callback s)
                  (calls s) (S (waits s)) (polls s) (fired s) (stores s)).

Definition count_poll : M unit :=
  fun s => (tt, mkDriver (hw s) (I2C1_State s) (I2C2_State s) (I2C1_Busy s)
                  (I2C2_Busy s) (I2C1_Config s) (I2C2_Config s)
                  (i2c1_callback s) (i2c2_callback s)
                  (calls s) (waits s) (S (polls s)) (fired s) (stores s)).

Definition traced (mk : bool -> Call) (body : M bool) : M bool :=
  r <- body ;; log (mk r) ;; ret r.

(** ** Private functions *)

Definition _I2C_GetModuleBase (module : I2C_Module_t) : RegBase :=
  if module =? I2C_MODULE_1 then I2C1CON
  else if module =? I2C_MODULE_2 then I2C2CON
  else I2C1CON.

Definition _I2C_GetState (module : I2C_Module_t) : StatePtr :=
  if module =? I2C_MODULE_1 then Addr_I2C1_State
  else if module =? I2C_MODULE_2 then Addr_I2C2_State
  else Addr_I2C1_State.

Definition _I2C_GetBusyFlag (module : I2C_Module_t) : BusyPtr :=
  if module =? I2C_MODULE_1 then Addr_I2C1_Busy
  else if module =? I2C_MODULE_2 then Addr_I2C2_Busy
  else Addr_I2C1_Busy.

Definition _I2C_GetConfig (module : I2C_Module_t) : ConfigPtr :=
  if module =? I2C_MODULE_1 then Addr_I2C1_Config
  else if module =? I2C_MODULE_2 then Addr_I2C2_Config
  else Addr_I2C1_Config.

(** [fcy] and [desired_speed] are [uint32_t]; the whole computation is done
    in unsigned 32-bit arithmetic.  A zero divisor is undefined behaviour:
    the model returns [None]. *)
Definition _I2C_CalculateBRG (fcy desired_speed : Z) : option Z :=
  let divisor := uint32 (2 * desired_speed) in
  if divisor =? 0 then None
  else
    let brg := uint32 (fcy / divisor - 2) in
    let brg := if brg >? 0xFFFF then 0xFFFF else brg in
    let brg := if brg <? 2 then 2 else brg in
    Some (uint16 brg).

(** The loop of [_I2C_WaitCondition]:

      while ( ( *i2c_con & 0x1F ) != 0 && timeout_counter-- ) { ... }

    [n] is the value of [timeout_counter] when the condition is evaluated.
    The result is [Some c] when the loop is left through its condition with
    [timeout_counter = c], and [None] when the body executed [return false].
    The right operand of [&&] is evaluated only if the left one holds; the
    post-decrement yields the old value and stores the decremented one, which
    wraps around to 0xFFFFFFFF when the old value is 0. *)
Fixpoint wait_loop (module : I2C_Module_t) (n : nat) : M (option Z) :=
  let i2c_con := I2C_REG (_I2C_GetModuleBase module) 0 in
  count_poll ;;
  v <- reg_read i2c_con ;;
  if negb (nonzero (Z.land v 0x1F)) then ret (Some (Z.of_nat n))
  else
    match n with
    | O => ret (Some (uint32 (0 - 1)))
    | S n' =>
      v <- reg_read i2c_con ;;
      if nonzero (Z.land v (Z.shiftl 1 9)) then
        store_state (_I2C_GetState module) I2C_STATE_OVERRUN ;;
        ret None
      else
        v <- reg_read i2c_con ;;
        if nonzero (Z.land v (Z.shiftl 1 8)) then
          store_state (_I2C_GetState module) I2C_STATE_BUS_COLLISION ;;
          ret None
        else wait_loop module n'
    end.

(** [timeout_ms] is an [uint16_t] and [int] has 16 bits on the target, so
    [timeout_ms * 1000] is an unsigned 16-bit product; it is then widened to
    the [uint32_t] counter. *)
Definition _I2C_WaitCondition (module : I2C_Module_t) (timeout_ms : Z)
  : M bool :=
  count_wait ;;
  let timeout_counter := uint16 (timeout_ms * 1000) in
  r <- wait_loop module (Z.to_nat timeout_counter) ;;
  match r with
  | None => ret false
  | Some timeout_counter =>
    if timeout_counter =? 0 then
      store_state (_I2C_GetState module) I2C_STATE_TIMEOUT ;;
      ret false
    else ret true
  end.

(** ** Condition sequencer *)

Definition I2C_Start (module : I2C_Module_t) : M bool :=
  let i2c_con := I2C_REG (_I2C_GetModuleBase module) 0 in
  let busy := _I2C_GetBusyFlag module in
  traced (CallStart module) (
    b <- load_busy busy ;;
    if b then ret false
    else
      store_busy busy true ;;
      store_state (_I2C_GetState module) I2C_STATE_BUSY ;;
      reg_or i2c_con 0x0001 ;;
      cfg <- load_config (_I2C_GetConfig module) ;;
      ok <- _I2C_WaitCondition module (timeout_ms cfg) ;;
      if negb ok then
        store_busy busy false ;;
        ret false
      else ret true).

Definition I2C_Restart (module : I2C_Module_t) : M bool :=
  let i2c_con := I2C_REG (_I2C_GetModuleBase module) 0 in
  traced (CallRestart module) (
    reg_or i2c_con 0x0002 ;;
    cfg <- load_config (_I2C_GetConfig module) ;;
    _I2C_WaitCondition module (timeout_ms cfg)).

Definition I2C_Stop (module : I2C_Module_t) : M bool :=
  let i2c_con := I2C_REG (_I2C_GetModuleBase module) 0 in
  let busy := _I2C_GetBusyFlag module in
  traced (CallStop module) (
    reg_or i2c_con 0x0004 ;;
    cfg <- load_config (_I2C_GetConfig module) ;;
    ok <- _I2C_WaitCondition module (timeout_ms cfg) ;;
    if negb ok then ret false
    else
      store_busy busy false ;;
      store_state (_I2C_GetState module) I2C_STATE_IDLE ;;
      ret true).

(** ** Byte transfer engine *)

(** [data] is an [uint8_t]: callers truncate the argument to 8 bits. *)
Definition I2C_WriteByte (module : I2C_Module_t) (data : Z) : M bool :=
  let base := _I2C_GetModuleBase module in
  let i2c_con := I2C_REG base 0 in
  let i2c_trn := I2C_REG base 5 in
  traced (CallWriteByte module data) (
    reg_write i2c_trn data ;;
    reg_or i2c_con 0x0008 ;;
    cfg <- load_config (_I2C_GetConfig module) ;;
    ok <- _I2C_WaitCondition module (timeout_ms cfg) ;;
    if negb ok then ret false
    else
      v <- reg_read i2c_con ;;
      if nonzero (Z.land v (Z.shiftl 1 15)) then
        store_state (_I2C_GetState module) I2C_STATE_DATA_NACK ;;
        ret false
      else ret true).

(** The result of the wait is dropped by the C function; it is kept in the
    record of calls only. *)
Definition I2C_ReadByte (module : I2C_Module_t) (ack : bool) : M Z :=
  let base := _I2C_GetModuleBase module in
  let i2c_con := I2C_REG base 0 in
  let i2c_rcv := I2C_REG base 6 in
  (if ack then reg_and i2c_con (Z.lnot (Z.shiftl 1 4))
   else reg_or i2c_con (Z.shiftl 1 4)) ;;
  reg_or i2c_con 0x0008 ;;
  cfg <- load_config (_I2C_GetConfig module) ;;
  ok <- _I2C_WaitCondition module (timeout_ms cfg) ;;
  v <- reg_read i2c_rcv ;;
  let byte := uint8 (Z.land v 0x00FF) in
  log (CallReadByte module ack ok byte) ;;
  ret byte.

(** ** Transaction orchestrator *)

(** A pointer to bytes is [None] (NULL) or [Some l], the bytes it points to.
    [data_at l i] is [l[i]]; reading past the end of the caller's array is
    undefined in C and yields 0 here. *)
Definition data_at (l : list Z) (i : Z) : Z := nth (Z.to_nat i) l 0.

(** [l[i] = v]; storing past the end of the caller's array is undefined in C
    and stores nothing here. *)
Fixpoint store_at (l : list Z) (i : nat) (v : Z) : list Z :=
  match l, i with
  | [], _ => []
  | _ :: t, O => v :: t
  | x :: t, S i' => x :: store_at t i' v
  end.

(** The loop [for (i = 0; i < length; i++)] of [I2C_WriteData], entered with
    index [i] and [remaining = length - i] iterations to go.  The result is
    the value [I2C_WriteData] returns from inside the loop ([Some false]), or
    [None] when the loop runs to its end. *)
Fixpoint WriteData_loop (module : I2C_Module_t) (data : list Z)
    (remaining : nat) (i : Z) : M (option bool) :=
  match remaining with
  | O => ret None
  | S remaining' =>
    ok <- I2C_WriteByte module (data_at data i) ;;
    if negb ok then
      I2C_Stop module ;;
      ret (Some false)
    else WriteData_loop module data remaining' (i + 1)
  end.

Definition I2C_WriteData (module : I2C_Module_t) (address : Z)
    (data : option (list Z)) (length : Z) : M bool :=
  match data with
  | None => ret false
  | Some data =>
    if length =? 0 then ret false
    else
      ok <- I2C_Start module ;;
      if negb ok then ret false
      else
        ok <- I2C_WriteByte module (uint8 (Z.lor (Z.shiftl address 1) 0x00)) ;;
        if negb ok then
          I2C_Stop module ;;
          ret false
        else
          r <- WriteData_loop module data (Z.to_nat length) 0 ;;
          match r with
          | Some b => ret b
          | None => I2C_Stop module
          end
  end.

(** The loop of [I2C_ReadData], entered with index [i] and
    [remaining = length - i] iterations to go; the result is the buffer. *)
Fixpoint ReadData_loop (module : I2C_Module_t) (length : Z)
    (remaining : nat) (i : Z) (buffer : list Z) : M (list Z) :=
  match remaining with
  | O => ret buffer
  | S remaining' =>
    let ack := i <? length - 1 in
    b <- I2C_ReadByte module ack ;;
    ReadData_loop module length remaining' (i + 1)
      (store_at buffer (Z.to_nat i) b)
  end.

(** The result is the value returned and the caller's buffer. *)
Definition I2C_ReadData (module : I2C_Module_t) (address : Z)
    (buffer : option (list Z)) (length : Z) : M (bool * option (list Z)) :=
  match buffer with
  | None => ret (false, None)
  | Some buf =>
    if length =? 0 then ret (false, buffer)
    else
      ok <- I2C_Start module ;;
      if negb ok then ret (false, buffer)
      else
        ok <- I2C_WriteByte module (uint8 (Z.lor (Z.shiftl address 1) 0x01)) ;;
        if negb ok then
          I2C_Stop module ;;
          ret (false, buffer)
        else
          buf' <- ReadData_loop module length (Z.to_nat length) 0 buf ;;
          ok <- I2C_Stop module ;;
          ret (ok, Some buf')
  end.

Definition I2C_WriteRegister (module : I2C_Module_t)
    (dev_addr reg_addr data : Z) : M bool :=
  let buffer := [reg_addr; data] in
  I2C_WriteData module dev_addr (Some buffer) 2.

Definition I2C_ReadRegister (module : I2C_Module_t) (dev_addr reg_addr : Z)
  : M Z :=
  let value := 0 in
  ok <- I2C_WriteData module dev_addr (Some [reg_addr]) 1 ;;
  if negb ok then ret 0
  else
    r <- I2C_ReadData module dev_addr (Some [value]) 1 ;;
    ret (match snd r with Some (value :: _) => value | _ => 0 end).

Definition I2C_CheckDevice (module : I2C_Module_t) (address : Z) : M bool :=
  ok <- I2C_Start module ;;
  if negb ok then ret false
  else
    success <- I2C_WriteByte module
                 (uint8 (Z.lor (Z.shiftl address 1) 0x00)) ;;
    I2C_Stop module ;;
    ret success.

(** The loop [for (addr = 1; addr < 127; addr++)] of [I2C_ScanBus], entered
    with [remaining = 127 - addr]; the result is [found] and the caller's
    array. *)
Fixpoint ScanBus_loop (module : I2C_Module_t) (max_devices : Z)
    (remaining : nat) (addr : Z) (found : Z) (devices : option (list Z))
  : M (Z * option (list Z)) :=
  match remaining with
  | O => ret (found, devices)
  | S remaining' =>
    present <- I2C_CheckDevice module addr ;;
    if present then
      let devices' :=
        match devices with
        | Some l =>
          if found <? max_devices
          then Some (store_at l (Z.to_nat found) addr)
          else devices
        | None => None
        end in
      ScanBus_loop module max_devices remaining' (addr + 1)
        (uint8 (found + 1)) devices'
    else
      ScanBus_loop module max_devices remaining' (addr + 1) found devices
  end.

Definition I2C_ScanBus (module : I2C_Module_t) (devices : option (list Z))
    (max_devices : Z) : M (bool * option (list Z)) :=
  r <- ScanBus_loop module max_devices 126 1 0 devices ;;
  ret (fst r >? 0, snd r).

(** ** Initialisation, interrupts, status *)

Definition I2C_SetCallback (module : I2C_Module_t) (cb : I2C_Callback_t)
  : M unit :=
  fun s =>
    if module =? I2C_MODULE_1 then
      (tt, mkDriver (hw s) (I2C1_State s) (I2C2_State s) (I2C1_Busy s)
             (I2C2_Busy s) (I2C1_Config s) (I2C2_Config s)
             cb (i2c2_callback s)
             (calls s) (waits s) (polls s) (fired s) (stores s))
    else if module =? I2C_MODULE_2 then
      (tt, mkDriver (hw s) (I2C1_State s) (I2C2_State s) (I2C1_Busy s)
             (I2C2_Busy s) (I2C1_Config s) (I2C2_Config s)
             (i2c1_callback s) cb
             (calls s) (waits s) (polls s) (fired s) (stores s))
    else (tt, s).

Definition bit_write (b : SfrBit) (v : Z) : M unit := reg_write (SFR_BIT b) v.

Definition _I2C_ConfigurePins (module : I2C_Module_t) : M unit :=
  if module =? I2C_MODULE_1 then
    bit_write ANSELCbits_ANSC3 0 ;;
    bit_write ANSELCbits_ANSC4 0 ;;
    bit_write TRISCbits_TRISC3 1 ;;
    bit_write TRISCbits_TRISC4 1 ;;
    bit_write ODCONCbits_ODCC3 1 ;;
    bit_write ODCONCbits_ODCC4 1
  else if module =? I2C_MODULE_2 then
    bit_write ANSELGbits_ANSG2 0 ;;
    bit_write ANSELGbits_ANSG3 0 ;;
    bit_write TRISGbits_TRISG2 1 ;;
    bit_write TRISGbits_TRISG3 1 ;;
    bit_write ODCONGbits_ODCG2 1 ;;
    bit_write ODCONGbits_ODCG3 1
  else ret tt.

(** The result is [None] when the call has undefined behaviour: the division
    by zero of [_I2C_CalculateBRG]. *)
Definition I2C_Init (config : option I2C_Config_t) : M (option unit) :=
  match config with
  | None => ret (Some tt)
  | Some config =>
    store_config (_I2C_GetConfig (module config)) config ;;
    _I2C_ConfigurePins (module config) ;;
    let base := _I2C_GetModuleBase (module config) in
    let i2c_con := I2C_REG base 0 in
    let i2c_add := I2C_REG base 2 in
    let i2c_msk := I2C_REG base 3 in
    let i2c_brg := I2C_REG base 4 in
    reg_write i2c_con 0x0000 ;;
    let fcy := 40000000 in
    match _I2C_CalculateBRG fcy (uint32 (speed config)) with
    | None => ret None
    | Some brg =>
      reg_write i2c_brg brg ;;
      match mode config with
      | I2C_MODE_MASTER => reg_write i2c_con 0x8000
      | I2C_MODE_SLAVE_7BIT =>
        reg_write i2c_add (Z.shiftl (slave_address config) 1) ;;
        reg_write i2c_msk 0x0000 ;;
        reg_write i2c_con 0x8000 ;;
        reg_or i2c_con 0x4000
      | I2C_MODE_SLAVE_10BIT =>
        reg_write i2c_add (slave_address config) ;;
        reg_write i2c_con 0x8000 ;;
        reg_or i2c_con 0x4400
      | I2C_MODE_SLAVE => ret tt
      end ;;
      (if smbus_enable config then reg_or i2c_con 0x0020 else ret tt) ;;
      (if slew_rate_control config then reg_or i2c_con 0x0040
       else reg_or i2c_con 0x0080) ;;
      (if interrupt_enable config then
         if module config =? I2C_MODULE_1 then
           bit_write IFS1bits_I2C1BIF 0 ;;
           bit_write IEC1bits_I2C1BIE 1 ;;
           bit_write IPC7bits_I2C1BIP 4
         else if module config =? I2C_MODULE_2 then
           bit_write IFS3bits_I2C2BIF 0 ;;
           bit_write IEC3bits_I2C2BIE 1 ;;
           bit_write IPC14bits_I2C2BIP 4
         else ret tt
       else ret tt) ;;
      store_state (_I2C_GetState (module config)) I2C_STATE_IDLE ;;
      store_busy (_I2C_GetBusyFlag (module config)) false ;;
      I2C_SetCallback (module config) (callback config) ;;
      ret (Some tt)
    end
  end.

Definition I2C_Deinit (module : I2C_Module_t) : M unit :=
  let i2c_con := I2C_REG (_I2C_GetModuleBase module) 0 in
  reg_write i2c_con 0x0000 ;;
  (if module =? I2C_MODULE_1 then bit_write IEC1bits_I2C1BIE 0
   else if module =? I2C_MODULE_2 then bit_write IEC3bits_I2C2BIE 0
   else ret tt) ;;
  store_state (_I2C_GetState module) I2C_STATE_IDLE ;;
  store_busy (_I2C_GetBusyFlag module) false.

(** The user code behind a callback is outside the driver: an invocation is
    recorded, with the event tag and the payload byte. *)
Definition invoke (cb : nat) (event : I2C_Event_t) (data : Z) : M unit :=
  fun s => (tt, mkDriver (hw s) (I2C1_State s) (I2C2_State s) (I2C1_Busy s)
                  (I2C2_Busy s) (I2C1_Config s) (I2C2_Config s)
                  (i2c1_callback s) (i2c2_callback s)
                  (calls s) (waits s) (polls s)
                  (fired s ++ [(cb, event, data)]) (stores s)).

Definition I2C_ISR_Handler (module : I2C_Module_t) : M unit :=
  let base := _I2C_GetModuleBase module in
  let i2c_stat := I2C_REG base 1 in
  let i2c_rcv := I2C_REG base 6 in
  cb <- (if module =? I2C_MODULE_1 then
           c <- get i2c1_callback ;; bit_write IFS1bits_I2C1BIF 0 ;; ret c
         else if module =? I2C_MODULE_2 then
           c <- get i2c2_callback ;; bit_write IFS3bits_I2C2BIF 0 ;; ret c
         else ret None) ;;
  match cb with
  | None => ret tt
  | Some f =>
    v <- reg_read i2c_stat ;;
    if nonzero (Z.land v (Z.shiftl 1 15)) then invoke f I2C_EVENT_START 0
    else
      v <- reg_read i2c_stat ;;
      if nonzero (Z.land v (Z.shiftl 1 14)) then invoke f I2C_EVENT_STOP 0
      else
        v <- reg_read i2c_stat ;;
        if nonzero (Z.land v (Z.shiftl 1 13)) then
          v <- reg_read i2c_rcv ;;
          invoke f I2C_EVENT_DATA_RECEIVED (uint8 (Z.land v 0x00FF))
        else
          v <- reg_read i2c_stat ;;
          if nonzero (Z.land v (Z.shiftl 1 12))
          then invoke f I2C_EVENT_DATA_REQUESTED 0
          else ret tt
  end.

(** The loop of [I2C_WaitIdle]; the result is [timeout_counter] after it. *)
Fixpoint WaitIdle_loop (module : I2C_Module_t) (n : nat) : M Z :=
  let i2c_stat := I2C_REG (_I2C_GetModuleBase module) 1 in
  v <- reg_read i2c_stat ;;
  if negb (nonzero (Z.land v (Z.shiftl 1 14))) then ret (Z.of_nat n)
  else
    match n with
    | O => ret (uint32 (0 - 1))
    | S n' => WaitIdle_loop module n'
    end.

Definition I2C_WaitIdle (module : I2C_Module_t) (timeout_ms : Z) : M bool :=
  let timeout_counter := uint16 (timeout_ms * 1000) in
  c <- WaitIdle_loop module (Z.to_nat timeout_counter) ;;
  ret (c >? 0).

Definition I2C_GetLastError (module : I2C_Module_t) : M I2C_State_t :=
  load_state (_I2C_GetState module).

Definition I2C_ClearErrors (module : I2C_Module_t) : M unit :=
  store_state (_I2C_GetState module) I2C_STATE_IDLE ;;
  let i2c_con := I2C_REG (_I2C_GetModuleBase module) 0 in
  reg_and i2c_con (Z.lnot (Z.lor (Z.shiftl 1 9) (Z.shiftl 1 8))).

Definition I2C_IsBusy (module : I2C_Module_t) : M bool :=
  load_busy (_I2C_GetBusyFlag module).

End Driver.

(** ** A scripted peripheral

    A concrete peripheral for closed examples.  Successive reads of I2CxCON
    return the values of [con_reads], then [con_rest] for ever; I2CxRCV reads
    [rcv_value]; every other location reads 0.  Writes are recorded and have
    no effect on later reads. *)
Record Script := mkScript {
  con_reads : list Z;
  con_rest : Z;
  rcv_value : Z;
  written : list (Sfr * Z)
}.

Definition script_read (r : Sfr) (h : Script) : Z * Script :=
  match r with
  | I2C_REG _ 0 =>
    match con_reads h with
    | [] => (con_rest h, h)
    | v :: t => (v, mkScript t (con_rest h) (rcv_value h) (written h))
    end
  | I2C_REG _ 6 => (rcv_value h, h)
  | _ => (0, h)
  end.

Definition script_write (r : Sfr) (v : Z) (h : Script) : Script :=
  mkScript (con_reads h) (con_rest h) (rcv_value h) (written h ++ [(r, v)]).

#[export] Instance Script_Hardware : Hardware Script := {
  hw_read := script_read;
  hw_write := script_write
}.

(** The value of every field of [I2C_Config_t] in a zero-initialised global. *)
Definition zero_config : I2C_Config_t :=
  mkConfig 0 I2C_MODE_MASTER 0 0 false false false 0 false None.

(** [I2C_CONFIG_DEFAULT_MASTER] of i2c.h. *)
Definition I2C_CONFIG_DEFAULT_MASTER : I2C_Config_t :=
  mkConfig I2C_MODULE_1 I2C_MODE_MASTER 100000 0x00 false true false 1000
    false None.

(** The globals as their initialisers leave them, over a peripheral [h]. *)
Definition power_on {H : Type} (h : H) : Driver :=
  mkDriver h I2C_STATE_IDLE I2C_STATE_IDLE false false zero_config zero_config
    None None [] 0%nat 0%nat [] [].

(** Unit 1 configured as a master with a timeout of [t] milliseconds, both
    units idle, over a peripheral [h]. *)
Definition master_with_timeout {H : Type} (t : Z) (h : H) : Driver :=
  set_config Addr_I2C1_Config
    (mkConfig I2C_MODULE_1 I2C_MODE_MASTER 100000 0x00 false true false t
       false None)
    (power_on h).

(** ** Peripherals and states of the examples *)

(** A start condition that never completes: I2CxCON reads SEN set for ever,
    no error flag. *)
Definition stuck_bus : Script := mkScript [] 0x0001 0 [].

(** Every condition and transfer completes at once, every byte is
    acknowledged, the receive register holds 0x5A. *)
Definition quiet_bus : Script := mkScript [] 0 0x5A [].

(** After the read of [I2C_Start]'s read-modify-write, I2CxCON reads the
    collision flag (bit 8) set and no operation pending. *)
Definition collision_idle_bus : Script := mkScript [0] 0x0100 0 [].

(** After the read of [I2C_Start]'s read-modify-write, one iteration of the
    wait loop reads SEN pending and no error flag, the next one reads SEN
    pending and, at its third read, the collision flag. *)
Definition collision_pending_bus : Script :=
  mkScript [0; 0x0001; 0x0001; 0x0001; 0x0001; 0x0001; 0x0101] 0 0 [].

(** After the read of [I2C_Start]'s read-modify-write, one iteration of the
    wait loop reads SEN pending and no error flag; from then on I2CxCON reads
    the collision flag set and no operation pending. *)
Definition collision_late_bus : Script :=
  mkScript [0; 0x0001; 0x0001; 0x0001] 0x0100 0 [].

(** The start and the address byte complete and are acknowledged; during the
    wait of the first read I2CxCON reads RCEN pending, then the overrun flag
    (bit 9); everything after that completes at once. *)
Definition overrun_bus : Script :=
  mkScript [0; 0; 0; 0; 0; 0; 0; 0x0008; 0x0208] 0 0x5A [].

(** The start and the address byte complete and are acknowledged; the
    first data byte is not acknowledged; during the wait of the Stop that
    follows, I2CxCON reads PEN pending and the overrun flag for ever. *)
Definition stuck_stop_bus : Script :=
  mkScript [0; 0; 0; 0; 0; 0; 0; 0x8000] 0x0204 0 [].

(** A byte that is not acknowledged: the transfer completes at once, then
    I2CxCON reads bit 15 set. *)
Definition nack_byte_bus : Script := mkScript [0; 0; 0x8000] 0 0 [].

(** The start completes; after the address byte I2CxCON reads bit 15 set
    (the driver's negative acknowledge test); the stop completes. *)
Definition nack_bus : Script := mkScript [0; 0; 0; 0; 0x8000] 0 0x5A [].

(** ** Vocabulary of the properties *)

Section Vocabulary.

Context {H : Type} `{Hardware H}.

(** [frame s s']: between [s] and [s'] only the peripheral, the status codes
    and the counters of the instrumentation may differ. *)
Record frame (s s' : @Driver H) : Prop := mkFrame {
  fr_busy1 : I2C1_Busy s' = I2C1_Busy s;
  fr_busy2 : I2C2_Busy s' = I2C2_Busy s;
  fr_config1 : I2C1_Config s' = I2C1_Config s;
  fr_config2 : I2C2_Config s' = I2C2_Config s;
  fr_callback1 : i2c1_callback s' = i2c1_callback s;
  fr_callback2 : i2c2_callback s' = i2c2_callback s;
  fr_calls : calls s' = calls s;
  fr_fired : fired s' = fired s
}.

(** [busy_kept s s']: both busy flags are the same in [s] and [s']. *)
Definition busy_kept (s s' : @Driver H) : Prop :=
  forall p, get_busy p s' = get_busy p s.

(** A computation relates every state to the state it leaves. *)
Definition respects (R : @Driver H -> @Driver H -> Prop) {A} (c : M A)
  : Prop :=
  forall s, R s (snd (c s)).

(** No unit has the status code [I2C_STATE_ADDR_NACK]. *)
Definition no_addr_nack (s : @Driver H) : Prop :=
  I2C1_State s <> I2C_STATE_ADDR_NACK /\ I2C2_State s <> I2C_STATE_ADDR_NACK.

Definition keeps (P : @Driver H -> Prop) (s s' : @Driver H) : Prop :=
  P s -> P s'.

(** The operations i2c.c implements, with their arguments.
    [I2C_PrintConfig] only prints the stored configuration and is left out. *)
Inductive Op :=
| OpInit (config : option I2C_Config_t)
| OpDeinit (m : I2C_Module_t)
| OpStart (m : I2C_Module_t)
| OpRestart (m : I2C_Module_t)
| OpStop (m : I2C_Module_t)
| OpWriteByte (m : I2C_Module_t) (data : Z)
| OpReadByte (m : I2C_Module_t) (ack : bool)
| OpWriteData (m : I2C_Module_t) (address : Z) (data : option (list Z))
    (length : Z)
| OpReadData (m : I2C_Module_t) (address : Z) (buffer : option (list Z))
    (length : Z)
| OpWriteRegister (m : I2C_Module_t) (dev_addr reg_addr data : Z)
| OpReadRegister (m : I2C_Module_t) (dev_addr reg_addr : Z)
| OpScanBus (m : I2C_Module_t) (devices : option (list Z)) (max_devices : Z)
| OpCheckDevice (m : I2C_Module_t) (address : Z)
| OpSetCallback (m : I2C_Module_t) (cb : I2C_Callback_t)
| OpISR_Handler (m : I2C_Module_t)
| OpWaitIdle (m : I2C_Module_t) (timeout_ms : Z)
| OpGetLastError (m : I2C_Module_t)
| OpClearErrors (m : I2C_Module_t)
| OpIsBusy (m : I2C_Module_t).

(** The state an operation leaves. *)
Definition run_op (o : Op) (s : @Driver H) : @Driver H :=
  match o with
  | OpInit config => snd (I2C_Init config s)
  | OpDeinit m => snd (I2C_Deinit m s)
  | OpStart m => snd (I2C_Start m s)
  | OpRestart m => snd (I2C_Restart m s)
  | OpStop m => snd (I2C_Stop m s)
  | OpWriteByte m d => snd (I2C_WriteByte m d s)
  | OpReadByte m ack => snd (I2C_ReadByte m ack s)
  | OpWriteData m a d n => snd (I2C_WriteData m a d n s)
  | OpReadData m a b n => snd (I2C_ReadData m a b n s)
  | OpWriteRegister m d r v => snd (I2C_WriteRegister m d r v s)
  | OpReadRegister m d r => snd (I2C_ReadRegister m d r s)
  | OpScanBus m d n => snd (I2C_ScanBus m d n s)
  | OpCheckDevice m a => snd (I2C_CheckDevice m a s)
  | OpSetCallback m cb => snd (I2C_SetCallback m cb s)
  | OpISR_Handler m => snd (I2C_ISR_Handler m s)
  | OpWaitIdle m t => snd (I2C_WaitIdle m t s)
  | OpGetLastError m => snd (I2C_GetLastError m s)
  | OpClearErrors m => snd (I2C_ClearErrors m s)
  | OpIsBusy m => snd (I2C_IsBusy m s)
  end.

Definition run_ops (os : list Op) (s : @Driver H) : @Driver H :=
  fold_left (fun s o => run_op o s) os s.

(** I2CxCON of a unit, and the three volatile reads of one iteration of the
    wait loop that runs through its whole body. *)
Definition i2c_con (module : I2C_Module_t) : Sfr :=
  I2C_REG (_I2C_GetModuleBase module) 0.

Definition first_read (module : I2C_Module_t) : M Z :=
  bind count_poll (fun _ => reg_read (i2c_con module)).

Definition iteration_reads (module : I2C_Module_t) : M (Z * Z * Z) :=
  bind (first_read module) (fun v1 =>
  bind (reg_read (i2c_con module)) (fun v2 =>
  bind (reg_read (i2c_con module)) (fun v3 =>
  ret (v1, v2, v3)))).

Definition pending (v : Z) : bool := nonzero (Z.land v 0x1F).
Definition overrun (v : Z) : bool := nonzero (Z.land v (Z.shiftl 1 9)).
Definition collision (v : Z) : bool := nonzero (Z.land v (Z.shiftl 1 8)).

(** An iteration that finds the operation pending and no error flag. *)
Definition quiet_iteration (module : I2C_Module_t) (s : @Driver H) : bool :=
  let '(v1, v2, v3) := fst (iteration_reads module s) in
  pending v1 && negb (overrun v2) && negb (collision v3).

(** An iteration that finds the operation pending, no overrun, a collision. *)
Definition collision_iteration (module : I2C_Module_t) (s : @Driver H)
  : bool :=
  let '(v1, v2, v3) := fst (iteration_reads module s) in
  pending v1 && negb (overrun v2) && collision v3.

(** An iteration whose first read finds no operation pending. *)
Definition idle_iteration (module : I2C_Module_t) (s : @Driver H) : bool :=
  negb (pending (fst (first_read module s))).

Definition after_iterations (module : I2C_Module_t) (k : nat)
    (s : @Driver H) : @Driver H :=
  Nat.iter k (fun s => snd (iteration_reads module s)) s.

(** The state in which [I2C_Start], called on a unit that is not busy, enters
    the loop of the wait primitive. *)
Definition Start_entry (module : I2C_Module_t) (s : @Driver H) : @Driver H :=
  snd (bind (store_busy (_I2C_GetBusyFlag module) true) (fun _ =>
       bind (store_state (_I2C_GetState module) I2C_STATE_BUSY) (fun _ =>
       bind (reg_or (i2c_con module) 0x0001) (fun _ =>
       count_wait))) s).

(** The state in which [I2C_WriteByte] calls the wait primitive: the
    transmit register is loaded and the transfer is started. *)
Definition WriteByte_entry (module : I2C_Module_t) (data : Z)
    (s : @Driver H) : @Driver H :=
  snd (bind (reg_write (I2C_REG (_I2C_GetModuleBase module) 5) data) (fun _ =>
       reg_or (i2c_con module) 0x0008) s).

(** Both status codes are the same in [s] and [s']. *)
Definition status_kept (s s' : @Driver H) : Prop :=
  forall p, get_state p s' = get_state p s.

(** The value of [timeout_counter] at the start of a wait of a unit. *)
Definition initial_counter (module : I2C_Module_t) (s : @Driver H) : nat :=
  Z.to_nat (uint16 (timeout_ms (get_config (_I2C_GetConfig module) s) * 1000)).

End Vocabulary.

(** A bus operation without its outcome. *)
Inductive BusOp :=
| BusStart (m : I2C_Module_t)
| BusRestart (m : I2C_Module_t)
| BusStop (m : I2C_Module_t)
| BusWriteByte (m : I2C_Module_t) (data : Z)
| BusReadByte (m : I2C_Module_t) (ack : bool).

Definition op_of (c : Call) : BusOp :=
  match c with
  | CallStart m _ => BusStart m
  | CallRestart m _ => BusRestart m
  | CallStop m _ => BusStop m
  | CallWriteByte m d _ => BusWriteByte m d
  | CallReadByte m ack _ _ => BusReadByte m ack
  end.

(** A byte transfer that failed: a write that returned false, a read whose
    wait returned false. *)
Definition byte_failed (c : Call) : bool :=
  match c with
  | CallWriteByte _ _ ok => negb ok
  | CallReadByte _ _ wait_ok _ => negb wait_ok
  | _ => false
  end.

Definition is_write (c : Call) : bool :=
  match c with CallWriteByte _ _ _ => true | _ => false end.

Definition is_read (c : Call) : bool :=
  match c with CallReadByte _ _ _ _ => true | _ => false end.

(** A read that sends a negative acknowledge. *)
Definition is_nack (o : BusOp) : bool :=
  match o with BusReadByte _ false => true | _ => false end.

(** A write that returned false. *)
Definition write_failed (c : Call) : bool := is_write c && byte_failed c.

(** The divider as section 4.1 of the specification words it:
    [cycles/(2 x speed) - 2], clamped to [2, 65535]. *)
Definition divider_spec (cycles speed : Z) : Z :=
  Z.max 2 (Z.min 65535 (cycles / (2 * speed) - 2)).

(** ** Vocabulary of the further properties *)

(** The status codes the wait primitive stores when it fails. *)
Definition wait_error (st : I2C_State_t) : bool :=
  match st with
  | I2C_STATE_TIMEOUT | I2C_STATE_BUS_COLLISION | I2C_STATE_OVERRUN => true
  | _ => false
  end.

(** The status codes that appear on the right of an assignment in i2c.c. *)
Definition stored_code (st : I2C_State_t) : bool :=
  match st with
  | I2C_STATE_IDLE | I2C_STATE_BUSY | I2C_STATE_TIMEOUT
  | I2C_STATE_DATA_NACK | I2C_STATE_BUS_COLLISION | I2C_STATE_OVERRUN => true
  | _ => false
  end.

Definition is_restart (c : Call) : bool :=
  match c with CallRestart _ _ => true | _ => false end.



(** The byte a read returned. *)
Definition read_byte (c : Call) : Z :=
  match c with CallReadByte _ _ _ b => b | _ => 0 end.

(** [l[i] = x0; l[i+1] = x1; ...], with [store_at]. *)
Fixpoint store_list (l : list Z) (i : nat) (xs : list Z) : list Z :=
  match xs with
  | [] => l
  | x :: xs' => store_list (store_at l i x) (S i) xs'
  end.

(** The unit selector an operation is called with; [I2C_Init] takes it from
    the configuration, and does nothing on a null configuration. *)
Definition op_selector (o : Op) : I2C_Module_t :=
  match o with
  | OpInit (Some c) => module c
  | OpInit None => I2C_MODULE_1
  | OpDeinit m | OpStart m | OpRestart m | OpStop m | OpWriteByte m _
  | OpReadByte m _ | OpWriteData m _ _ _ | OpReadData m _ _ _
  | OpWriteRegister m _ _ _ | OpReadRegister m _ _ | OpScanBus m _ _
  | OpCheckDevice m _ | OpSetCallback m _ | OpISR_Handler m | OpWaitIdle m _
  | OpGetLastError m | OpClearErrors m | OpIsBusy m => m
  end.

Definition is_OpInit (o : Op) : bool :=
  match o with OpInit _ => true | _ => false end.


(** The operations that call the wait primitive, directly or not. *)
Definition polled_op (o : Op) : bool :=
  match o with
  | OpStart _ | OpRestart _ | OpStop _ | OpWriteByte _ _ | OpReadByte _ _
  | OpWriteData _ _ _ _ | OpReadData _ _ _ _ | OpWriteRegister _ _ _ _
  | OpReadRegister _ _ _ | OpScanBus _ _ _ | OpCheckDevice _ _ => true
  | _ => false
  end.

(** The operations that contain an assignment to a busy flag. *)
Definition busy_writer (o : Op) : bool :=
  match o with
  | OpInit _ | OpDeinit _ | OpStart _ | OpStop _
  | OpWriteData _ _ _ _ | OpReadData _ _ _ _ | OpWriteRegister _ _ _ _
  | OpReadRegister _ _ _ | OpScanBus _ _ _ | OpCheckDevice _ _ => true
  | _ => false
  end.

Section FurtherVocabulary.

Context {H : Type} `{Hardware H}.

(** I2CxSTAT of a unit, as the driver indexes it. *)
Definition i2c_stat (module : I2C_Module_t) : Sfr :=
  I2C_REG (_I2C_GetModuleBase module) 1.

(** The globals of unit 1, of unit 2, are the same in [s] and [s']. *)
Definition unit1_kept (s s' : @Driver H) : Prop :=
  I2C1_State s' = I2C1_State s /\ I2C1_Busy s' = I2C1_Busy s /\
  I2C1_Config s' = I2C1_Config s /\ i2c1_callback s' = i2c1_callback s.

Definition unit2_kept (s s' : @Driver H) : Prop :=
  I2C2_State s' = I2C2_State s /\ I2C2_Busy s' = I2C2_Busy s /\
  I2C2_Config s' = I2C2_Config s /\ i2c2_callback s' = i2c2_callback s.

(** Both stored configurations are the same in [s] and [s']. *)
Definition config_kept (s s' : @Driver H) : Prop :=
  forall p, get_config p s' = get_config p s.

(** No call of the wait primitive and no bus operation between [s] and
    [s']. *)
Definition no_wait (s s' : @Driver H) : Prop :=
  waits s' = waits s /\ polls s' = polls s /\ calls s' = calls s.

(** Both status codes are among the stored ones. *)
Definition status_in_codes (s : @Driver H) : Prop :=
  stored_code (I2C1_State s) = true /\ stored_code (I2C2_State s) = true.

(** The bus operations recorded between [s] and [s'] include no repeated
    start. *)
Definition no_restart_added (s s' : @Driver H) : Prop :=
  exists new,
    calls s' = calls s ++ new /\
    forallb (fun c => negb (is_restart c)) new = true.

(** The peripheral, the status codes, the busy flags and the counters of
    the wait primitive are the same in [s] and [s']: at most the record of
    calls differs. *)
Definition untouched (s s' : @Driver H) : Prop :=
  hw s' = hw s /\ status_kept s s' /\ busy_kept s s' /\
  waits s' = waits s /\ polls s' = polls s.

(** [post c Q s]: the computation [c], run in [s], returns a value and
    leaves a state that satisfy [Q]. *)
Definition post {A} (c : M A) (Q : A -> @Driver H -> Prop) (s : @Driver H)
  : Prop :=
  Q (fst (c s)) (snd (c s)).

(** The state in which [I2C_ISR_Handler], called with a valid selector,
    reads the status register: the interrupt flag of the unit is cleared. *)
Definition ISR_entry (module : I2C_Module_t) (s : @Driver H) : @Driver H :=
  if module =? I2C_MODULE_1 then snd (bit_write IFS1bits_I2C1BIF 0 s)
  else if module =? I2C_MODULE_2 then snd (bit_write IFS3bits_I2C2BIF 0 s)
  else s.

(** The callback registered for a selector; none for an invalid one. *)
Definition registered (module : I2C_Module_t) (s : @Driver H)
  : I2C_Callback_t :=
  if module =? I2C_MODULE_1 then i2c1_callback s
  else if module =? I2C_MODULE_2 then i2c2_callback s
  else None.

(** What one dispatch of the interrupt handler may add to the record of
    invoked callbacks when [cb] is registered: nothing, or one invocation of
    [cb] with one of the four events the handler knows; only a received byte
    carries a payload. *)
Definition dispatch_shape (cb : I2C_Callback_t)
    (evs : list (nat * I2C_Event_t * Z)) : Prop :=
  evs = [] \/
  exists f e d,
    cb = Some f /\ evs = [(f, e, d)] /\ 0 <= d < 256 /\
    (e = I2C_EVENT_START \/ e = I2C_EVENT_STOP \/
     e = I2C_EVENT_DATA_RECEIVED \/ e = I2C_EVENT_DATA_REQUESTED) /\
    (e <> I2C_EVENT_DATA_RECEIVED -> d = 0).

(** The state [I2C_Init] leaves, up to the peripheral: the configuration is
    stored, the status is idle, the busy flag is clear, the callback is
    registered. *)
Definition Init_globals (config : I2C_Config_t) (s : @Driver H)
  : @Driver H :=
  snd (I2C_SetCallback (module config) (callback config)
         (set_busy (_I2C_GetBusyFlag (module config)) false
            (set_state (_I2C_GetState (module config)) I2C_STATE_IDLE
               (set_config (_I2C_GetConfig (module config)) config s)))).

(** [assigns s s' new]: the assignments to a status code made between [s]
    and [s'] are those of [new], oldest first.  The list holds every
    assignment, also one that a later assignment of the same operation
    overwrites. *)
Definition assigns (s s' : @Driver H)
    (new : list (StatePtr * I2C_State_t)) : Prop :=
  stores s' = stores s ++ new.

(** Every status code assigned between [s] and [s'] is one of the six of
    [stored_code]. *)
Definition assigns_codes (s s' : @Driver H) : Prop :=
  exists new,
    assigns s s' new /\ forallb (fun a => stored_code (snd a)) new = true.

(** The negative acknowledge of the byte [data], as [I2C_WriteByte] called
    in [s] sees it: its wait succeeds and bit 15 of I2CxCON then reads
    set. *)
Definition nacked (module : I2C_Module_t) (data : Z) (s : @Driver H)
  : Prop :=
  fst (_I2C_WaitCondition module
         (timeout_ms (get_config (_I2C_GetConfig module) s))
         (WriteByte_entry module data s)) = true /\
  nonzero
    (Z.land
       (fst (reg_read (i2c_con module)
               (snd (_I2C_WaitCondition module
                       (timeout_ms (get_config (_I2C_GetConfig module) s))
                       (WriteByte_entry module data s)))))
       (Z.shiftl 1 15)) = true.

(** What a transaction between [s] and [s'] leaves on record when its
    address byte [ab] is refused: a successful Start, the write of [ab]
    returning false, a Stop; and three assignments to the status of the
    unit: busy by the Start, data-NACK by the write, then idle by a Stop
    that succeeds or the error of its wait by a Stop that fails. *)
Definition address_nack_recorded (module : I2C_Module_t) (ab : Z)
    (s s' : @Driver H) : Prop :=
  exists ok v,
    calls s' = calls s ++ [CallStart module true;
                           CallWriteByte module ab false;
                           CallStop module ok] /\
    assigns s s' [(_I2C_GetState module, I2C_STATE_BUSY);
                  (_I2C_GetState module, I2C_STATE_DATA_NACK);
                  (_I2C_GetState module, v)] /\
    (if ok then v = I2C_STATE_IDLE else wait_error v = true).

(** The interrupt entry points of i2cmain.c. *)
Definition _I2C1Interrupt : M unit := I2C_ISR_Handler I2C_MODULE_1.
Definition _I2C2Interrupt : M unit := I2C_ISR_Handler I2C_MODULE_2.

End FurtherVocabulary.

(** A peripheral whose every location reads the same value for ever. *)
Record Pinned := mkPinned { pinned_value : Z }.

#[export] Instance Pinned_Hardware : Hardware Pinned := {
  hw_read := fun _ h => (pinned_value h, h);
  hw_write := fun _ _ h => h
}.

(** * Properties *)

Create HintDb drv.

(** ** Relations respected by computations *)

Section Respects.

Context {H : Type} `{Hardware H}.

Context (R : @Driver H -> @Driver H -> Prop).
Context {R_refl : Reflexive R} {R_trans : Transitive R}.

Lemma respects_ret {A} (a : A) : respects R (ret a).
Proof. intros s. reflexivity. Qed.

Lemma respects_get {A} (f : Driver -> A) : respects R (get f).
Proof. intros s. reflexivity. Qed.

Lemma respects_bind {A B} (c : M A) (k : A -> M B) :
  respects R c -> (forall a, respects R (k a)) -> respects R (bind c k).
Proof.
  intros Hc Hk s. unfold bind.
  specialize (Hc s). destruct (c s) as [a s1]. simpl in Hc.
  transitivity s1; [exact Hc | apply Hk].
Qed.

End Respects.

Ltac respects_step :=
  match goal with
  | |- respects _ (bind _ _) =>
    apply respects_bind; [typeclasses eauto | auto with drv | intros ]
  | |- respects _ (ret _) => apply respects_ret; typeclasses eauto
  | |- respects _ (get _) => apply respects_get; typeclasses eauto
  | |- respects _ (if ?b then _ else _) => destruct b
  | |- respects _ (match ?x with _ => _ end) => destruct x
  end.

Ltac respects_tac := repeat respects_step; auto with drv.

Section Frame.

Context {H : Type} `{Hardware H}.

#[export] Instance frame_refl : Reflexive (@frame H).
Proof. intros s. constructor; reflexivity. Qed.

#[export] Instance frame_trans : Transitive (@frame H).
Proof. intros s1 s2 s3 [] []; constructor; etransitivity; eassumption. Qed.

Lemma frame_busy_kept (s s' : @Driver H) : frame s s' -> busy_kept s s'.
Proof. intros [] p; destruct p; assumption. Qed.

Lemma frame_reg_read r : respects frame (reg_read r).
Proof.
  intros s. unfold reg_read. destruct (hw_read r (hw s)).
  constructor; reflexivity.
Qed.

Lemma frame_reg_write r v : respects frame (reg_write r v).
Proof. intros s. constructor; reflexivity. Qed.

Lemma frame_store_state p v : respects (H:=H) frame (store_state p v).
Proof. intros s. destruct p; constructor; reflexivity. Qed.

Lemma frame_count_poll : respects (H:=H) frame count_poll.
Proof. intros s. constructor; reflexivity. Qed.

Lemma frame_count_wait : respects (H:=H) frame count_wait.
Proof. intros s. constructor; reflexivity. Qed.

Hint Resolve frame_reg_read frame_reg_write
  frame_store_state frame_count_poll frame_count_wait : drv.

Lemma frame_wait_loop module n : respects frame (wait_loop module n).
Proof.
  induction n as [|n IH]; simpl; respects_tac.
Qed.

Hint Resolve frame_wait_loop : drv.

Lemma frame_WaitCondition module t :
  respects frame (_I2C_WaitCondition module t).
Proof. unfold _I2C_WaitCondition. respects_tac. Qed.

End Frame.

(** ** Condition sequencer and byte transfer engine *)

Ltac monad_unfold :=
  unfold traced, reg_or, reg_and, bit_write, load_busy, load_state,
    load_config, store_busy, store_state, store_config, reg_write, log,
    count_wait, count_poll, bind, get, ret in *.

(** Name the outcome of the wait of hypothesis [E] and record what the wait
    leaves unchanged. *)
Ltac wait_cases E ok s1 F :=
  match type of E with
  | context [_I2C_WaitCondition ?m ?t ?s] =>
    pose proof (frame_WaitCondition m t s) as F;
    destruct (_I2C_WaitCondition m t s) as [ok s1];
    destruct F; simpl in *
  end.

(** Name the outcome of the first register read of hypothesis [E]. *)
Ltac read_cases E v h :=
  match type of E with
  | context [reg_read ?r ?s] =>
    unfold reg_read in E at 1;
    destruct (hw_read r (hw s)) as [v h]; simpl in E
  end.

Ltac finish E := inversion E; subst; clear E; simpl in *.

Section Sequencer.

Context {H : Type} `{Hardware H}.

Lemma get_state_set_state p v (s : @Driver H) :
  get_state p (set_state p v s) = v.
Proof. destruct p; reflexivity. Qed.

Lemma Start_spec module (s s' : @Driver H) r :
  I2C_Start module s = (r, s') ->
  calls s' = calls s ++ [CallStart module r] /\
  (r = true -> get_busy (_I2C_GetBusyFlag module) s' = true).
Proof.
  unfold I2C_Start. monad_unfold. intros E.
  destruct (_I2C_GetBusyFlag module), (_I2C_GetState module); simpl in E;
    match type of E with
    | context [if ?b then _ else _] => destruct b eqn:Eb
    end; simpl in E; try (finish E; split; [reflexivity | discriminate]);
    read_cases E v h; wait_cases E ok s1 F;
    destruct ok; finish E; split; congruence.
Qed.

Lemma Stop_spec module (s s' : @Driver H) r :
  I2C_Stop module s = (r, s') ->
  calls s' = calls s ++ [CallStop module r] /\
  (r = true ->
   get_busy (_I2C_GetBusyFlag module) s' = false /\
   get_state (_I2C_GetState module) s' = I2C_STATE_IDLE) /\
  (r = false -> busy_kept s s').
Proof.
  unfold I2C_Stop, busy_kept. monad_unfold. intros E.
  destruct (_I2C_GetBusyFlag module), (_I2C_GetState module); simpl in E;
    read_cases E v h; wait_cases E ok s1 F;
    destruct ok; finish E; repeat split; try congruence;
    intros _ p; destruct p; simpl; congruence.
Qed.

Lemma WriteByte_spec module data (s s' : @Driver H) r :
  I2C_WriteByte module data s = (r, s') ->
  calls s' = calls s ++ [CallWriteByte module data r] /\
  busy_kept s s'.
Proof.
  unfold I2C_WriteByte, busy_kept. monad_unfold. intros E. simpl in E.
  read_cases E v h. wait_cases E ok s1 F.
  destruct ok; simpl in E.
  - read_cases E v' h'.
    destruct (nonzero _); destruct (_I2C_GetState module); finish E;
      (split; [|intros p; destruct p]); simpl; congruence.
  - finish E. split; [|intros p; destruct p]; simpl; congruence.
Qed.

Lemma ReadByte_spec module ack (s s' : @Driver H) b :
  I2C_ReadByte module ack s = (b, s') ->
  (exists wait_ok,
     calls s' = calls s ++ [CallReadByte module ack wait_ok b]) /\
  busy_kept s s'.
Proof.
  unfold I2C_ReadByte, busy_kept. monad_unfold. intros E.
  destruct ack; simpl in E; read_cases E v h; read_cases E v' h';
    wait_cases E ok s1 F; read_cases E v2 h2; finish E;
    (split; [exists ok; congruence | intros p; destruct p; simpl; congruence]).
Qed.

End Sequencer.

(** ** Transaction orchestrator *)

Section Orchestrator.

Context {H : Type} `{Hardware H}.

Lemma busy_kept_refl (s : @Driver H) : busy_kept s s.
Proof. intros p. reflexivity. Qed.

Lemma busy_kept_trans (s1 s2 s3 : @Driver H) :
  busy_kept s1 s2 -> busy_kept s2 s3 -> busy_kept s1 s3.
Proof. intros H12 H23 p. rewrite H23. apply H12. Qed.

(** What the loop of [I2C_WriteData] adds to the record of calls: writes
    that all succeeded when the loop runs to its end; successful writes, one
    failed write and a Stop when it returns early. *)
Lemma WriteData_loop_spec module data remaining :
  forall i (s s' : @Driver H) r,
    WriteData_loop module data remaining i s = (r, s') ->
    exists ws,
      calls s' = calls s ++ ws /\
      match r with
      | None =>
        forallb is_write ws = true /\ existsb byte_failed ws = false /\
        busy_kept s s'
      | Some b =>
        b = false /\
        exists ws0 ok,
          ws = ws0 ++ [CallStop module ok] /\
          forallb is_write ws0 = true /\ existsb byte_failed ws0 = true /\
          (get_busy (_I2C_GetBusyFlag module) s = true ->
           get_busy (_I2C_GetBusyFlag module) s' = negb ok)
      end.
Proof.
  induction remaining as [|n IH]; intros i s s' r E; simpl in E.
  - inversion E; subst. exists []. rewrite app_nil_r.
    repeat split.
  - unfold bind in E.
    destruct (I2C_WriteByte module (data_at data i) s) as [ok s1] eqn:EW.
    apply WriteByte_spec in EW as [Hc Hb].
    destruct ok; simpl in E.
    + apply IH in E as (ws & Hws & Hr).
      exists (CallWriteByte module (data_at data i) true :: ws). split.
      * rewrite Hws, Hc, <- app_assoc. reflexivity.
      * destruct r as [b|].
        -- destruct Hr as (Hbf & ws0 & ok & Hw0 & Hall & Hex & Hbusy).
           split; [exact Hbf|].
           exists (CallWriteByte module (data_at data i) true :: ws0), ok.
           repeat split.
           ++ rewrite Hw0. reflexivity.
           ++ simpl. exact Hall.
           ++ simpl. exact Hex.
           ++ intros Hs. apply Hbusy. rewrite Hb. exact Hs.
        -- destruct Hr as (Hall & Hex & Hk). repeat split.
           ++ simpl. exact Hall.
           ++ simpl. exact Hex.
           ++ eapply busy_kept_trans; eassumption.
    + destruct (I2C_Stop module s1) as [ok2 s2] eqn:ES.
      apply Stop_spec in ES as (Hc2 & Htrue & Hfalse).
      unfold ret in E; simpl in E. inversion E; subst.
      exists [CallWriteByte module (data_at data i) false;
              CallStop module ok2].
      split.
      * rewrite Hc2, Hc, <- app_assoc. reflexivity.
      * split; [reflexivity|].
        exists [CallWriteByte module (data_at data i) false], ok2.
        repeat split. intros Hs. destruct ok2; simpl.
        -- apply Htrue. reflexivity.
        -- rewrite (Hfalse eq_refl), Hb. exact Hs.
Qed.

(** The record of one call of [I2C_WriteData] that got past its argument
    check: a Start that failed, or a Start that succeeded, writes and a Stop;
    the value returned and the busy flag in the second case. *)
Lemma WriteData_spec module address data length (s s' : @Driver H) r :
  length <> 0 ->
  I2C_WriteData module address (Some data) length s = (r, s') ->
  exists new,
    calls s' = calls s ++ new /\
    ((new = [CallStart module false] /\ r = false) \/
     (exists ws ok,
        new = CallStart module true :: ws ++ [CallStop module ok] /\
        forallb is_write ws = true /\
        r = negb (existsb byte_failed ws) && ok /\
        get_busy (_I2C_GetBusyFlag module) s' = negb ok)).
Proof.
  intros Hlen E. unfold I2C_WriteData in E.
  apply Z.eqb_neq in Hlen. rewrite Hlen in E. unfold bind in E.
  set (ab := uint8 (Z.lor (Z.shiftl address 1) 0)) in *.
  destruct (I2C_Start module s) as [ok s1] eqn:ES.
  apply Start_spec in ES as [Hc Hbusy].
  destruct ok; cbn [negb] in E.
  - specialize (Hbusy eq_refl).
    destruct (I2C_WriteByte module ab s1) as [okA s2] eqn:EW.
    apply WriteByte_spec in EW as [HcA HbA].
    destruct okA; cbn [negb] in E.
    + destruct (WriteData_loop module data (Z.to_nat length) 0 s2)
        as [rl s3] eqn:EL.
      apply WriteData_loop_spec in EL as (ws & Hws & Hr).
      assert (Hb2 : get_busy (_I2C_GetBusyFlag module) s2 = true)
        by (rewrite HbA; exact Hbusy).
      destruct rl as [b|].
      * destruct Hr as (Hbf & ws0 & ok & Hw0 & Hall & Hex & Hb3).
        unfold ret in E; cbn beta in E. injection E as <- <-. subst b ws.
        exists (CallStart module true :: (CallWriteByte module ab true :: ws0)
                  ++ [CallStop module ok]).
        split.
        -- rewrite Hws, HcA, Hc, <- !app_assoc. reflexivity.
        -- right. exists (CallWriteByte module ab true :: ws0), ok.
           repeat split.
           ++ simpl. exact Hall.
           ++ simpl. rewrite Hex. reflexivity.
           ++ apply Hb3. exact Hb2.
      * destruct Hr as (Hall & Hex & Hk).
        destruct (I2C_Stop module s3) as [ok s4] eqn:EP.
        apply Stop_spec in EP as (Hc4 & Htrue & Hfalse).
        injection E as <- <-.
        exists (CallStart module true :: (CallWriteByte module ab true :: ws)
                  ++ [CallStop module ok]).
        split.
        -- rewrite Hc4, Hws, HcA, Hc, <- !app_assoc. reflexivity.
        -- right. exists (CallWriteByte module ab true :: ws), ok.
           repeat split.
           ++ simpl. exact Hall.
           ++ simpl. rewrite Hex. reflexivity.
           ++ destruct ok; simpl.
              ** apply Htrue. reflexivity.
              ** rewrite (Hfalse eq_refl), Hk. exact Hb2.
    + destruct (I2C_Stop module s2) as [ok s3] eqn:EP.
      apply Stop_spec in EP as (Hc3 & Htrue & Hfalse).
      unfold ret in E; cbn beta in E. injection E as <- <-.
      exists (CallStart module true :: [CallWriteByte module ab false]
                ++ [CallStop module ok]).
      split.
      * rewrite Hc3, HcA, Hc, <- !app_assoc. reflexivity.
      * right. exists [CallWriteByte module ab false], ok.
        repeat split. destruct ok; simpl.
        -- apply Htrue. reflexivity.
        -- rewrite (Hfalse eq_refl), HbA. exact Hbusy.
  - unfold ret in E; cbn beta in E. injection E as <- <-.
    exists [CallStart module false]. split; [exact Hc|].
    left. split; reflexivity.
Qed.

(** What the loop of [I2C_ReadData] adds to the record of calls: one read per
    index, with an acknowledge exactly at the indices below [length - 1]. *)
Lemma ReadData_loop_spec module length remaining :
  forall i buf (s s' : @Driver H) buf',
    ReadData_loop module length remaining i buf s = (buf', s') ->
    exists rs,
      calls s' = calls s ++ rs /\
      map op_of rs =
        map (fun j => BusReadByte module (i + Z.of_nat j <? length - 1))
          (seq 0 remaining) /\
      forallb is_read rs = true /\
      busy_kept s s'.
Proof.
  induction remaining as [|n IH]; intros i buf s s' buf' E; simpl in E.
  - unfold ret in E. injection E as <- <-. exists []. rewrite app_nil_r.
    repeat split.
  - unfold bind in E.
    destruct (I2C_ReadByte module (i <? length - 1) s) as [b s1] eqn:ER.
    apply ReadByte_spec in ER as [[wait_ok Hc] Hb].
    apply IH in E as (rs & Hrs & Hops & Hall & Hk).
    exists (CallReadByte module (i <? length - 1) wait_ok b :: rs).
    repeat split.
    + rewrite Hrs, Hc, <- app_assoc. reflexivity.
    + cbn [map seq op_of]. rewrite Z.add_0_r. f_equal.
      rewrite Hops, <- seq_shift, map_map.
      apply map_ext. intros j. do 2 f_equal. rewrite Nat2Z.inj_succ. lia.
    + simpl. exact Hall.
    + eapply busy_kept_trans; eassumption.
Qed.

(** The acknowledge pattern of a read of [n + 1] bytes. *)
Lemma ack_pattern module n :
  map (fun j => BusReadByte module (0 + Z.of_nat j <? Z.of_nat (S n) - 1))
    (seq 0 (S n)) =
  repeat (BusReadByte module true) n ++ [BusReadByte module false].
Proof.
  rewrite seq_S, map_app. f_equal.
  - rewrite <- (length_seq n 0) at 2. rewrite <- map_const.
    apply map_ext_in. intros j Hj. apply in_seq in Hj. f_equal.
    apply Z.ltb_lt. lia.
  - cbn [map]. do 2 f_equal. apply Z.ltb_ge. lia.
Qed.

(** The record of one call of [I2C_ReadData] that got past its argument
    check. *)
Lemma ReadData_spec module address buf length (s s' : @Driver H) r :
  length <> 0 ->
  I2C_ReadData module address (Some buf) length s = (r, s') ->
  exists new,
    calls s' = calls s ++ new /\
    ((new = [CallStart module false] /\ fst r = false) \/
     (exists ok,
        new = [CallStart module true;
               CallWriteByte module
                 (uint8 (Z.lor (Z.shiftl address 1) 0x01)) false;
               CallStop module ok] /\
        fst r = false) \/
     (exists rs ok,
        new = CallStart module true
              :: CallWriteByte module
                   (uint8 (Z.lor (Z.shiftl address 1) 0x01)) true
              :: rs ++ [CallStop module ok] /\
        map op_of rs =
          map (fun j => BusReadByte module (0 + Z.of_nat j <? length - 1))
            (seq 0 (Z.to_nat length)) /\
        forallb is_read rs = true /\
        fst r = ok)).
Proof.
  intros Hlen E. unfold I2C_ReadData in E.
  apply Z.eqb_neq in Hlen. rewrite Hlen in E. unfold bind in E.
  set (ab := uint8 (Z.lor (Z.shiftl address 1) 1)) in *.
  destruct (I2C_Start module s) as [ok s1] eqn:ES.
  apply Start_spec in ES as [Hc _].
  destruct ok; cbn [negb] in E.
  - destruct (I2C_WriteByte module ab s1) as [okA s2] eqn:EW.
    apply WriteByte_spec in EW as [HcA _].
    destruct okA; cbn [negb] in E.
    + destruct (ReadData_loop module length (Z.to_nat length) 0 buf s2)
        as [buf' s3] eqn:EL.
      apply ReadData_loop_spec in EL as (rs & Hrs & Hops & Hall & _).
      destruct (I2C_Stop module s3) as [ok s4] eqn:EP.
      apply Stop_spec in EP as (Hc4 & _).
      unfold ret in E. injection E as <- <-.
      exists (CallStart module true :: CallWriteByte module ab true
                :: rs ++ [CallStop module ok]).
      split.
      * rewrite Hc4, Hrs, HcA, Hc, <- !app_assoc. reflexivity.
      * right. right. exists rs, ok. repeat split; assumption.
    + destruct (I2C_Stop module s2) as [ok s3] eqn:EP.
      apply Stop_spec in EP as (Hc3 & _).
      unfold ret in E. injection E as <- <-.
      exists [CallStart module true; CallWriteByte module ab false;
              CallStop module ok].
      split.
      * rewrite Hc3, HcA, Hc, <- !app_assoc. reflexivity.
      * right. left. exists ok. split; reflexivity.
  - unfold ret in E. injection E as <- <-.
    exists [CallStart module false]. split; [exact Hc|].
    left. split; reflexivity.
Qed.

End Orchestrator.

(** ** Timing calculator *)

(** Where the code and section 4.1 agree: for a speed below 2^31 Hz the
    result is the clamped divider as soon as the quotient is at least 2; a
    quotient of 0 or 1 makes the unsigned subtraction wrap around, and the
    result is the upper bound. *)
Lemma CalculateBRG_value fcy desired_speed :
  0 <= fcy < 2 ^ 32 -> 0 < desired_speed < 2 ^ 31 ->
  _I2C_CalculateBRG fcy desired_speed =
  Some (if fcy / (2 * desired_speed) <? 2 then 65535
        else divider_spec fcy desired_speed).
Proof.
  intros Hf Hs. unfold _I2C_CalculateBRG, divider_spec, uint32, uint16.
  rewrite (Z.mod_small (2 * desired_speed)) by lia.
  destruct (2 * desired_speed =? 0) eqn:E0; [apply Z.eqb_eq in E0; lia|].
  assert (Hq : 0 <= fcy / (2 * desired_speed) < 2 ^ 32).
  { split; [apply Z.div_pos; lia|].
    apply Z.div_lt_upper_bound; nia. }
  set (q := fcy / (2 * desired_speed)) in *.
  destruct (q <? 2) eqn:Eq.
  - apply Z.ltb_lt in Eq.
    assert (Hw : (q - 2) mod 2 ^ 32 = q - 2 + 2 ^ 32).
    { symmetry. apply (Z.mod_unique _ _ (-1)); lia. }
    rewrite Hw.
    destruct (q - 2 + 2 ^ 32 >? 65535) eqn:E1;
      [|rewrite Z.gtb_ltb in E1; apply Z.ltb_ge in E1; lia].
    reflexivity.
  - apply Z.ltb_ge in Eq.
    rewrite (Z.mod_small (q - 2)) by lia.
    destruct (q - 2 >? 65535) eqn:E1; rewrite Z.gtb_ltb in E1.
    + apply Z.ltb_lt in E1. f_equal. transitivity 65535; [reflexivity | lia].
    + apply Z.ltb_ge in E1.
      destruct (q - 2 <? 2) eqn:E2.
      * apply Z.ltb_lt in E2. f_equal. transitivity 2; [reflexivity | lia].
      * apply Z.ltb_ge in E2. rewrite Z.mod_small by lia. f_equal. lia.
Qed.

(** C3 (code defect).  With the instruction clock [I2C_Init] passes,
    40 MHz, and a requested speed of 20 MHz, [cycles/(2 x speed) - 2] is -1:
    below the range, so that the divider of section 4.1 is the lower bound 2.
    The code subtracts in unsigned 32-bit arithmetic, the difference wraps
    around to 0xFFFFFFFF and is clamped to the upper bound 65535.  The same
    happens with a 1 MHz clock at the standard speed of 400 kHz. *)
Theorem CalculateBRG_wraps_below_range :
  _I2C_CalculateBRG 40000000 20000000 = Some 65535 /\
  divider_spec 40000000 20000000 = 2 /\
  _I2C_CalculateBRG 1000000 400000 = Some 65535 /\
  divider_spec 1000000 400000 = 2.
Proof. repeat split; vm_compute; reflexivity. Qed.

(** ** Per-unit accessors *)

(** C8 (as stated, refuted).  The selector 3 is none of the two valid
    selectors, and each of the four accessors resolves it to the registers
    and the state of unit 1. *)
Lemma invalid_selector_resolves_to_unit1 :
  _I2C_GetModuleBase 3 = _I2C_GetModuleBase I2C_MODULE_1 /\
  _I2C_GetState 3 = _I2C_GetState I2C_MODULE_1 /\
  _I2C_GetBusyFlag 3 = _I2C_GetBusyFlag I2C_MODULE_1 /\
  _I2C_GetConfig 3 = _I2C_GetConfig I2C_MODULE_1.
Proof. repeat split. Qed.

(** C8 (amended).  Each accessor resolves the selector 1 to unit 1 and the
    selector 2 to unit 2, and resolves every other selector to unit 1 (the
    default branch of its switch). *)
Theorem accessors_resolve (module : I2C_Module_t) :
  module <> I2C_MODULE_1 -> module <> I2C_MODULE_2 ->
  (_I2C_GetModuleBase module = I2C1CON /\
   _I2C_GetState module = Addr_I2C1_State /\
   _I2C_GetBusyFlag module = Addr_I2C1_Busy /\
   _I2C_GetConfig module = Addr_I2C1_Config) /\
  (_I2C_GetModuleBase I2C_MODULE_1 = I2C1CON /\
   _I2C_GetState I2C_MODULE_1 = Addr_I2C1_State /\
   _I2C_GetBusyFlag I2C_MODULE_1 = Addr_I2C1_Busy /\
   _I2C_GetConfig I2C_MODULE_1 = Addr_I2C1_Config) /\
  (_I2C_GetModuleBase I2C_MODULE_2 = I2C2CON /\
   _I2C_GetState I2C_MODULE_2 = Addr_I2C2_State /\
   _I2C_GetBusyFlag I2C_MODULE_2 = Addr_I2C2_Busy /\
   _I2C_GetConfig I2C_MODULE_2 = Addr_I2C2_Config).
Proof.
  intros H1 H2.
  unfold _I2C_GetModuleBase, _I2C_GetState, _I2C_GetBusyFlag, _I2C_GetConfig.
  apply Z.eqb_neq in H1, H2. rewrite H1, H2. repeat split.
Qed.

Lemma accessors_resolve_witness :
  (_I2C_GetModuleBase 0 = I2C1CON /\
   _I2C_GetState 0 = Addr_I2C1_State /\
   _I2C_GetBusyFlag 0 = Addr_I2C1_Busy /\
   _I2C_GetConfig 0 = Addr_I2C1_Config) /\
  (_I2C_GetModuleBase I2C_MODULE_1 = I2C1CON /\
   _I2C_GetState I2C_MODULE_1 = Addr_I2C1_State /\
   _I2C_GetBusyFlag I2C_MODULE_1 = Addr_I2C1_Busy /\
   _I2C_GetConfig I2C_MODULE_1 = Addr_I2C1_Config) /\
  (_I2C_GetModuleBase I2C_MODULE_2 = I2C2CON /\
   _I2C_GetState I2C_MODULE_2 = Addr_I2C2_State /\
   _I2C_GetBusyFlag I2C_MODULE_2 = Addr_I2C2_Busy /\
   _I2C_GetConfig I2C_MODULE_2 = Addr_I2C2_Config).
Proof. apply (accessors_resolve 0); discriminate. Defined.

(** ** Start on a busy unit, transfers without data *)

Section Guards.

Context {H : Type} `{Hardware H}.

(** C4.  [I2C_Start] on a unit whose busy flag is set returns false at once:
    the wait primitive is not called, its loop condition is not evaluated,
    the peripheral is not touched, and the busy flags and the status codes
    are as before. *)
Theorem Start_on_busy_unit (module : I2C_Module_t) (s : @Driver H) :
  get_busy (_I2C_GetBusyFlag module) s = true ->
  fst (I2C_Start module s) = false /\
  waits (snd (I2C_Start module s)) = waits s /\
  polls (snd (I2C_Start module s)) = polls s /\
  hw (snd (I2C_Start module s)) = hw s /\
  busy_kept s (snd (I2C_Start module s)) /\
  I2C1_State (snd (I2C_Start module s)) = I2C1_State s /\
  I2C2_State (snd (I2C_Start module s)) = I2C2_State s.
Proof.
  intros Hb. unfold I2C_Start, busy_kept. monad_unfold. rewrite Hb. simpl.
  repeat split.
Qed.

(** C10.  With a length of 0 or a null pointer, [I2C_WriteData] and
    [I2C_ReadData] return false and leave the whole state as it was: no
    register is accessed, no bus operation is started, the busy flags and
    the status codes are unchanged; the caller's buffer is unchanged too. *)
Theorem no_transfer_without_data (module : I2C_Module_t) (address : Z)
    (data : option (list Z)) (length : Z) (s : @Driver H) :
  length = 0 \/ data = None ->
  I2C_WriteData module address data length s = (false, s) /\
  I2C_ReadData module address data length s = ((false, data), s).
Proof.
  intros [Hl | Hd]; subst.
  - destruct data; split; reflexivity.
  - split; reflexivity.
Qed.

End Guards.

Lemma Start_on_busy_unit_witness :
  let s := set_busy Addr_I2C1_Busy true (master_with_timeout 1 stuck_bus) in
  fst (I2C_Start 1 s) = false /\
  waits (snd (I2C_Start 1 s)) = waits s /\
  polls (snd (I2C_Start 1 s)) = polls s /\
  hw (snd (I2C_Start 1 s)) = hw s /\
  busy_kept s (snd (I2C_Start 1 s)) /\
  I2C1_State (snd (I2C_Start 1 s)) = I2C1_State s /\
  I2C2_State (snd (I2C_Start 1 s)) = I2C2_State s.
Proof.
  apply (Start_on_busy_unit 1
           (set_busy Addr_I2C1_Busy true (master_with_timeout 1 stuck_bus))).
  reflexivity.
Defined.

Lemma no_transfer_without_data_witness :
  I2C_WriteData 1 0x50 (Some [1; 2]) 0 (master_with_timeout 1 quiet_bus) =
    (false, master_with_timeout 1 quiet_bus) /\
  I2C_ReadData 1 0x50 (Some [1; 2]) 0 (master_with_timeout 1 quiet_bus) =
    ((false, Some [1; 2]), master_with_timeout 1 quiet_bus).
Proof.
  apply (no_transfer_without_data 1 0x50 (Some [1; 2]) 0
           (master_with_timeout 1 quiet_bus)).
  left. reflexivity.
Defined.

(** ** The wait primitive *)

Section Wait.

Context {H : Type} `{Hardware H}.

Lemma wait_loop_unfold module n (s : @Driver H) :
  wait_loop module n s =
  let (v1, s1) := first_read module s in
  if negb (pending v1) then (Some (Z.of_nat n), s1)
  else
    match n with
    | O => (Some (uint32 (0 - 1)), s1)
    | S n' =>
      let (v2, s2) := reg_read (i2c_con module) s1 in
      if overrun v2 then
        (None, set_state (_I2C_GetState module) I2C_STATE_OVERRUN s2)
      else
        let (v3, s3) := reg_read (i2c_con module) s2 in
        if collision v3 then
          (None, set_state (_I2C_GetState module) I2C_STATE_BUS_COLLISION s3)
        else wait_loop module n' s3
    end.
Proof.
  destruct n; cbn [wait_loop]; unfold first_read, i2c_con, pending, overrun,
    collision; monad_unfold; cbn [count_poll fst snd];
    destruct (reg_read _ _) as [v1 s1];
    destruct (negb (nonzero (Z.land v1 31))); try reflexivity.
  destruct (reg_read _ s1) as [v2 s2].
  destruct (nonzero (Z.land v2 (Z.shiftl 1 9))); try reflexivity.
  destruct (reg_read _ s2) as [v3 s3].
  destruct (nonzero (Z.land v3 (Z.shiftl 1 8))); reflexivity.
Qed.

Lemma wait_loop_idle module n (s : @Driver H) :
  idle_iteration module s = true ->
  wait_loop module n s = (Some (Z.of_nat n), snd (first_read module s)).
Proof.
  unfold idle_iteration. intros Hi. rewrite wait_loop_unfold.
  destruct (first_read module s) as [v1 s1]. simpl in *. rewrite Hi.
  reflexivity.
Qed.

Lemma wait_loop_quiet module n (s : @Driver H) :
  quiet_iteration module s = true ->
  wait_loop module (S n) s =
  wait_loop module n (snd (iteration_reads module s)).
Proof.
  unfold quiet_iteration, iteration_reads, bind, ret. intros Hq.
  rewrite wait_loop_unfold.
  destruct (first_read module s) as [v1 s1].
  destruct (reg_read (i2c_con module) s1) as [v2 s2].
  destruct (reg_read (i2c_con module) s2) as [v3 s3]. simpl in *.
  apply andb_prop in Hq as [Hq H3]. apply andb_prop in Hq as [H1 H2].
  rewrite H1. apply negb_true_iff in H2, H3. rewrite H2, H3. reflexivity.
Qed.

Lemma wait_loop_collision module n (s : @Driver H) :
  collision_iteration module s = true ->
  wait_loop module (S n) s =
  (None, set_state (_I2C_GetState module) I2C_STATE_BUS_COLLISION
           (snd (iteration_reads module s))).
Proof.
  unfold collision_iteration, iteration_reads, bind, ret. intros Hq.
  rewrite wait_loop_unfold.
  destruct (first_read module s) as [v1 s1].
  destruct (reg_read (i2c_con module) s1) as [v2 s2].
  destruct (reg_read (i2c_con module) s2) as [v3 s3]. simpl in *.
  apply andb_prop in Hq as [Hq H3]. apply andb_prop in Hq as [H1 H2].
  rewrite H1. apply negb_true_iff in H2. rewrite H2, H3. reflexivity.
Qed.

Lemma after_iterations_S module k (s : @Driver H) :
  after_iterations module (S k) s =
  after_iterations module k (snd (iteration_reads module s)).
Proof. unfold after_iterations. apply Nat.iter_succ_r. Qed.

Lemma wait_loop_after module k :
  forall n (s : @Driver H),
    (forall j, (j < k)%nat ->
       quiet_iteration module (after_iterations module j s) = true) ->
    wait_loop module (k + n) s =
    wait_loop module n (after_iterations module k s).
Proof.
  induction k as [|k IH]; intros n s Hq; [reflexivity|].
  rewrite after_iterations_S. cbn [Nat.add].
  rewrite wait_loop_quiet by (apply (Hq 0%nat); lia).
  apply IH. intros j Hj. rewrite <- after_iterations_S. apply Hq. lia.
Qed.

Lemma first_read_kept module (s : @Driver H) :
  status_kept s (snd (first_read module s)) /\
  busy_kept s (snd (first_read module s)).
Proof.
  unfold first_read, reg_read. monad_unfold. simpl.
  destruct (hw_read _ _). split; intros p; destruct p; reflexivity.
Qed.

Lemma iteration_reads_kept module (s : @Driver H) :
  status_kept s (snd (iteration_reads module s)) /\
  busy_kept s (snd (iteration_reads module s)).
Proof.
  unfold iteration_reads, first_read, reg_read. monad_unfold. simpl.
  repeat (destruct (hw_read _ _); simpl).
  split; intros p; destruct p; reflexivity.
Qed.

Lemma after_iterations_kept module k (s : @Driver H) :
  status_kept s (after_iterations module k s) /\
  busy_kept s (after_iterations module k s).
Proof.
  induction k as [|k [IHs IHb]]; [split; intros p; reflexivity|].
  cbn [after_iterations Nat.iter].
  destruct (iteration_reads_kept module (after_iterations module k s))
    as [Hs Hb].
  split; intros p.
  - unfold after_iterations in *. rewrite Hs. apply IHs.
  - unfold after_iterations in *. rewrite Hb. apply IHb.
Qed.

(** [I2C_Start] on a unit that is not busy, in terms of the loop. *)
Lemma Start_not_busy module (s : @Driver H) :
  get_busy (_I2C_GetBusyFlag module) s = false ->
  I2C_Start module s =
  let (r, s1) :=
    wait_loop module (initial_counter module s) (Start_entry module s) in
  match r with
  | None =>
    (false, snd (log (CallStart module false)
                   (set_busy (_I2C_GetBusyFlag module) false s1)))
  | Some c =>
    if c =? 0 then
      (false, snd (log (CallStart module false)
                     (set_busy (_I2C_GetBusyFlag module) false
                        (set_state (_I2C_GetState module) I2C_STATE_TIMEOUT
                           s1))))
    else (true, snd (log (CallStart module true) s1))
  end.
Proof.
  intros Hb.
  unfold I2C_Start, _I2C_WaitCondition, Start_entry, initial_counter, i2c_con.
  monad_unfold. rewrite Hb. unfold reg_read.
  destruct (hw_read _ (hw _)) as [v h]. cbn [fst snd].
  match goal with
  | |- context [wait_loop module (Z.to_nat (uint16 (timeout_ms ?c * 1000)))] =>
    replace c with (get_config (_I2C_GetConfig module) s)
      by (destruct (_I2C_GetConfig module), (_I2C_GetState module),
            (_I2C_GetBusyFlag module); reflexivity)
  end.
  destruct (wait_loop _ _ _) as [[c|] s1]; [destruct (c =? 0)|]; reflexivity.
Qed.

Lemma Start_entry_state module (s : @Driver H) :
  get_state (_I2C_GetState module) (Start_entry module s) = I2C_STATE_BUSY /\
  get_busy (_I2C_GetBusyFlag module) (Start_entry module s) = true.
Proof.
  unfold Start_entry, i2c_con. monad_unfold. unfold reg_read.
  destruct (_I2C_GetState module), (_I2C_GetBusyFlag module); simpl;
    destruct (hw_read _ _); split; reflexivity.
Qed.

(** C2 (amended).  [I2C_Start] is called on a unit that is not busy; its
    wait loop runs [k] iterations that find the start pending and no error
    flag, and the counter has not run out ([k] is below its initial value).
    - If the next iteration reads the start pending, then the overrun flag
      clear, then the collision flag set, [I2C_Start] returns false, the
      status of the unit is bus collision and its busy flag is clear.
    - If the first read of the next iteration finds nothing pending, the
      loop ends there: no further register is read, whatever the collision
      flag is, and [I2C_Start] returns true with the unit busy and its status
      busy.
    The pending bits and the counter are tested before the error flags. *)
Theorem Start_collision_while_pending (module : I2C_Module_t)
    (s : @Driver H) (k : nat) :
  get_busy (_I2C_GetBusyFlag module) s = false ->
  (k < initial_counter module s)%nat ->
  (forall j, (j < k)%nat ->
     quiet_iteration module
       (after_iterations module j (Start_entry module s)) = true) ->
  (collision_iteration module
     (after_iterations module k (Start_entry module s)) = true ->
   fst (I2C_Start module s) = false /\
   get_state (_I2C_GetState module) (snd (I2C_Start module s))
     = I2C_STATE_BUS_COLLISION /\
   get_busy (_I2C_GetBusyFlag module) (snd (I2C_Start module s)) = false) /\
  (idle_iteration module
     (after_iterations module k (Start_entry module s)) = true ->
   fst (I2C_Start module s) = true /\
   get_state (_I2C_GetState module) (snd (I2C_Start module s))
     = I2C_STATE_BUSY /\
   get_busy (_I2C_GetBusyFlag module) (snd (I2C_Start module s)) = true /\
   hw (snd (I2C_Start module s))
     = hw (snd (first_read module
                  (after_iterations module k (Start_entry module s))))).
Proof.
  intros Hb Hk Hq.
  rewrite (Start_not_busy _ _ Hb).
  destruct (initial_counter module s) as [|n] eqn:En; [lia|].
  replace (S n) with (k + S (n - k))%nat by lia.
  rewrite (wait_loop_after _ _ _ _ Hq).
  set (sk := after_iterations module k (Start_entry module s)).
  destruct (Start_entry_state module s) as [Hst Hbu].
  destruct (after_iterations_kept module k (Start_entry module s))
    as [Ks Kb].
  fold sk in Ks, Kb.
  split; intros Hit.
  - rewrite (wait_loop_collision _ _ _ Hit). unfold log. cbn [fst snd].
    destruct (_I2C_GetState module), (_I2C_GetBusyFlag module);
      repeat split.
  - rewrite (wait_loop_idle _ _ _ Hit).
    destruct (first_read_kept module sk) as [Fs Fb].
    replace (Z.of_nat (S (n - k)) =? 0) with false
      by (symmetry; apply Z.eqb_neq; lia).
    unfold log. cbn [fst snd].
    specialize (Fs (_I2C_GetState module)).
    specialize (Fb (_I2C_GetBusyFlag module)).
    rewrite Ks, Hst in Fs. rewrite Kb, Hbu in Fb.
    destruct (_I2C_GetState module), (_I2C_GetBusyFlag module);
      repeat split; assumption.
Qed.

End Wait.

(** C2 (as stated, refuted).  [I2C_Start] is called over
    [collision_idle_bus]: the first read of the wait loop finds the
    collision flag set and no operation pending.  The loop ends on the
    pending test, the collision flag is not examined, and [I2C_Start]
    returns true with the status busy. *)
Lemma Start_ignores_collision_when_idle :
  let s := master_with_timeout 1 collision_idle_bus in
  let v := fst (first_read 1 (Start_entry 1 s)) in
  collision v = true /\
  pending v = false /\
  fst (I2C_Start 1 s) = true /\
  I2C1_State (snd (I2C_Start 1 s)) = I2C_STATE_BUSY /\
  I2C1_State (snd (I2C_Start 1 s)) <> I2C_STATE_BUS_COLLISION /\
  polls (snd (I2C_Start 1 s)) = 1%nat.
Proof. vm_compute. repeat split; discriminate. Qed.

Lemma Start_collision_while_pending_witness :
  (fst (I2C_Start 1 (master_with_timeout 1 collision_pending_bus)) = false /\
   get_state (_I2C_GetState 1)
     (snd (I2C_Start 1 (master_with_timeout 1 collision_pending_bus)))
     = I2C_STATE_BUS_COLLISION /\
   get_busy (_I2C_GetBusyFlag 1)
     (snd (I2C_Start 1 (master_with_timeout 1 collision_pending_bus)))
     = false) /\
  (fst (I2C_Start 1 (master_with_timeout 1 collision_late_bus)) = true /\
   get_state (_I2C_GetState 1)
     (snd (I2C_Start 1 (master_with_timeout 1 collision_late_bus)))
     = I2C_STATE_BUSY /\
   get_busy (_I2C_GetBusyFlag 1)
     (snd (I2C_Start 1 (master_with_timeout 1 collision_late_bus))) = true /\
   hw (snd (I2C_Start 1 (master_with_timeout 1 collision_late_bus)))
     = hw (snd (first_read 1
                  (after_iterations 1 1
                     (Start_entry 1
                        (master_with_timeout 1 collision_late_bus)))))).
Proof.
  split.
  - apply (proj1 (Start_collision_while_pending 1
                    (master_with_timeout 1 collision_pending_bus) 1
                    eq_refl
                    ltac:(vm_compute; lia)
                    ltac:(intros j Hj; assert (j = 0%nat) as -> by lia;
                          reflexivity))).
    reflexivity.
  - apply (proj2 (Start_collision_while_pending 1
                    (master_with_timeout 1 collision_late_bus) 1
                    eq_refl
                    ltac:(vm_compute; lia)
                    ltac:(intros j Hj; assert (j = 0%nat) as -> by lia;
                          reflexivity))).
    reflexivity.
Defined.

(** C1 (code defect).  Over [stuck_bus] the pending bit never clears and no
    error flag is ever set.  For every unit, every timeout and every state
    of the globals, the wait primitive runs its counter down, the
    post-decrement of the exhausted counter wraps it around to 0xFFFFFFFF,
    the test [timeout_counter == 0] fails, and the wait primitive returns
    true without touching the status codes. *)
Theorem wait_succeeds_when_counter_runs_out (module : I2C_Module_t)
    (timeout_ms : Z) (s : @Driver Script) :
  let r := _I2C_WaitCondition module timeout_ms (set_hw stuck_bus s) in
  fst r = true /\
  I2C1_State (snd r) = I2C1_State s /\
  I2C2_State (snd r) = I2C2_State s /\
  polls (snd r) = (polls s + S (Z.to_nat (uint16 (timeout_ms * 1000))))%nat.
Proof.
  assert (Hloop : forall n (s0 : @Driver Script),
    hw s0 = stuck_bus ->
    exists s1,
      wait_loop module n s0 = (Some (uint32 (0 - 1)), s1) /\
      I2C1_State s1 = I2C1_State s0 /\ I2C2_State s1 = I2C2_State s0 /\
      polls s1 = (polls s0 + S n)%nat).
  { induction n as [|n IH]; intros s0 Hs0; rewrite wait_loop_unfold;
      unfold first_read, i2c_con, reg_read; monad_unfold; cbn [fst snd hw];
      rewrite Hs0; cbn.
    - eexists. repeat split. cbn. lia.
    - destruct (IH (mkDriver stuck_bus (I2C1_State s0) (I2C2_State s0)
                      (I2C1_Busy s0) (I2C2_Busy s0) (I2C1_Config s0)
                      (I2C2_Config s0) (i2c1_callback s0) (i2c2_callback s0)
                      (calls s0) (waits s0) (S (polls s0)) (fired s0)
                      (stores s0))
                  eq_refl) as (s1 & E & H1 & H2 & Hp).
      exists s1. repeat split; try assumption.
      cbn in Hp. lia. }
  unfold _I2C_WaitCondition. monad_unfold. simpl.
  match goal with
  | |- context [wait_loop module ?n ?s0] =>
    destruct (Hloop n s0 eq_refl) as (s1 & E & H1 & H2 & Hp)
  end.
  rewrite E. simpl in *. repeat split; assumption.
Qed.

(** ** Stop and the busy flag *)

Section Transactions.

Context {H : Type} `{Hardware H}.

(** A wait that fails has stored the reason in the status of the unit. *)
Lemma wait_loop_None module n :
  forall (s s' : @Driver H),
    wait_loop module n s = (None, s') ->
    get_state (_I2C_GetState module) s' = I2C_STATE_OVERRUN \/
    get_state (_I2C_GetState module) s' = I2C_STATE_BUS_COLLISION.
Proof.
  induction n as [|n IH]; intros s s' E; rewrite wait_loop_unfold in E;
    destruct (first_read module s) as [v1 s1];
    destruct (negb (pending v1)); try discriminate.
  destruct (reg_read (i2c_con module) s1) as [v2 s2].
  destruct (overrun v2).
  - injection E as <-. left. apply get_state_set_state.
  - destruct (reg_read (i2c_con module) s2) as [v3 s3].
    destruct (collision v3).
    + injection E as <-. right. apply get_state_set_state.
    + eapply IH; eassumption.
Qed.

Lemma WaitCondition_false module t (s s' : @Driver H) :
  _I2C_WaitCondition module t s = (false, s') ->
  get_state (_I2C_GetState module) s' <> I2C_STATE_IDLE.
Proof.
  unfold _I2C_WaitCondition. monad_unfold. cbn [fst snd]. intros E.
  destruct (wait_loop _ _ _) as [[c|] s1] eqn:EL.
  - destruct (c =? 0); [|discriminate].
    injection E as <-. rewrite get_state_set_state. discriminate.
  - injection E as <-. apply wait_loop_None in EL as [-> | ->]; discriminate.
Qed.

Lemma Stop_failure_status module (s s' : @Driver H) :
  I2C_Stop module s = (false, s') ->
  get_state (_I2C_GetState module) s' <> I2C_STATE_IDLE.
Proof.
  unfold I2C_Stop. monad_unfold. intros E.
  destruct (reg_read _ _) as [v s0] in E. cbn [fst snd] in E.
  destruct (_I2C_WaitCondition _ _ _) as [ok s1] eqn:EW in E.
  destruct ok; cbn [negb] in E; [discriminate|].
  injection E as <-. apply WaitCondition_false in EW.
  destruct (_I2C_GetState module); exact EW.
Qed.

Lemma Stop_is_its_wait module (s s' : @Driver H) r :
  I2C_Stop module s = (r, s') ->
  r = fst (_I2C_WaitCondition module
             (timeout_ms (get_config (_I2C_GetConfig module) s))
             (snd (reg_or (i2c_con module) 0x0004 s))).
Proof.
  unfold I2C_Stop, i2c_con. monad_unfold. unfold reg_read. intros E.
  destruct (hw_read _ (hw s)) as [v h]. simpl in *.
  replace (get_config (_I2C_GetConfig module) s) with
    (get_config (_I2C_GetConfig module)
       (set_hw (hw_write (I2C_REG (_I2C_GetModuleBase module) 0)
                  (uint16 (Z.lor (uint16 v) 4)) h) (set_hw h s)))
    by (destruct (_I2C_GetConfig module); reflexivity).
  destruct (_I2C_WaitCondition _ _ _) as [ok s1].
  destruct ok; simpl in E; injection E as <- _; reflexivity.
Qed.

Lemma no_new_calls (l new : list Call) (c : Call) :
  l = l ++ new ++ [c] -> False.
Proof.
  intros E. rewrite <- (app_nil_r l) in E at 1.
  apply app_inv_head in E. destruct new; discriminate.
Qed.

(** C5.  [I2C_Stop] returns what its wait returns.  When it returns true
    the busy flag of the unit is clear and its status is idle; when it
    returns false both busy flags are as before and the status of the unit
    is not idle (the wait has stored the reason).  When a call of
    [I2C_WriteData] ends with a Stop (the last entry it adds to the record
    of calls), [I2C_IsBusy] afterwards reports busy exactly when that Stop
    failed. *)
Theorem Stop_releases_only_on_success (module : I2C_Module_t) :
  (forall (s s' : @Driver H) r,
     I2C_Stop module s = (r, s') ->
     r = fst (_I2C_WaitCondition module
                (timeout_ms (get_config (_I2C_GetConfig module) s))
                (snd (reg_or (i2c_con module) 0x0004 s))) /\
     (r = true ->
      get_busy (_I2C_GetBusyFlag module) s' = false /\
      get_state (_I2C_GetState module) s' = I2C_STATE_IDLE) /\
     (r = false ->
      busy_kept s s' /\
      get_state (_I2C_GetState module) s' <> I2C_STATE_IDLE)) /\
  (forall address data length (s s' : @Driver H) r new ok,
     I2C_WriteData module address data length s = (r, s') ->
     calls s' = calls s ++ new ++ [CallStop module ok] ->
     fst (I2C_IsBusy module s') = negb ok).
Proof.
  split.
  - intros s s' r E. split; [eapply Stop_is_its_wait; eassumption|].
    split.
    + apply Stop_spec in E. tauto.
    + intros ->. split; [|eapply Stop_failure_status; eassumption].
      apply Stop_spec in E. tauto.
  - intros address data length s s' r new ok E Hc.
    change (get_busy (_I2C_GetBusyFlag module) s' = negb ok).
    destruct data as [data|];
      [destruct (Z.eq_dec length 0) as [Hl|Hl]|].
    + subst length. simpl in E. unfold ret in E. injection E as _ <-.
      exfalso. eapply no_new_calls; eassumption.
    + apply (WriteData_spec _ _ _ _ _ _ _ Hl) in E as (new0 & Hc0 & Hcase).
      rewrite Hc0 in Hc. apply app_inv_head in Hc. subst new0.
      destruct Hcase as [[Hn _] | (ws & ok0 & Hn & _ & _ & Hb)].
      * apply (app_inj_tail new []) in Hn as [_ Hn]. discriminate.
      * rewrite app_comm_cons in Hn.
        apply app_inj_tail in Hn as [_ Hn]. injection Hn as ->. exact Hb.
    + simpl in E. unfold ret in E. injection E as _ <-.
      exfalso. eapply no_new_calls; eassumption.
Qed.

(** ** Stop after a failed byte *)

Lemma reads_are_not_writes (rs : list Call) :
  forallb is_read rs = true -> existsb write_failed rs = false.
Proof.
  induction rs as [|c rs IH]; simpl; [reflexivity|].
  intros Hall. apply andb_prop in Hall as [Hc Hrs].
  rewrite (IH Hrs). destruct c; try discriminate. reflexivity.
Qed.

(** C6 (amended).  After a Start that succeeded, [I2C_WriteData] that had a
    write fail (the address byte or a data byte) ends with a Stop and
    returns false.  After a Start that succeeded [I2C_ReadData] ends with a
    Stop in every case; it returns false when the write of the address byte
    failed, and otherwise returns what that Stop returns, whether or not
    the wait of a read failed. *)
Theorem Stop_after_failed_byte (module : I2C_Module_t) (address length : Z) :
  (forall data (s s' : @Driver H) r new,
     I2C_WriteData module address data length s = (r, s') ->
     calls s' = calls s ++ new ->
     In (CallStart module true) new ->
     existsb byte_failed new = true ->
     r = false /\ exists pre ok, new = pre ++ [CallStop module ok]) /\
  (forall buffer (s s' : @Driver H) r new,
     I2C_ReadData module address buffer length s = (r, s') ->
     calls s' = calls s ++ new ->
     In (CallStart module true) new ->
     exists pre ok,
       new = pre ++ [CallStop module ok] /\
       (existsb write_failed new = true -> fst r = false) /\
       (existsb write_failed new = false -> fst r = ok)).
Proof.
  split.
  - intros data s s' r new E Hc Hin Hfail.
    assert (Hnil : new <> []) by (intros ->; destruct Hin).
    destruct data as [data|];
      [destruct (Z.eq_dec length 0) as [Hl|Hl]|].
    + subst length. simpl in E. unfold ret in E. injection E as _ <-.
      rewrite <- (app_nil_r (calls s)) in Hc at 1.
      apply app_inv_head in Hc. congruence.
    + apply (WriteData_spec _ _ _ _ _ _ _ Hl) in E as (new0 & Hc0 & Hcase).
      rewrite Hc0 in Hc. apply app_inv_head in Hc. subst new0.
      destruct Hcase as [[Hn _] | (ws & ok & Hn & _ & Hr & _)].
      * subst new. destruct Hin as [Hin | []]. discriminate.
      * subst new. simpl in Hfail. rewrite existsb_app in Hfail.
        simpl in Hfail. rewrite !orb_false_r in Hfail.
        rewrite Hfail in Hr. split; [exact Hr|].
        exists (CallStart module true :: ws), ok. reflexivity.
    + simpl in E. unfold ret in E. injection E as _ <-.
      rewrite <- (app_nil_r (calls s)) in Hc at 1.
      apply app_inv_head in Hc. congruence.
  - intros buffer s s' r new E Hc Hin.
    assert (Hnil : new <> []) by (intros ->; destruct Hin).
    destruct buffer as [buf|];
      [destruct (Z.eq_dec length 0) as [Hl|Hl]|].
    + subst length. simpl in E. unfold ret in E. injection E as _ <-.
      rewrite <- (app_nil_r (calls s)) in Hc at 1.
      apply app_inv_head in Hc. congruence.
    + apply (ReadData_spec _ _ _ _ _ _ _ Hl) in E as (new0 & Hc0 & Hcase).
      rewrite Hc0 in Hc. apply app_inv_head in Hc. subst new0.
      destruct Hcase as
        [[Hn _] | [(ok & Hn & Hr) | (rs & ok & Hn & _ & Hall & Hr)]].
      * subst new. destruct Hin as [Hin | []]. discriminate.
      * subst new.
        exists [CallStart module true;
                CallWriteByte module
                  (uint8 (Z.lor (Z.shiftl address 1) 1)) false], ok.
        repeat split; [intros _; exact Hr | discriminate].
      * subst new.
        exists (CallStart module true
                :: CallWriteByte module
                     (uint8 (Z.lor (Z.shiftl address 1) 1)) true :: rs), ok.
        split; [reflexivity|].
        assert (Hnone :
          existsb write_failed
            (CallStart module true
             :: CallWriteByte module
                  (uint8 (Z.lor (Z.shiftl address 1) 1)) true
             :: rs ++ [CallStop module ok]) = false).
        { cbn [existsb]. rewrite existsb_app, (reads_are_not_writes _ Hall).
          reflexivity. }
        rewrite Hnone. split; [discriminate | intros _; exact Hr].
    + simpl in E. unfold ret in E. injection E as _ <-.
      rewrite <- (app_nil_r (calls s)) in Hc at 1.
      apply app_inv_head in Hc. congruence.
Qed.

(** ** The sequence of a read transaction *)

Lemma no_nack_in_acks module n :
  filter is_nack (repeat (BusReadByte module true) n) = [].
Proof. induction n; simpl; auto. Qed.

(** C7 (amended).  When the Start succeeds and the address byte is
    acknowledged, [I2C_ReadData] of [length >= 1] bytes performs, in this
    order: Start, the write of the byte [address << 1 | 1] (an 8-bit value),
    [length - 1] reads with acknowledge, one read with negative acknowledge,
    Stop.  A negative acknowledge is sent exactly once. *)
Theorem ReadData_sequence (module : I2C_Module_t) (address : Z)
    (buf : list Z) (length : Z) (s s1 s2 : @Driver H) :
  1 <= length ->
  I2C_Start module s = (true, s1) ->
  I2C_WriteByte module (uint8 (Z.lor (Z.shiftl address 1) 0x01)) s1
    = (true, s2) ->
  exists new,
    calls (snd (I2C_ReadData module address (Some buf) length s))
      = calls s ++ new /\
    map op_of new =
      BusStart module
      :: BusWriteByte module (uint8 (Z.lor (Z.shiftl address 1) 0x01))
      :: repeat (BusReadByte module true) (Z.to_nat length - 1)
      ++ [BusReadByte module false; BusStop module] /\
    List.length (filter is_nack (map op_of new)) = 1%nat.
Proof.
  intros Hlen ES EW.
  assert (Hops : forall rs,
    map op_of rs =
      map (fun j => BusReadByte module (0 + Z.of_nat j <? length - 1))
        (seq 0 (Z.to_nat length)) ->
    map op_of rs =
      repeat (BusReadByte module true) (Z.to_nat length - 1)
      ++ [BusReadByte module false]).
  { intros rs ->.
    destruct (Z.to_nat length) as [|n] eqn:En; [lia|].
    replace length with (Z.of_nat (S n)) by lia.
    rewrite ack_pattern. f_equal. f_equal. lia. }
  destruct (I2C_ReadData module address (Some buf) length s) as [r s'] eqn:E.
  unfold I2C_ReadData in E.
  destruct (length =? 0) eqn:E0; [apply Z.eqb_eq in E0; lia|].
  unfold bind in E. rewrite ES in E. cbn [negb] in E.
  rewrite EW in E. cbn [negb] in E.
  apply Start_spec in ES as [Hc _]. apply WriteByte_spec in EW as [HcA _].
  destruct (ReadData_loop module length (Z.to_nat length) 0 buf s2)
    as [buf' s3] eqn:EL.
  apply ReadData_loop_spec in EL as (rs & Hrs & Hmap & _ & _).
  destruct (I2C_Stop module s3) as [ok s4] eqn:EP.
  apply Stop_spec in EP as (Hc4 & _).
  unfold ret in E. injection E as <- <-. cbn [snd].
  exists (CallStart module true
          :: CallWriteByte module (uint8 (Z.lor (Z.shiftl address 1) 1)) true
          :: rs ++ [CallStop module ok]).
  assert (Hseq :
    map op_of
      (CallStart module true
       :: CallWriteByte module (uint8 (Z.lor (Z.shiftl address 1) 1)) true
       :: rs ++ [CallStop module ok]) =
    BusStart module
    :: BusWriteByte module (uint8 (Z.lor (Z.shiftl address 1) 1))
    :: repeat (BusReadByte module true) (Z.to_nat length - 1)
    ++ [BusReadByte module false; BusStop module]).
  { cbn [map op_of]. rewrite map_app, (Hops rs Hmap), <- app_assoc.
    reflexivity. }
  split; [|split].
  - rewrite Hc4, Hrs, HcA, Hc, <- !app_assoc. reflexivity.
  - exact Hseq.
  - rewrite Hseq. cbn [filter is_nack].
    rewrite filter_app, no_nack_in_acks. reflexivity.
Qed.

End Transactions.

Lemma Stop_releases_only_on_success_witness :
  (true = true ->
   get_busy (_I2C_GetBusyFlag 1)
     (snd (I2C_Stop 1 (set_busy Addr_I2C1_Busy true
                         (master_with_timeout 1 quiet_bus)))) = false /\
   get_state (_I2C_GetState 1)
     (snd (I2C_Stop 1 (set_busy Addr_I2C1_Busy true
                         (master_with_timeout 1 quiet_bus))))
     = I2C_STATE_IDLE) /\
  fst (I2C_IsBusy 1
         (snd (I2C_WriteData 1 0x50 (Some [7; 9]) 2
                 (master_with_timeout 1 quiet_bus)))) = negb true /\
  fst (I2C_IsBusy 1
         (snd (I2C_WriteData 1 0x50 (Some [7; 9]) 2
                 (master_with_timeout 1 stuck_stop_bus)))) = negb false.
Proof.
  split; [|split].
  - eapply (proj1 (Stop_releases_only_on_success 1)
              (set_busy Addr_I2C1_Busy true
                 (master_with_timeout 1 quiet_bus)) _ true).
    vm_compute. reflexivity.
  - eapply (proj2 (Stop_releases_only_on_success 1) 0x50 (Some [7; 9]) 2
              (master_with_timeout 1 quiet_bus) _ true
              [CallStart 1 true; CallWriteByte 1 0xA0 true;
               CallWriteByte 1 7 true; CallWriteByte 1 9 true] true).
    + vm_compute. reflexivity.
    + vm_compute. reflexivity.
  - eapply (proj2 (Stop_releases_only_on_success 1) 0x50 (Some [7; 9]) 2
              (master_with_timeout 1 stuck_stop_bus) _ false
              [CallStart 1 true; CallWriteByte 1 0xA0 true;
               CallWriteByte 1 7 false] false).
    + vm_compute. reflexivity.
    + vm_compute. reflexivity.
Defined.

(** C6 (as stated, refuted).  One byte is read from address 0x50 over
    [overrun_bus]: the Start succeeds, the address byte is acknowledged, the
    wait of the read fails on the overrun flag, the Stop succeeds, and
    [I2C_ReadData] returns true; the status left is idle. *)
Lemma ReadData_succeeds_after_failed_read :
  let r := I2C_ReadData 1 0x50 (Some [0]) 1
             (master_with_timeout 1 overrun_bus) in
  fst (fst r) = true /\
  calls (snd r) =
    [CallStart 1 true; CallWriteByte 1 0xA1 true;
     CallReadByte 1 false false 0x5A; CallStop 1 true] /\
  existsb byte_failed (calls (snd r)) = true /\
  I2C1_State (snd r) = I2C_STATE_IDLE.
Proof. vm_compute. repeat split. Qed.

Lemma Stop_after_failed_byte_witness :
  (false = false /\
   exists pre ok,
     [CallStart 1 true; CallWriteByte 1 0xA0 false; CallStop 1 true]
     = pre ++ [CallStop 1 ok]) /\
  (exists pre ok,
     [CallStart 1 true; CallWriteByte 1 0xA1 true;
      CallReadByte 1 false false 0x5A; CallStop 1 true]
     = pre ++ [CallStop 1 ok] /\
     (existsb write_failed
        [CallStart 1 true; CallWriteByte 1 0xA1 true;
         CallReadByte 1 false false 0x5A; CallStop 1 true] = true ->
      fst (true, Some [0x5A]) = false) /\
     (existsb write_failed
        [CallStart 1 true; CallWriteByte 1 0xA1 true;
         CallReadByte 1 false false 0x5A; CallStop 1 true] = false ->
      fst (true, Some [0x5A]) = ok)).
Proof.
  split.
  - eapply (proj1 (Stop_after_failed_byte 1 0x50 2) (Some [7; 9])
              (master_with_timeout 1 nack_bus)).
    + vm_compute. reflexivity.
    + vm_compute. reflexivity.
    + left. reflexivity.
    + reflexivity.
  - eapply (proj2 (Stop_after_failed_byte 1 0x50 1) (Some [0])
              (master_with_timeout 1 overrun_bus)).
    + vm_compute. reflexivity.
    + vm_compute. reflexivity.
    + left. reflexivity.
Defined.

(** C7 (as stated, refuted).  Two bytes are requested from address 0x50
    over [nack_bus], where the address byte is not acknowledged:
    [I2C_ReadData] performs Start, the write of the address byte and Stop,
    no read at all, and so sends no negative acknowledge. *)
Lemma ReadData_without_reads :
  let r := I2C_ReadData 1 0x50 (Some [0; 0]) 2
             (master_with_timeout 1 nack_bus) in
  map op_of (calls (snd r)) = [BusStart 1; BusWriteByte 1 0xA1; BusStop 1] /\
  filter is_nack (map op_of (calls (snd r))) = [] /\
  fst (fst r) = false.
Proof. vm_compute. repeat split. Qed.

Lemma ReadData_sequence_witness :
  exists new,
    calls (snd (I2C_ReadData 1 0x50 (Some [0; 0; 0]) 3
                  (master_with_timeout 1 quiet_bus)))
      = calls (master_with_timeout 1 quiet_bus) ++ new /\
    map op_of new =
      BusStart 1
      :: BusWriteByte 1 (uint8 (Z.lor (Z.shiftl 0x50 1) 0x01))
      :: repeat (BusReadByte 1 true) (Z.to_nat 3 - 1)
      ++ [BusReadByte 1 false; BusStop 1] /\
    List.length (filter is_nack (map op_of new)) = 1%nat.
Proof.
  eapply (ReadData_sequence 1 0x50 [0; 0; 0] 3
            (master_with_timeout 1 quiet_bus)).
  - lia.
  - vm_compute. reflexivity.
  - vm_compute. reflexivity.
Defined.

(** ** The status codes the driver stores *)

Section StatusCodes.

Context {H : Type} `{Hardware H}.

#[export] Instance keeps_refl (P : @Driver H -> Prop) : Reflexive (keeps P).
Proof. intros s Hs. exact Hs. Qed.

#[export] Instance keeps_trans (P : @Driver H -> Prop)
  : Transitive (keeps P).
Proof. intros s1 s2 s3 H12 H23 Hs. apply H23, H12, Hs. Qed.

Local Abbreviation inv := (keeps (H:=H) no_addr_nack).

Lemma inv_reg_read r : respects inv (reg_read r).
Proof.
  intros s Hs. unfold reg_read. destruct (hw_read r (hw s)). exact Hs.
Qed.

Lemma inv_reg_write r v : respects inv (reg_write r v).
Proof. intros s Hs. exact Hs. Qed.

Lemma inv_reg_or r v : respects inv (reg_or r v).
Proof.
  intros s Hs. unfold reg_or, bind, reg_read.
  destruct (hw_read r (hw s)). exact Hs.
Qed.

Lemma inv_reg_and r v : respects inv (reg_and r v).
Proof.
  intros s Hs. unfold reg_and, bind, reg_read.
  destruct (hw_read r (hw s)). exact Hs.
Qed.

Lemma inv_bit_write b v : respects inv (bit_write b v).
Proof. intros s Hs. exact Hs. Qed.

Lemma inv_store_state p v :
  v <> I2C_STATE_ADDR_NACK -> respects inv (store_state p v).
Proof.
  intros Hv s [H1 H2]. destruct p; split; simpl; assumption.
Qed.

Lemma inv_store_busy p v : respects inv (store_busy p v).
Proof. intros s Hs. destruct p; exact Hs. Qed.

Lemma inv_store_config p v : respects inv (store_config p v).
Proof. intros s Hs. destruct p; exact Hs. Qed.

Lemma inv_load_config p : respects inv (load_config p).
Proof. intros s Hs. exact Hs. Qed.

Lemma inv_load_busy p : respects inv (load_busy p).
Proof. intros s Hs. exact Hs. Qed.

Lemma inv_load_state p : respects inv (load_state p).
Proof. intros s Hs. exact Hs. Qed.

Lemma inv_log c : respects inv (log c).
Proof. intros s Hs. exact Hs. Qed.

Lemma inv_count_wait : respects inv count_wait.
Proof. intros s Hs. exact Hs. Qed.

Lemma inv_count_poll : respects inv count_poll.
Proof. intros s Hs. exact Hs. Qed.

Lemma inv_invoke f e d : respects inv (invoke f e d).
Proof. intros s Hs. exact Hs. Qed.

Lemma inv_SetCallback module cb : respects inv (I2C_SetCallback module cb).
Proof.
  intros s Hs. unfold I2C_SetCallback.
  destruct (module =? I2C_MODULE_1); [exact Hs|].
  destruct (module =? I2C_MODULE_2); exact Hs.
Qed.

Hint Resolve inv_reg_read inv_reg_write inv_reg_or inv_reg_and inv_bit_write
  inv_store_busy inv_store_config inv_load_config inv_load_busy
  inv_load_state inv_log inv_count_wait inv_count_poll inv_invoke
  inv_SetCallback : drv.

Hint Extern 1 (respects _ (store_state _ _)) =>
  apply inv_store_state; discriminate : drv.

Lemma inv_wait_loop module n : respects inv (wait_loop module n).
Proof. induction n as [|n IH]; simpl; respects_tac. Qed.

Hint Resolve inv_wait_loop : drv.

Lemma inv_WaitCondition module t : respects inv (_I2C_WaitCondition module t).
Proof. unfold _I2C_WaitCondition. respects_tac. Qed.

Hint Resolve inv_WaitCondition : drv.

Lemma inv_Start module : respects inv (I2C_Start module).
Proof. unfold I2C_Start, traced. respects_tac. Qed.

Lemma inv_Restart module : respects inv (I2C_Restart module).
Proof. unfold I2C_Restart, traced. respects_tac. Qed.

Lemma inv_Stop module : respects inv (I2C_Stop module).
Proof. unfold I2C_Stop, traced. respects_tac. Qed.

Lemma inv_WriteByte module data : respects inv (I2C_WriteByte module data).
Proof. unfold I2C_WriteByte, traced. respects_tac. Qed.

Lemma inv_ReadByte module ack : respects inv (I2C_ReadByte module ack).
Proof. unfold I2C_ReadByte. respects_tac. Qed.

Hint Resolve inv_Start inv_Restart inv_Stop inv_WriteByte inv_ReadByte : drv.

Lemma inv_WriteData_loop module data n i :
  respects inv (WriteData_loop module data n i).
Proof. revert i. induction n as [|n IH]; intros i; simpl; respects_tac. Qed.

Lemma inv_ReadData_loop module length n i buf :
  respects inv (ReadData_loop module length n i buf).
Proof.
  revert i buf. induction n as [|n IH]; intros i buf; simpl; respects_tac.
Qed.

Hint Resolve inv_WriteData_loop inv_ReadData_loop : drv.

Lemma inv_WriteData module address data length :
  respects inv (I2C_WriteData module address data length).
Proof. unfold I2C_WriteData. respects_tac. Qed.

Lemma inv_ReadData module address buffer length :
  respects inv (I2C_ReadData module address buffer length).
Proof. unfold I2C_ReadData. respects_tac. Qed.

Hint Resolve inv_WriteData inv_ReadData : drv.

Lemma inv_CheckDevice module address :
  respects inv (I2C_CheckDevice module address).
Proof. unfold I2C_CheckDevice. respects_tac. Qed.

Hint Resolve inv_CheckDevice : drv.

Lemma inv_ScanBus_loop module max n addr found devices :
  respects inv (ScanBus_loop module max n addr found devices).
Proof.
  revert addr found devices.
  induction n as [|n IH]; intros addr found devices; simpl; respects_tac.
Qed.

Hint Resolve inv_ScanBus_loop : drv.

Lemma inv_WaitIdle_loop module n : respects inv (WaitIdle_loop module n).
Proof. induction n as [|n IH]; simpl; respects_tac. Qed.

Hint Resolve inv_WaitIdle_loop : drv.

Lemma inv_Init config : respects inv (I2C_Init config).
Proof. unfold I2C_Init, _I2C_ConfigurePins. respects_tac. Qed.

Lemma inv_Deinit module : respects inv (I2C_Deinit module).
Proof. unfold I2C_Deinit. respects_tac. Qed.

Lemma inv_WriteRegister module dev_addr reg_addr data :
  respects inv (I2C_WriteRegister module dev_addr reg_addr data).
Proof. unfold I2C_WriteRegister. apply inv_WriteData. Qed.

Lemma inv_ReadRegister module dev_addr reg_addr :
  respects inv (I2C_ReadRegister module dev_addr reg_addr).
Proof. unfold I2C_ReadRegister. respects_tac. Qed.

Lemma inv_ScanBus module devices max_devices :
  respects inv (I2C_ScanBus module devices max_devices).
Proof. unfold I2C_ScanBus. respects_tac. Qed.

Lemma inv_ISR_Handler module : respects inv (I2C_ISR_Handler module).
Proof. unfold I2C_ISR_Handler. respects_tac. Qed.

Lemma inv_WaitIdle module t : respects inv (I2C_WaitIdle module t).
Proof. unfold I2C_WaitIdle. respects_tac. Qed.

Lemma inv_GetLastError module : respects inv (I2C_GetLastError module).
Proof. unfold I2C_GetLastError. auto with drv. Qed.

Lemma inv_ClearErrors module : respects inv (I2C_ClearErrors module).
Proof. unfold I2C_ClearErrors. respects_tac. Qed.

Lemma inv_IsBusy module : respects inv (I2C_IsBusy module).
Proof. unfold I2C_IsBusy. auto with drv. Qed.

Lemma inv_run_op (o : Op) (s : @Driver H) :
  no_addr_nack s -> no_addr_nack (run_op o s).
Proof.
  destruct o; cbn [run_op].
  - apply inv_Init.
  - apply inv_Deinit.
  - apply inv_Start.
  - apply inv_Restart.
  - apply inv_Stop.
  - apply inv_WriteByte.
  - apply inv_ReadByte.
  - apply inv_WriteData.
  - apply inv_ReadData.
  - apply inv_WriteRegister.
  - apply inv_ReadRegister.
  - apply inv_ScanBus.
  - apply inv_CheckDevice.
  - apply inv_SetCallback.
  - apply inv_ISR_Handler.
  - apply inv_WaitIdle.
  - apply inv_GetLastError.
  - apply inv_ClearErrors.
  - apply inv_IsBusy.
Qed.

Lemma WriteByte_nack module data (s : @Driver H) :
  let w := _I2C_WaitCondition module
             (timeout_ms (get_config (_I2C_GetConfig module) s))
             (WriteByte_entry module data s) in
  fst w = true ->
  nonzero (Z.land (fst (reg_read (i2c_con module) (snd w))) (Z.shiftl 1 15))
    = true ->
  fst (I2C_WriteByte module data s) = false /\
  get_state (_I2C_GetState module) (snd (I2C_WriteByte module data s))
    = I2C_STATE_DATA_NACK.
Proof.
  intros w Hw Hack. subst w.
  destruct (I2C_WriteByte module data s) as [r s'] eqn:E.
  unfold I2C_WriteByte in E. unfold WriteByte_entry, i2c_con in *.
  monad_unfold. cbn [fst snd] in *.
  destruct (reg_read _ _) as [v s1] eqn:E1 in E.
  rewrite E1 in Hw, Hack. cbn [fst snd] in *.
  assert (Hcfg : get_config (_I2C_GetConfig module) s1
                 = get_config (_I2C_GetConfig module) s).
  { unfold reg_read in E1. destruct (hw_read _ _) in E1.
    injection E1 as _ <-. destruct (_I2C_GetConfig module); reflexivity. }
  replace (get_config (_I2C_GetConfig module) (set_hw _ s1))
    with (get_config (_I2C_GetConfig module) s) in E
    by (rewrite <- Hcfg; destruct (_I2C_GetConfig module); reflexivity).
  destruct (_I2C_WaitCondition _ _ _) as [ok s2]. cbn [fst snd] in *.
  subst ok. cbn [negb] in E.
  destruct (reg_read _ s2) as [v' s3]. cbn [fst snd] in *.
  rewrite Hack in E. injection E as <- <-.
  split; [reflexivity|].
  destruct (_I2C_GetState module); reflexivity.
Qed.

End StatusCodes.

(** * Further properties *)

(** ** What an operation on a unit can change

    [R] is a relation between the state before and the state after.  Each
    lemma of this section derives that a function of the driver, called with
    the selector [m], respects [R] from the assumptions that the assignments
    this function contains respect [R]. *)

Section Footprint.

Context {H : Type} `{Hardware H}.

Variable m : I2C_Module_t.
Variable R : @Driver H -> @Driver H -> Prop.
Context {R_refl : Reflexive R} {R_trans : Transitive R}.

Hypothesis R_hw : forall h s, R s (set_hw h s).
Hypothesis R_count_wait : respects R count_wait.
Hypothesis R_count_poll : respects R count_poll.
Hypothesis R_Start : forall r, respects R (log (CallStart m r)).
Hypothesis R_Restart : forall r, respects R (log (CallRestart m r)).
Hypothesis R_Stop : forall r, respects R (log (CallStop m r)).
Hypothesis R_Write : forall d r, respects R (log (CallWriteByte m d r)).
Hypothesis R_Read : forall a w b, respects R (log (CallReadByte m a w b)).
Hypothesis R_state :
  forall v, stored_code v = true ->
            respects R (store_state (_I2C_GetState m) v).
Hypothesis R_busy : forall b, respects R (store_busy (_I2C_GetBusyFlag m) b).
Hypothesis R_config :
  forall c, respects R (store_config (_I2C_GetConfig m) c).
Hypothesis R_callback : forall cb, respects R (I2C_SetCallback m cb).
Hypothesis R_invoke : forall f e d, respects R (invoke f e d).

Lemma fp_reg_read r : respects R (reg_read r).
Proof.
  intros s. unfold reg_read. destruct (hw_read r (hw s)). apply R_hw.
Qed.

Lemma fp_reg_write r v : respects R (reg_write r v).
Proof. intros s. apply R_hw. Qed.

Hint Resolve fp_reg_read fp_reg_write R_count_wait R_count_poll R_Start
  R_Restart R_Stop R_Write R_Read R_busy R_config R_callback R_invoke : drv.

Hint Extern 1 (respects _ (store_state _ _)) =>
  apply R_state; reflexivity : drv.

Hint Extern 1 (respects _ (load_config _)) => apply respects_get; exact _
  : drv.
Hint Extern 1 (respects _ (load_busy _)) => apply respects_get; exact _
  : drv.
Hint Extern 1 (respects _ (load_state _)) => apply respects_get; exact _
  : drv.

Lemma fp_reg_or r v : respects R (reg_or r v).
Proof. unfold reg_or. respects_tac. Qed.

Lemma fp_reg_and r v : respects R (reg_and r v).
Proof. unfold reg_and. respects_tac. Qed.

Lemma fp_bit_write b v : respects R (bit_write b v).
Proof. unfold bit_write. respects_tac. Qed.

Hint Resolve fp_reg_or fp_reg_and fp_bit_write : drv.

Lemma fp_wait_loop n : respects R (wait_loop m n).
Proof. induction n as [|n IH]; simpl; respects_tac. Qed.

Hint Resolve fp_wait_loop : drv.

Lemma fp_WaitCondition t : respects R (_I2C_WaitCondition m t).
Proof. unfold _I2C_WaitCondition. respects_tac. Qed.

Hint Resolve fp_WaitCondition : drv.

Lemma fp_Start : respects R (I2C_Start m).
Proof. unfold I2C_Start, traced. respects_tac. Qed.

Lemma fp_Restart : respects R (I2C_Restart m).
Proof. unfold I2C_Restart, traced. respects_tac. Qed.

Lemma fp_Stop : respects R (I2C_Stop m).
Proof. unfold I2C_Stop, traced. respects_tac. Qed.

Lemma fp_WriteByte data : respects R (I2C_WriteByte m data).
Proof. unfold I2C_WriteByte, traced. respects_tac. Qed.

Lemma fp_ReadByte ack : respects R (I2C_ReadByte m ack).
Proof. unfold I2C_ReadByte. respects_tac. Qed.

Hint Resolve fp_Start fp_Stop fp_WriteByte fp_ReadByte : drv.

Lemma fp_WriteData_loop data n i : respects R (WriteData_loop m data n i).
Proof. revert i. induction n as [|n IH]; intros i; simpl; respects_tac. Qed.

Lemma fp_ReadData_loop length n i buf :
  respects R (ReadData_loop m length n i buf).
Proof.
  revert i buf. induction n as [|n IH]; intros i buf; simpl; respects_tac.
Qed.

Hint Resolve fp_WriteData_loop fp_ReadData_loop : drv.

Lemma fp_WriteData address data length :
  respects R (I2C_WriteData m address data length).
Proof. unfold I2C_WriteData. respects_tac. Qed.

Lemma fp_ReadData address buffer length :
  respects R (I2C_ReadData m address buffer length).
Proof. unfold I2C_ReadData. respects_tac. Qed.

Hint Resolve fp_WriteData fp_ReadData : drv.

Lemma fp_WriteRegister dev_addr reg_addr data :
  respects R (I2C_WriteRegister m dev_addr reg_addr data).
Proof. unfold I2C_WriteRegister. apply fp_WriteData. Qed.

Lemma fp_ReadRegister dev_addr reg_addr :
  respects R (I2C_ReadRegister m dev_addr reg_addr).
Proof. unfold I2C_ReadRegister. respects_tac. Qed.

Lemma fp_CheckDevice address : respects R (I2C_CheckDevice m address).
Proof. unfold I2C_CheckDevice. respects_tac. Qed.

Hint Resolve fp_CheckDevice : drv.

Lemma fp_ScanBus_loop max n addr found devices :
  respects R (ScanBus_loop m max n addr found devices).
Proof.
  revert addr found devices.
  induction n as [|n IH]; intros addr found devices; simpl; respects_tac.
Qed.

Hint Resolve fp_ScanBus_loop : drv.

Lemma fp_ScanBus devices max_devices :
  respects R (I2C_ScanBus m devices max_devices).
Proof. unfold I2C_ScanBus. respects_tac. Qed.

Lemma fp_Init config :
  module config = m -> respects R (I2C_Init (Some config)).
Proof.
  intros Hm. unfold I2C_Init, _I2C_ConfigurePins. rewrite Hm. respects_tac.
Qed.

Lemma fp_Deinit : respects R (I2C_Deinit m).
Proof. unfold I2C_Deinit. respects_tac. Qed.

Lemma fp_ISR_Handler : respects R (I2C_ISR_Handler m).
Proof. unfold I2C_ISR_Handler. respects_tac. Qed.

Lemma fp_WaitIdle_loop n : respects R (WaitIdle_loop m n).
Proof. induction n as [|n IH]; simpl; respects_tac. Qed.

Hint Resolve fp_WaitIdle_loop : drv.

Lemma fp_WaitIdle t : respects R (I2C_WaitIdle m t).
Proof. unfold I2C_WaitIdle. respects_tac. Qed.

Lemma fp_GetLastError : respects R (I2C_GetLastError m).
Proof. unfold I2C_GetLastError. auto with drv. Qed.

Lemma fp_ClearErrors : respects R (I2C_ClearErrors m).
Proof. unfold I2C_ClearErrors. respects_tac. Qed.

Lemma fp_IsBusy : respects R (I2C_IsBusy m).
Proof. unfold I2C_IsBusy. auto with drv. Qed.

Lemma fp_SetCallback cb : respects R (I2C_SetCallback m cb).
Proof. apply R_callback. Qed.

End Footprint.


(** The relations used below are preorders. *)

Section Preorders.

Context {H : Type} `{Hardware H}.

#[export] Instance unit1_kept_refl : Reflexive (@unit1_kept H).
Proof. intros s. repeat split. Qed.

#[export] Instance unit1_kept_trans : Transitive (@unit1_kept H).
Proof.
  intros s1 s2 s3 (A1 & A2 & A3 & A4) (B1 & B2 & B3 & B4).
  repeat split; congruence.
Qed.

#[export] Instance unit2_kept_refl : Reflexive (@unit2_kept H).
Proof. intros s. repeat split. Qed.

#[export] Instance unit2_kept_trans : Transitive (@unit2_kept H).
Proof.
  intros s1 s2 s3 (A1 & A2 & A3 & A4) (B1 & B2 & B3 & B4).
  repeat split; congruence.
Qed.

#[export] Instance config_kept_refl : Reflexive (@config_kept H).
Proof. intros s p. reflexivity. Qed.

#[export] Instance config_kept_trans : Transitive (@config_kept H).
Proof. intros s1 s2 s3 A B p. rewrite B. apply A. Qed.

#[export] Instance busy_kept_Reflexive : Reflexive (@busy_kept H).
Proof. intros s p. reflexivity. Qed.

#[export] Instance busy_kept_Transitive : Transitive (@busy_kept H).
Proof. intros s1 s2 s3 A B p. rewrite B. apply A. Qed.

#[export] Instance status_kept_refl : Reflexive (@status_kept H).
Proof. intros s p. reflexivity. Qed.

#[export] Instance status_kept_trans : Transitive (@status_kept H).
Proof. intros s1 s2 s3 A B p. rewrite B. apply A. Qed.

#[export] Instance no_wait_refl : Reflexive (@no_wait H).
Proof. intros s. repeat split. Qed.

#[export] Instance no_wait_trans : Transitive (@no_wait H).
Proof.
  intros s1 s2 s3 (A1 & A2 & A3) (B1 & B2 & B3). repeat split; congruence.
Qed.

#[export] Instance no_restart_added_refl : Reflexive (@no_restart_added H).
Proof. intros s. exists []. rewrite app_nil_r. split; reflexivity. Qed.

#[export] Instance no_restart_added_trans
  : Transitive (@no_restart_added H).
Proof.
  intros s1 s2 s3 (n1 & E1 & F1) (n2 & E2 & F2). exists (n1 ++ n2). split.
  - rewrite E2, E1, app_assoc. reflexivity.
  - rewrite forallb_app, F1, F2. reflexivity.
Qed.

#[export] Instance assigns_codes_refl : Reflexive (@assigns_codes H).
Proof.
  intros s. exists []. split; [|reflexivity].
  unfold assigns. rewrite app_nil_r. reflexivity.
Qed.

#[export] Instance assigns_codes_trans : Transitive (@assigns_codes H).
Proof.
  intros s1 s2 s3 (l1 & E1 & H1) (l2 & E2 & H2). exists (l1 ++ l2).
  unfold assigns in *. split.
  - rewrite E2, E1, app_assoc. reflexivity.
  - rewrite forallb_app, H1, H2. reflexivity.
Qed.

End Preorders.

Section Callbacks.

Context {H : Type} `{Hardware H}.

Lemma I2C_SetCallback_cases m cb (s : @Driver H) :
  snd (I2C_SetCallback m cb s) = s \/
  (m = I2C_MODULE_1 /\
   snd (I2C_SetCallback m cb s) =
     mkDriver (hw s) (I2C1_State s) (I2C2_State s) (I2C1_Busy s)
       (I2C2_Busy s) (I2C1_Config s) (I2C2_Config s) cb (i2c2_callback s)
       (calls s) (waits s) (polls s) (fired s) (stores s)) \/
  (m = I2C_MODULE_2 /\
   snd (I2C_SetCallback m cb s) =
     mkDriver (hw s) (I2C1_State s) (I2C2_State s) (I2C1_Busy s)
       (I2C2_Busy s) (I2C1_Config s) (I2C2_Config s) (i2c1_callback s) cb
       (calls s) (waits s) (polls s) (fired s) (stores s)).
Proof.
  unfold I2C_SetCallback.
  destruct (m =? I2C_MODULE_1) eqn:E1.
  - right. left. apply Z.eqb_eq in E1. split; [exact E1 | reflexivity].
  - destruct (m =? I2C_MODULE_2) eqn:E2.
    + right. right. apply Z.eqb_eq in E2. split; [exact E2 | reflexivity].
    + left. reflexivity.
Qed.

End Callbacks.

(** Case analysis on the pointers the accessors return. *)
Ltac ptr_cases :=
  repeat match goal with
  | |- context [_I2C_GetState ?m] => destruct (_I2C_GetState m)
  | |- context [_I2C_GetBusyFlag ?m] => destruct (_I2C_GetBusyFlag m)
  | |- context [_I2C_GetConfig ?m] => destruct (_I2C_GetConfig m)
  end.

Ltac fp_apply R :=
  first
    [ apply (fp_Deinit _ R) | apply (fp_Start _ R) | apply (fp_Restart _ R)
    | apply (fp_Stop _ R) | apply (fp_WriteByte _ R)
    | apply (fp_ReadByte _ R) | apply (fp_WriteData _ R)
    | apply (fp_ReadData _ R) | apply (fp_WriteRegister _ R)
    | apply (fp_ReadRegister _ R) | apply (fp_ScanBus _ R)
    | apply (fp_CheckDevice _ R) | apply (fp_ISR_Handler _ R)
    | apply (fp_WaitIdle _ R) | apply (fp_GetLastError _ R)
    | apply (fp_ClearErrors _ R) | apply (fp_IsBusy _ R)
    | apply (fp_SetCallback _ R) ].

(** The same for a goal [R s (run_op o s)] once [o] is a constructor. *)
Ltac fp_op R :=
  cbn [run_op];
  first
    [ lazymatch goal with
      | |- _ _ (snd (I2C_Init (Some ?c) _)) =>
        apply (fp_Init (module c) R); [..|reflexivity]
      | |- _ _ (snd (I2C_Init None _)) => reflexivity
      end
    | fp_apply R ].

(** Reduce an assumption of the section [Footprint] to a goal about one
    assignment: the pointer is a case, [I2C_SetCallback] is one of its three
    cases. *)
Ltac fp_prim :=
  intros;
  lazymatch goal with
  | |- respects _ (I2C_SetCallback ?m ?cb) =>
    let s0 := fresh "s0" in
    let E := fresh "E" in
    intros s0; pose proof (I2C_SetCallback_cases m cb s0) as E;
    destruct E as [E | [[? E] | [? E]]]; rewrite E; clear E
  | |- respects _ _ =>
    let s0 := fresh "s0" in
    intros s0;
    unfold store_state, store_busy, store_config, log, count_wait,
      count_poll, invoke;
    ptr_cases; cbn [snd]
  | |- _ => idtac
  end.

Section Invariants.

Context {H : Type} `{Hardware H}.

(** Every status code an operation assigns, also one it overwrites before
    it returns, is among the six of [stored_code]. *)
Lemma ops_assign_codes (o : Op) (s : @Driver H) :
  assigns_codes s (run_op o s).
Proof.
  destruct o as [[c|]|m|m|m|m|m d|m ack|m a d n|m a b n|m d r v|m d r
                |m devs n|m a|m cb|m|m t|m|m|m];
    fp_op (@assigns_codes H); fp_prim;
    try (exists []; split; [|reflexivity]; unfold assigns; cbn;
         rewrite app_nil_r; reflexivity);
    try match goal with
        | Hv : stored_code ?v = true |- assigns_codes _ (set_state ?p ?v _) =>
          exists [(p, v)]; split; [reflexivity|]; cbn; rewrite Hv;
          reflexivity
        end.
Qed.

Lemma run_ops_assign_codes (os : list Op) : forall s : @Driver H,
  assigns_codes s (run_ops os s).
Proof.
  induction os as [|o os IH]; intros s; [reflexivity|].
  cbn [run_ops fold_left]. etransitivity; [apply ops_assign_codes|].
  apply IH.
Qed.

(** X1.  Every value the driver assigns to a status code, also a value that
    the same operation overwrites before it returns, is one of idle, busy,
    timeout, data-NACK, bus-collision and overrun: the driver never stores
    [I2C_STATE_ERROR], [I2C_STATE_ARB_LOST] or [I2C_STATE_SUCCESS] (nor
    [I2C_STATE_ADDR_NACK]), in any operation and in any sequence of
    operations from the initial values of the globals.  In particular both
    status codes are among the six after every operation. *)
Theorem status_codes_reported :
  (forall (o : Op) (s : @Driver H),
     status_in_codes s -> status_in_codes (run_op o s)) /\
  (forall (h : H) (os : list Op), status_in_codes (run_ops os (power_on h)))
  /\
  (forall (o : Op) (s : @Driver H),
     exists new,
       assigns s (run_op o s) new /\
       forallb (fun a => stored_code (snd a)) new = true) /\
  (forall (h : H) (os : list Op),
     forallb (fun a => stored_code (snd a))
       (stores (run_ops os (power_on h))) = true).
Proof.
  assert (Hop : forall (o : Op) (s : @Driver H),
            keeps status_in_codes s (run_op o s)).
  { intros o s.
    destruct o as [[c|]|m|m|m|m|m d|m ack|m a d n|m a b n|m d r v|m d r
                  |m devs n|m a|m cb|m|m t|m|m|m];
      fp_op (keeps (H:=H) status_in_codes);
      fp_prim; try (intros Hs; exact Hs);
      try (intros [Ha Hb]; split; assumption). }
  split; [exact Hop|]. split; [|split].
  - intros h os.
    assert (Hall : forall (s : @Driver H),
              status_in_codes s -> status_in_codes (run_ops os s)).
    { induction os as [|o os IH]; intros s Hs; [exact Hs|].
      apply IH, Hop, Hs. }
    apply Hall. split; reflexivity.
  - exact ops_assign_codes.
  - intros h os.
    destruct (run_ops_assign_codes os (power_on h)) as (new & E & Hnew).
    unfold assigns in E. rewrite E. exact Hnew.
Qed.

Lemma accessors_of_selector (m : I2C_Module_t) :
  (m <> I2C_MODULE_2 ->
   _I2C_GetState m = Addr_I2C1_State /\
   _I2C_GetBusyFlag m = Addr_I2C1_Busy /\
   _I2C_GetConfig m = Addr_I2C1_Config) /\
  (m = I2C_MODULE_2 ->
   _I2C_GetState m = Addr_I2C2_State /\
   _I2C_GetBusyFlag m = Addr_I2C2_Busy /\
   _I2C_GetConfig m = Addr_I2C2_Config).
Proof.
  unfold _I2C_GetState, _I2C_GetBusyFlag, _I2C_GetConfig.
  split; intros Hm.
  - destruct (m =? I2C_MODULE_1); [repeat split|].
    apply Z.eqb_neq in Hm. rewrite Hm. repeat split.
  - subst m. repeat split.
Qed.

(** X2.  The two units do not interfere through the globals: an operation
    called with a selector other than 2 (unit 1, or an invalid selector)
    leaves the status, the busy flag, the configuration and the callback of
    unit 2 as they were, and an operation called with the selector 2 leaves
    those of unit 1 as they were. *)
Theorem units_are_isolated (o : Op) (s : @Driver H) :
  (op_selector o <> I2C_MODULE_2 -> unit2_kept s (run_op o s)) /\
  (op_selector o = I2C_MODULE_2 -> unit1_kept s (run_op o s)).
Proof.
  split; intros Hsel.
  - destruct (proj1 (accessors_of_selector (op_selector o)) Hsel)
      as (E1 & E2 & E3).
    destruct o as [[c|]|m|m|m|m|m d|m ack|m a d n|m a b n|m d r v|m d r
                  |m devs n|m a|m cb|m|m t|m|m|m];
      cbn [op_selector] in *;
      fp_op (@unit2_kept H); rewrite ?E1, ?E2, ?E3; fp_prim;
      try congruence; repeat split.
  - destruct (proj2 (accessors_of_selector (op_selector o)) Hsel)
      as (E1 & E2 & E3).
    destruct o as [[c|]|m|m|m|m|m d|m ack|m a d n|m a b n|m d r v|m d r
                  |m devs n|m a|m cb|m|m t|m|m|m];
      cbn [op_selector] in *;
      fp_op (@unit1_kept H); rewrite ?E1, ?E2, ?E3; fp_prim;
      try (exfalso; unfold I2C_MODULE_1, I2C_MODULE_2 in *; congruence);
      repeat split.
Qed.


(** X4.  Only [I2C_Init] changes a stored configuration: every other
    operation leaves both configurations, and so the timeout its waits use,
    as they were. *)
Theorem configuration_changes_only_in_Init (o : Op) (s : @Driver H) :
  is_OpInit o = false -> config_kept s (run_op o s).
Proof.
  intros Ho.
  destruct o as [[c|]|m|m|m|m|m d|m ack|m a d n|m a b n|m d r v|m d r
                |m devs n|m a|m cb|m|m t|m|m|m];
    try discriminate Ho;
    fp_op (@config_kept H); fp_prim; intros p; destruct p; reflexivity.
Qed.

(** X5.  The busy flags are written by [I2C_Init], [I2C_Deinit],
    [I2C_Start], [I2C_Stop] and the transactions built on them only:
    [I2C_Restart], [I2C_WriteByte], [I2C_ReadByte], [I2C_WaitIdle],
    [I2C_ClearErrors], [I2C_SetCallback], [I2C_ISR_Handler],
    [I2C_GetLastError] and [I2C_IsBusy] leave both busy flags as they were,
    whatever their outcome. *)
Theorem busy_flag_writers (o : Op) (s : @Driver H) :
  busy_writer o = false -> busy_kept s (run_op o s).
Proof.
  intros Ho.
  destruct o as [[c|]|m|m|m|m|m d|m ack|m a d n|m a b n|m d r v|m d r
                |m devs n|m a|m cb|m|m t|m|m|m];
    try discriminate Ho;
    fp_op (@busy_kept H); fp_prim; intros p; destruct p; reflexivity.
Qed.

(** X6.  [I2C_Init], [I2C_Deinit], [I2C_SetCallback], [I2C_ISR_Handler],
    [I2C_WaitIdle], [I2C_GetLastError], [I2C_ClearErrors] and [I2C_IsBusy]
    never call the wait primitive and never start a bus operation; in
    particular the interrupt handler does not enter the polled wait. *)
Theorem operations_without_wait (o : Op) (s : @Driver H) :
  polled_op o = false -> no_wait s (run_op o s).
Proof.
  intros Ho.
  destruct o as [[c|]|m|m|m|m|m d|m ack|m a d n|m a b n|m d r v|m d r
                |m devs n|m a|m cb|m|m t|m|m|m];
    try discriminate Ho;
    fp_op (@no_wait H); fp_prim; repeat split.
Qed.

End Invariants.

(** ** Outcomes of the wait primitive and of the single operations *)

Section Outcomes.

Context {H : Type} `{Hardware H}.

Lemma wait_loop_effect module n :
  forall (s : @Driver H),
    (polls s < polls (snd (wait_loop module n s)) <= polls s + S n)%nat /\
    waits (snd (wait_loop module n s)) = waits s /\
    match fst (wait_loop module n s) with
    | Some c => status_kept s (snd (wait_loop module n s))
    | None =>
      wait_error (get_state (_I2C_GetState module)
                    (snd (wait_loop module n s))) = true
    end.
Proof.
  induction n as [|n IH]; intros s; rewrite wait_loop_unfold;
    unfold first_read, i2c_con, reg_read, bind, count_poll; cbn [fst snd hw];
    destruct (hw_read _ (hw s)) as [v1 h1]; cbn [fst snd];
    destruct (negb (pending (uint16 v1))); cbn [fst snd polls waits hw set_hw].
  - repeat split; try lia; try (intros p; destruct p; reflexivity).
  - repeat split; try lia; try (intros p; destruct p; reflexivity).
  - repeat split; try lia; try (intros p; destruct p; reflexivity).
  - destruct (hw_read _ h1) as [v2 h2]; cbn [fst snd hw set_hw].
    destruct (overrun (uint16 v2)); cbn [fst snd hw set_hw].
    + destruct (_I2C_GetState module); repeat split; cbn; lia.
    + destruct (hw_read _ h2) as [v3 h3]; cbn [fst snd hw set_hw].
      destruct (collision (uint16 v3)); cbn [fst snd hw set_hw].
      * destruct (_I2C_GetState module); repeat split; cbn; lia.
      * match goal with
        | |- context [wait_loop module n ?s3] =>
          destruct (IH s3) as (Hp & Hw & Hr);
          destruct (wait_loop module n s3) as [r s4]
        end.
        simpl in Hp, Hw, Hr |- *.
        repeat split; try lia.
        destruct r as [c|]; [|exact Hr].
        intros p. rewrite Hr. destruct p; reflexivity.
Qed.

Lemma WaitCondition_effect module t (s : @Driver H) :
  frame s (snd (_I2C_WaitCondition module t s)) /\
  waits (snd (_I2C_WaitCondition module t s)) = S (waits s) /\
  (polls s < polls (snd (_I2C_WaitCondition module t s))
   <= polls s + S (Z.to_nat (uint16 (t * 1000))))%nat /\
  (if fst (_I2C_WaitCondition module t s)
   then status_kept s (snd (_I2C_WaitCondition module t s))
   else wait_error (get_state (_I2C_GetState module)
                      (snd (_I2C_WaitCondition module t s))) = true).
Proof.
  split; [apply frame_WaitCondition|].
  unfold _I2C_WaitCondition, bind, count_wait. cbn [fst snd].
  match goal with
  | |- context [wait_loop module ?n ?s0] =>
    destruct (wait_loop_effect module n s0) as (Hp & Hw & Hr);
    destruct (wait_loop module n s0) as [r s1]
  end.
  simpl in Hp, Hw, Hr |- *.
  destruct r as [c|].
  - destruct (c =? 0) eqn:E0; unfold store_state, ret; cbn [fst snd].
    + repeat split;
        try (destruct (_I2C_GetState module); cbn; (lia || reflexivity)).
    + repeat split; try lia. intros p. rewrite Hr.
      destruct p; reflexivity.
  - unfold ret. cbn [fst snd]. repeat split; try lia. exact Hr.
Qed.

(** X7.  The wait primitive is bounded and accounts for its failures: one
    call evaluates the loop condition at least once and at most
    [timeout_counter + 1] times; it changes neither the busy flags, nor the
    configurations, nor the callbacks; when it returns true both status
    codes are as before, and when it returns false the status of the unit is
    timeout, bus collision or overrun. *)
Theorem WaitCondition_contract (module : I2C_Module_t) (t : Z)
    (s : @Driver H) :
  frame s (snd (_I2C_WaitCondition module t s)) /\
  waits (snd (_I2C_WaitCondition module t s)) = S (waits s) /\
  (polls s < polls (snd (_I2C_WaitCondition module t s))
   <= polls s + S (Z.to_nat (uint16 (t * 1000))))%nat /\
  (if fst (_I2C_WaitCondition module t s)
   then status_kept s (snd (_I2C_WaitCondition module t s))
   else wait_error (get_state (_I2C_GetState module)
                      (snd (_I2C_WaitCondition module t s))) = true).
Proof. apply WaitCondition_effect. Qed.

(** Name the outcome of the wait of hypothesis [E] with everything
    [WaitCondition_effect] says about it. *)
Ltac wait_effect E ok s1 :=
  match type of E with
  | context [_I2C_WaitCondition ?m ?t ?s] =>
    let F := fresh "F" in
    let Hw := fresh "Hw" in
    let Hp := fresh "Hp" in
    let Ho := fresh "Ho" in
    destruct (WaitCondition_effect m t s) as (F & Hw & Hp & Ho);
    destruct (_I2C_WaitCondition m t s) as [ok s1];
    destruct F; cbn [fst snd] in *
  end.

(** [I2C_Start], once past its guard, calls the wait primitive once. *)
Lemma Start_waits module (s : @Driver H) :
  get_busy (_I2C_GetBusyFlag module) s = false ->
  waits (snd (I2C_Start module s)) = S (waits s).
Proof.
  intros Hb. destruct (I2C_Start module s) as [r s'] eqn:E.
  unfold I2C_Start in E. monad_unfold. rewrite Hb in E.
  read_cases E v h. wait_effect E ok s1.
  destruct ok; cbn [negb] in E; finish E;
    destruct (_I2C_GetBusyFlag module), (_I2C_GetState module);
    cbn in *; congruence.
Qed.

(** X8.  [I2C_Start] on a unit that is not busy calls the wait primitive
    exactly once.  When it returns true the unit is busy and its status is
    busy; when it returns false the busy flag is clear again and the status
    of the unit is the error of the wait (timeout, bus collision or
    overrun). *)
Theorem Start_outcome (module : I2C_Module_t) (s : @Driver H) :
  get_busy (_I2C_GetBusyFlag module) s = false ->
  waits (snd (I2C_Start module s)) = S (waits s) /\
  (if fst (I2C_Start module s)
   then get_busy (_I2C_GetBusyFlag module) (snd (I2C_Start module s)) = true
        /\ get_state (_I2C_GetState module) (snd (I2C_Start module s))
           = I2C_STATE_BUSY
   else get_busy (_I2C_GetBusyFlag module) (snd (I2C_Start module s)) = false
        /\ wait_error
             (get_state (_I2C_GetState module) (snd (I2C_Start module s)))
           = true).
Proof.
  intros Hb. destruct (I2C_Start module s) as [r s'] eqn:E.
  unfold I2C_Start in E. monad_unfold. rewrite Hb in E.
  read_cases E v h. wait_effect E ok s1.
  destruct ok; cbn [negb] in E; finish E.
  - specialize (Ho (_I2C_GetState module)).
    destruct (_I2C_GetBusyFlag module), (_I2C_GetState module);
      cbn in *; repeat split; congruence.
  - destruct (_I2C_GetBusyFlag module), (_I2C_GetState module);
      cbn in *; repeat split; congruence.
Qed.

(** X9.  [I2C_WriteByte] calls the wait primitive exactly once.  When it
    returns true both status codes are as before; when it returns false the
    status of the unit tells why: data-NACK, or the error of the wait. *)
Theorem WriteByte_outcome (module : I2C_Module_t) (data : Z)
    (s : @Driver H) :
  waits (snd (I2C_WriteByte module data s)) = S (waits s) /\
  (if fst (I2C_WriteByte module data s)
   then status_kept s (snd (I2C_WriteByte module data s))
   else get_state (_I2C_GetState module) (snd (I2C_WriteByte module data s))
          = I2C_STATE_DATA_NACK \/
        wait_error
          (get_state (_I2C_GetState module)
             (snd (I2C_WriteByte module data s))) = true).
Proof.
  destruct (I2C_WriteByte module data s) as [r s'] eqn:E.
  unfold I2C_WriteByte in E. monad_unfold. cbn [fst snd] in E.
  read_cases E v h. wait_effect E ok s1.
  destruct ok; cbn [negb] in E.
  - read_cases E v' h'.
    destruct (nonzero _); finish E.
    + destruct (_I2C_GetState module); cbn in *;
        (split; [assumption | left; reflexivity]).
    + split; [cbn; assumption|]. intros p. specialize (Ho p).
      destruct p; cbn in *; congruence.
  - finish E.
    destruct (_I2C_GetState module); cbn in *;
      (split; [assumption | right; assumption]).
Qed.

(** X10.  [I2C_ReadByte] returns a value between 0 and 255 whether or not
    its wait succeeded; the failure is visible in the status only: when the
    wait succeeded both status codes are as before, when it failed the
    status of the unit is timeout, bus collision or overrun. *)
Theorem ReadByte_outcome (module : I2C_Module_t) (ack : bool)
    (s : @Driver H) :
  0 <= fst (I2C_ReadByte module ack s) < 256 /\
  exists wait_ok,
    calls (snd (I2C_ReadByte module ack s))
      = calls s ++ [CallReadByte module ack wait_ok
                      (fst (I2C_ReadByte module ack s))] /\
    (if wait_ok
     then status_kept s (snd (I2C_ReadByte module ack s))
     else wait_error
            (get_state (_I2C_GetState module)
               (snd (I2C_ReadByte module ack s))) = true).
Proof.
  destruct (I2C_ReadByte module ack s) as [b s'] eqn:E.
  unfold I2C_ReadByte in E. monad_unfold.
  destruct ack; cbn [fst snd] in E; read_cases E v h; read_cases E v' h';
    wait_effect E ok s1; read_cases E v2 h2; finish E;
    (split; [unfold uint8; apply Z.mod_pos_bound; reflexivity|]);
    exists ok; (split; [congruence|]);
    destruct ok;
    try (intros p; specialize (Ho p); destruct p; cbn in *; congruence);
    destruct (_I2C_GetState module); cbn in *; assumption.
Qed.

End Outcomes.

(** ** Transactions *)

Section MoreTransactions.

Context {H : Type} `{Hardware H}.

Lemma Start_when_busy module (s : @Driver H) :
  get_busy (_I2C_GetBusyFlag module) s = true ->
  I2C_Start module s = (false, snd (log (CallStart module false) s)).
Proof.
  intros Hb. unfold I2C_Start. monad_unfold. rewrite Hb. reflexivity.
Qed.

Lemma untouched_refl (s : @Driver H) : untouched s s.
Proof. repeat split. Qed.

Lemma untouched_log c (s : @Driver H) : untouched s (snd (log c s)).
Proof. repeat split. Qed.

Lemma untouched_trans (s1 s2 s3 : @Driver H) :
  untouched s1 s2 -> untouched s2 s3 -> untouched s1 s3.
Proof.
  intros (A1 & A2 & A3 & A4 & A5) (B1 & B2 & B3 & B4 & B5).
  unfold status_kept, busy_kept in *.
  repeat split; intros; congruence.
Qed.

Lemma CheckDevice_when_busy module address (s : @Driver H) :
  get_busy (_I2C_GetBusyFlag module) s = true ->
  I2C_CheckDevice module address s
  = (false, snd (log (CallStart module false) s)).
Proof.
  intros Hb. unfold I2C_CheckDevice, bind.
  rewrite (Start_when_busy _ _ Hb). reflexivity.
Qed.

Lemma ScanBus_loop_when_busy module max n :
  forall addr found devices (s : @Driver H),
    get_busy (_I2C_GetBusyFlag module) s = true ->
    exists s',
      ScanBus_loop module max n addr found devices s
      = ((found, devices), s') /\
      untouched s s'.
Proof.
  induction n as [|n IH]; intros addr found devices s Hb; cbn [ScanBus_loop].
  - exists s. split; [reflexivity | apply untouched_refl].
  - unfold bind. rewrite (CheckDevice_when_busy _ _ _ Hb).
    destruct (IH (addr + 1) found devices
                (snd (log (CallStart module false) s))) as (s' & E & U).
    { destruct (_I2C_GetBusyFlag module); exact Hb. }
    exists s'. split; [exact E|].
    eapply untouched_trans; [apply untouched_log | exact U].
Qed.

(** X11.  On a unit whose busy flag is set, every transaction fails at its
    Start without touching the bus: [I2C_WriteData], [I2C_ReadData],
    [I2C_WriteRegister] and [I2C_CheckDevice] return false,
    [I2C_ReadRegister] returns 0 and [I2C_ScanBus] reports no device; the
    peripheral, the status codes, the busy flags and the caller's buffers are
    as before, and the wait primitive is not called. *)
Theorem transactions_on_busy_unit (module : I2C_Module_t) (s : @Driver H) :
  get_busy (_I2C_GetBusyFlag module) s = true ->
  (forall address data length,
     fst (I2C_WriteData module address data length s) = false /\
     untouched s (snd (I2C_WriteData module address data length s))) /\
  (forall address buffer length,
     fst (I2C_ReadData module address buffer length s) = (false, buffer) /\
     untouched s (snd (I2C_ReadData module address buffer length s))) /\
  (forall dev_addr reg_addr data,
     fst (I2C_WriteRegister module dev_addr reg_addr data s) = false /\
     untouched s (snd (I2C_WriteRegister module dev_addr reg_addr data s))) /\
  (forall dev_addr reg_addr,
     fst (I2C_ReadRegister module dev_addr reg_addr s) = 0 /\
     untouched s (snd (I2C_ReadRegister module dev_addr reg_addr s))) /\
  (forall address,
     fst (I2C_CheckDevice module address s) = false /\
     untouched s (snd (I2C_CheckDevice module address s))) /\
  (forall devices max_devices,
     fst (I2C_ScanBus module devices max_devices s) = (false, devices) /\
     untouched s (snd (I2C_ScanBus module devices max_devices s))).
Proof.
  intros Hb.
  assert (HW : forall address data length,
            fst (I2C_WriteData module address data length s) = false /\
            untouched s (snd (I2C_WriteData module address data length s))).
  { intros address data length. unfold I2C_WriteData.
    destruct data as [l|]; [|split; [reflexivity | apply untouched_refl]].
    destruct (length =? 0); [split; [reflexivity | apply untouched_refl]|].
    unfold bind. rewrite (Start_when_busy _ _ Hb).
    split; [reflexivity | apply untouched_log]. }
  split; [exact HW|]. split; [|split; [|split; [|split]]].
  - intros address buffer length. unfold I2C_ReadData.
    destruct buffer as [l|]; [|split; [reflexivity | apply untouched_refl]].
    destruct (length =? 0); [split; [reflexivity | apply untouched_refl]|].
    unfold bind. rewrite (Start_when_busy _ _ Hb).
    split; [reflexivity | apply untouched_log].
  - intros dev_addr reg_addr data. apply HW.
  - intros dev_addr reg_addr. unfold I2C_ReadRegister, bind.
    destruct (HW dev_addr (Some [reg_addr]) 1) as [E U].
    destruct (I2C_WriteData module dev_addr (Some [reg_addr]) 1 s)
      as [ok s1].
    cbn [fst snd] in *. subst ok. split; [reflexivity | exact U].
  - intros address. rewrite (CheckDevice_when_busy _ _ _ Hb).
    split; [reflexivity | apply untouched_log].
  - intros devices max_devices. unfold I2C_ScanBus, bind.
    destruct (ScanBus_loop_when_busy module max_devices 126 1 0 devices s Hb)
      as (s1 & E & U).
    rewrite E. split; [reflexivity | exact U].
Qed.

Lemma WriteData_loop_None module data n :
  forall i (s s' : @Driver H),
    WriteData_loop module data n i s = (None, s') ->
    calls s' =
    calls s ++
    map (fun j => CallWriteByte module (data_at data (i + Z.of_nat j)) true)
      (seq 0 n).
Proof.
  induction n as [|n IH]; intros i s s' E; cbn [WriteData_loop] in E.
  - unfold ret in E. injection E as <-. cbn. rewrite app_nil_r. reflexivity.
  - unfold bind in E.
    destruct (I2C_WriteByte module (data_at data i) s) as [ok s1] eqn:EW.
    apply WriteByte_spec in EW as [Hc _].
    destruct ok; cbn [negb] in E.
    + apply IH in E. rewrite E, Hc, <- app_assoc. f_equal.
      cbn [seq map app]. rewrite Z.add_0_r. f_equal.
      rewrite <- seq_shift, map_map. apply map_ext. intros j.
      do 2 f_equal. rewrite Nat2Z.inj_succ. lia.
    + destruct (I2C_Stop module s1). discriminate E.
Qed.

Lemma WriteData_true module address data length (s s' : @Driver H) :
  I2C_WriteData module address data length s = (true, s') ->
  exists l,
    data = Some l /\
    calls s' =
    calls s ++
    CallStart module true
    :: CallWriteByte module (uint8 (Z.lor (Z.shiftl address 1) 0x00)) true
    :: map (fun j => CallWriteByte module (data_at l (Z.of_nat j)) true)
         (seq 0 (Z.to_nat length))
    ++ [CallStop module true] /\
    get_busy (_I2C_GetBusyFlag module) s' = false /\
    get_state (_I2C_GetState module) s' = I2C_STATE_IDLE.
Proof.
  intros E. unfold I2C_WriteData in E.
  destruct data as [l|]; [|discriminate E].
  destruct (length =? 0); [discriminate E|].
  exists l. split; [reflexivity|].
  unfold bind in E.
  set (ab := uint8 (Z.lor (Z.shiftl address 1) 0)) in *.
  destruct (I2C_Start module s) as [ok s1] eqn:ES.
  apply Start_spec in ES as [Hc _].
  destruct ok; cbn [negb] in E; [|discriminate E].
  destruct (I2C_WriteByte module ab s1) as [okA s2] eqn:EW.
  apply WriteByte_spec in EW as [HcA _].
  destruct okA; cbn [negb] in E;
    [|destruct (I2C_Stop module s2); discriminate E].
  destruct (WriteData_loop module l (Z.to_nat length) 0 s2)
    as [rl s3] eqn:EL.
  destruct rl as [b|].
  - apply WriteData_loop_spec in EL as (ws & _ & Hb & _).
    unfold ret in E. cbn beta in E. congruence.
  - apply WriteData_loop_None in EL.
    apply Stop_spec in E as (Hc4 & Htrue & _).
    destruct (Htrue eq_refl) as [Hbusy Hidle].
    repeat split; try assumption.
    rewrite Hc4, EL, HcA, Hc, <- !app_assoc. reflexivity.
Qed.

(** X12.  When [I2C_WriteData] returns true, the bus has seen, in this
    order and all successful: the Start, the address byte [address << 1]
    (8 bits, write direction), the bytes [data[0]] to [data[length - 1]],
    and the Stop; the unit is then not busy and its status is idle. *)
Theorem WriteData_success (module : I2C_Module_t) (address : Z)
    (data : option (list Z)) (length : Z) (s s' : @Driver H) :
  I2C_WriteData module address data length s = (true, s') ->
  exists l,
    data = Some l /\
    calls s' =
    calls s ++
    CallStart module true
    :: CallWriteByte module (uint8 (Z.lor (Z.shiftl address 1) 0x00)) true
    :: map (fun j => CallWriteByte module (data_at l (Z.of_nat j)) true)
         (seq 0 (Z.to_nat length))
    ++ [CallStop module true] /\
    get_busy (_I2C_GetBusyFlag module) s' = false /\
    get_state (_I2C_GetState module) s' = I2C_STATE_IDLE.
Proof. apply WriteData_true. Qed.

(** X13.  When [I2C_WriteRegister] returns true, the bus has seen exactly:
    Start, the device address byte in write direction, the register index,
    the data byte, Stop, each successful; the unit is then not busy and its
    status is idle. *)
Theorem WriteRegister_success (module : I2C_Module_t)
    (dev_addr reg_addr data : Z) (s s' : @Driver H) :
  I2C_WriteRegister module dev_addr reg_addr data s = (true, s') ->
  calls s' =
  calls s ++
  [CallStart module true;
   CallWriteByte module (uint8 (Z.lor (Z.shiftl dev_addr 1) 0x00)) true;
   CallWriteByte module reg_addr true;
   CallWriteByte module data true;
   CallStop module true] /\
  get_busy (_I2C_GetBusyFlag module) s' = false /\
  get_state (_I2C_GetState module) s' = I2C_STATE_IDLE.
Proof.
  intros E. unfold I2C_WriteRegister in E.
  apply WriteData_true in E as (l & Hl & Hc & Hb & Hi).
  injection Hl as <-. repeat split; assumption.
Qed.

End MoreTransactions.

(** ** Buffers, probes and the bus scan *)

Section Buffers.

Context {H : Type} `{Hardware H}.

Lemma store_at_length (l : list Z) : forall i v,
  List.length (store_at l i v) = List.length l.
Proof.
  induction l as [|x l IH]; intros [|i] v; cbn; try reflexivity.
  rewrite IH. reflexivity.
Qed.

Lemma store_at_nth (l : list Z) : forall i v j d,
  nth j (store_at l i v) d =
  if ((j =? i) && (j <? List.length l))%nat then v else nth j l d.
Proof.
  induction l as [|x l IH]; intros [|i] v [|j] d; cbn [store_at nth];
    try reflexivity.
  - rewrite andb_false_r. reflexivity.
  - rewrite IH. reflexivity.
Qed.

Lemma store_list_length (xs : list Z) : forall l i,
  List.length (store_list l i xs) = List.length l.
Proof.
  induction xs as [|x xs IH]; intros l i; cbn [store_list]; [reflexivity|].
  rewrite IH. apply store_at_length.
Qed.

Lemma store_list_nth (xs : list Z) : forall l i j d,
  nth j (store_list l i xs) d =
  if ((i <=? j) && (j <? i + List.length xs) && (j <? List.length l))%nat
  then nth (j - i) xs d else nth j l d.
Proof.
  induction xs as [|x xs IH]; intros l i j d; cbn [store_list List.length].
  - destruct (Nat.leb_spec i j), (Nat.ltb_spec j (i + 0));
      cbn [andb]; try lia; reflexivity.
  - rewrite IH, store_at_length, store_at_nth.
    destruct (Nat.leb_spec (S i) j), (Nat.leb_spec i j),
      (Nat.ltb_spec j (S i + List.length xs)),
      (Nat.ltb_spec j (i + S (List.length xs))),
      (Nat.ltb_spec j (List.length l)), (Nat.eqb_spec j i);
      cbn [andb]; try lia; try reflexivity.
    + replace (j - i)%nat with (S (j - S i)) by lia. reflexivity.
    + subst j. rewrite Nat.sub_diag. reflexivity.
Qed.

Lemma filter_all {A} (f : A -> bool) (l : list A) :
  forallb f l = true -> filter f l = l.
Proof.
  induction l as [|x l IH]; cbn; [reflexivity|].
  intros Hall. apply andb_prop in Hall as [Hx Hl].
  rewrite Hx, (IH Hl). reflexivity.
Qed.

Lemma ReadByte_byte module ack (s : @Driver H) :
  0 <= fst (I2C_ReadByte module ack s) < 256.
Proof.
  unfold I2C_ReadByte. monad_unfold. unfold reg_read.
  destruct ack; cbn [fst snd];
    repeat (destruct (hw_read _ _); cbn [fst snd]);
    destruct (_I2C_WaitCondition _ _ _); cbn [fst snd];
    destruct (hw_read _ _); cbn [fst snd];
    unfold uint8; apply Z.mod_pos_bound; reflexivity.
Qed.

(** The loop of [I2C_ReadData] stores the byte of each read at its index. *)
Lemma ReadData_loop_buffer module length n :
  forall i buf (s s' : @Driver H) buf',
    0 <= i ->
    ReadData_loop module length n i buf s = (buf', s') ->
    exists rs,
      calls s' = calls s ++ rs /\
      List.length rs = n /\
      forallb is_read rs = true /\
      buf' = store_list buf (Z.to_nat i) (map read_byte rs) /\
      Forall (fun b => 0 <= b < 256) (map read_byte rs).
Proof.
  induction n as [|n IH]; intros i buf s s' buf' Hi E;
    cbn [ReadData_loop] in E.
  - unfold ret in E. injection E as <- <-. exists [].
    rewrite app_nil_r. repeat split. constructor.
  - unfold bind in E.
    pose proof (ReadByte_byte module (i <? length - 1) s) as Hbyte.
    destruct (I2C_ReadByte module (i <? length - 1) s) as [b s1] eqn:ER.
    apply ReadByte_spec in ER as [[w Hc] _]. cbn [fst] in Hbyte.
    apply IH in E as (rs & Hrs & Hlen & Hall & Hbuf & Hrange); [|lia].
    exists (CallReadByte module (i <? length - 1) w b :: rs).
    repeat split.
    + rewrite Hrs, Hc, <- app_assoc. reflexivity.
    + cbn. rewrite Hlen. reflexivity.
    + cbn. exact Hall.
    + rewrite Hbuf. cbn [map read_byte store_list].
      replace (Z.to_nat (i + 1)) with (S (Z.to_nat i)) by lia. reflexivity.
    + cbn [map read_byte]. constructor; assumption.
Qed.

(** What [I2C_ReadData] leaves in the caller's buffer. *)
Lemma ReadData_result (module : I2C_Module_t) (address : Z)
    (buf : list Z) (length : Z) (s s' : @Driver H) (r : bool)
    (out : option (list Z)) :
  I2C_ReadData module address (Some buf) length s = ((r, out), s') ->
  exists new buf',
    calls s' = calls s ++ new /\
    out = Some buf' /\
    List.length buf' = List.length buf /\
    (forall j,
       nth j buf' 0 =
       if ((j <? List.length (filter is_read new))
           && (j <? List.length buf))%nat
       then nth j (map read_byte (filter is_read new)) 0
       else nth j buf 0) /\
    Forall (fun b => 0 <= b < 256) (map read_byte (filter is_read new)) /\
    (r = true ->
     List.length (filter is_read new) = Z.to_nat length) /\
    (existsb is_read new = false -> buf' = buf).
Proof.
  intros E.
  assert (Hsame : forall new,
    filter is_read new = [] ->
    List.length buf = List.length buf /\
    (forall j,
       nth j buf 0 =
       if ((j <? List.length (filter is_read new))
           && (j <? List.length buf))%nat
       then nth j (map read_byte (filter is_read new)) 0
       else nth j buf 0) /\
    Forall (fun b => 0 <= b < 256) (map read_byte (filter is_read new))).
  { intros new ->. repeat split. constructor. }
  unfold I2C_ReadData in E.
  destruct (length =? 0) eqn:E0.
  - unfold ret in E. injection E as <- <- <-. exists [], buf.
    rewrite app_nil_r.
    destruct (Hsame [] eq_refl) as (A & B & C).
    repeat split; try assumption. discriminate.
  - unfold bind in E.
    set (ab := uint8 (Z.lor (Z.shiftl address 1) 1)) in *.
    destruct (I2C_Start module s) as [ok s1] eqn:ES.
    apply Start_spec in ES as [Hc _].
    destruct ok; cbn [negb] in E.
    + destruct (I2C_WriteByte module ab s1) as [okA s2] eqn:EW.
      apply WriteByte_spec in EW as [HcA _].
      destruct okA; cbn [negb] in E.
      * destruct (ReadData_loop module length (Z.to_nat length) 0 buf s2)
          as [buf' s3] eqn:EL.
        apply ReadData_loop_buffer in EL
          as (rs & Hrs & Hlen & Hall & Hbuf & Hrange); [|lia].
        destruct (I2C_Stop module s3) as [ok s4] eqn:EP.
        apply Stop_spec in EP as (Hc4 & _).
        unfold ret in E. injection E as <- <- <-.
        exists (CallStart module true :: CallWriteByte module ab true
                  :: rs ++ [CallStop module ok]), buf'.
        assert (Hf : filter is_read
                       (CallStart module true :: CallWriteByte module ab true
                          :: rs ++ [CallStop module ok]) = rs).
        { cbn [filter is_read]. rewrite filter_app, (filter_all _ _ Hall).
          cbn. apply app_nil_r. }
        rewrite Hf. repeat split.
        -- rewrite Hc4, Hrs, HcA, Hc, <- !app_assoc. reflexivity.
        -- rewrite Hbuf. apply store_list_length.
        -- intros j. rewrite Hbuf, store_list_nth, length_map.
           cbn [Z.to_nat Nat.leb Nat.add andb]. rewrite Nat.sub_0_r.
           reflexivity.
        -- exact Hrange.
        -- intros _. exact Hlen.
        -- intros Hnone. cbn [existsb is_read orb] in Hnone.
           rewrite existsb_app in Hnone. cbn in Hnone.
           rewrite orb_false_r in Hnone.
           destruct rs as [|c rs]; [rewrite Hbuf; reflexivity|].
           cbn in Hall, Hnone. apply andb_prop in Hall as [Hc0 _].
           rewrite Hc0 in Hnone. discriminate.
      * destruct (I2C_Stop module s2) as [ok s3] eqn:EP.
        apply Stop_spec in EP as (Hc3 & _).
        unfold ret in E. injection E as <- <- <-.
        exists [CallStart module true; CallWriteByte module ab false;
                CallStop module ok], buf.
        destruct (Hsame [CallStart module true;
                         CallWriteByte module ab false;
                         CallStop module ok] eq_refl) as (A & B & C).
        repeat split; try assumption; try discriminate.
        rewrite Hc3, HcA, Hc, <- !app_assoc. reflexivity.
    + unfold ret in E. injection E as <- <- <-.
      exists [CallStart module false], buf.
      destruct (Hsame [CallStart module false] eq_refl) as (A & B & C).
      repeat split; try assumption; discriminate.
Qed.

(** X14.  [I2C_ReadData] stores into the caller's buffer exactly the bytes
    its reads returned, in order, from index 0, and nothing else: the buffer
    keeps its size, entry [j] is the [j]-th byte read and the entries after
    the last byte read are as before.  Every byte stored is between 0 and
    255.  When the Start or the address byte fails nothing is read and the
    buffer is unchanged; when the function returns true, [length] bytes were
    read. *)
Theorem ReadData_buffer (module : I2C_Module_t) (address : Z)
    (buf : list Z) (length : Z) (s s' : @Driver H) (r : bool)
    (out : option (list Z)) :
  I2C_ReadData module address (Some buf) length s = ((r, out), s') ->
  exists new buf',
    calls s' = calls s ++ new /\
    out = Some buf' /\
    List.length buf' = List.length buf /\
    (forall j,
       nth j buf' 0 =
       if ((j <? List.length (filter is_read new))
           && (j <? List.length buf))%nat
       then nth j (map read_byte (filter is_read new)) 0
       else nth j buf 0) /\
    Forall (fun b => 0 <= b < 256) (map read_byte (filter is_read new)) /\
    (r = true ->
     List.length (filter is_read new) = Z.to_nat length) /\
    (existsb is_read new = false -> buf' = buf).
Proof. apply ReadData_result. Qed.

Lemma CheckDevice_spec module address (s s' : @Driver H) r :
  I2C_CheckDevice module address s = (r, s') ->
  exists new,
    calls s' = calls s ++ new /\
    ((new = [CallStart module false] /\ r = false) \/
     (exists ok,
        new = [CallStart module true;
               CallWriteByte module
                 (uint8 (Z.lor (Z.shiftl address 1) 0x00)) r;
               CallStop module ok] /\
        get_busy (_I2C_GetBusyFlag module) s' = negb ok)).
Proof.
  intros E. unfold I2C_CheckDevice, bind in E.
  set (ab := uint8 (Z.lor (Z.shiftl address 1) 0)) in *.
  destruct (I2C_Start module s) as [ok s1] eqn:ES.
  apply Start_spec in ES as [Hc Hbusy].
  destruct ok; cbn [negb] in E.
  - specialize (Hbusy eq_refl).
    destruct (I2C_WriteByte module ab s1) as [okA s2] eqn:EW.
    apply WriteByte_spec in EW as [HcA HbA].
    destruct (I2C_Stop module s2) as [ok s3] eqn:EP.
    apply Stop_spec in EP as (Hc3 & Htrue & Hfalse).
    unfold ret in E. injection E as <- <-.
    exists [CallStart module true; CallWriteByte module ab okA;
            CallStop module ok].
    split.
    + rewrite Hc3, HcA, Hc, <- !app_assoc. reflexivity.
    + right. exists ok. split; [reflexivity|].
      destruct ok; cbn [negb].
      * apply Htrue. reflexivity.
      * rewrite (Hfalse eq_refl), HbA. exact Hbusy.
  - unfold ret in E. injection E as <- <-.
    exists [CallStart module false]. split; [exact Hc|].
    left. split; reflexivity.
Qed.

(** X15.  [I2C_CheckDevice] either fails at its Start and does nothing
    more, or performs Start, the write of the address byte and Stop; in the
    second case it returns whether the address byte was acknowledged,
    whatever the Stop returns, and the unit is left busy exactly when the
    Stop failed.  A probe that found the device can so leave the unit
    busy. *)
Theorem CheckDevice_probe (module : I2C_Module_t) (address : Z)
    (s s' : @Driver H) (r : bool) :
  I2C_CheckDevice module address s = (r, s') ->
  exists new,
    calls s' = calls s ++ new /\
    ((new = [CallStart module false] /\ r = false) \/
     (exists ok,
        new = [CallStart module true;
               CallWriteByte module
                 (uint8 (Z.lor (Z.shiftl address 1) 0x00)) r;
               CallStop module ok] /\
        get_busy (_I2C_GetBusyFlag module) s' = negb ok)).
Proof. apply CheckDevice_spec. Qed.







End Buffers.

(** ** Timing calculator, initialisation and status operations *)

(** X17.  [_I2C_CalculateBRG] is undefined (division by zero) exactly when
    twice the speed is 0 in 32-bit arithmetic; in every other case its result fits the register and is at least
    the hardware minimum: it lies between 2 and 65535. *)
Theorem CalculateBRG_range (fcy desired_speed : Z) :
  match _I2C_CalculateBRG fcy desired_speed with
  | Some brg => uint32 (2 * desired_speed) <> 0 /\ 2 <= brg <= 65535
  | None => uint32 (2 * desired_speed) = 0
  end.
Proof.
  unfold _I2C_CalculateBRG.
  destruct (uint32 (2 * desired_speed) =? 0) eqn:E0.
  - apply Z.eqb_eq. exact E0.
  - split; [apply Z.eqb_neq; exact E0|].
    set (x := uint32 (fcy / uint32 (2 * desired_speed) - 2)).
    assert (Hx : 0 <= x < 2 ^ 32)
      by (apply Z.mod_pos_bound; reflexivity).
    destruct (x >? 65535) eqn:E1; rewrite Z.gtb_ltb in E1.
    + cbn. lia.
    + apply Z.ltb_ge in E1. destruct (x <? 2) eqn:E2.
      * cbn. lia.
      * apply Z.ltb_ge in E2. unfold uint16.
        rewrite Z.mod_small by lia. lia.
Qed.

(** X18.  For a speed below 2^31 Hz and a quotient [fcy / (2 x speed)] of
    at least 2, [_I2C_CalculateBRG] returns [fcy / (2 x speed) - 2] clamped
    to [2, 65535]: the exact divider when it is in range, 2 for the
    quotients 2 and 3, 65535 when the divider exceeds 16 bits. *)
Theorem CalculateBRG_clamped (fcy desired_speed : Z) :
  0 <= fcy < 2 ^ 32 -> 0 < desired_speed < 2 ^ 31 ->
  2 <= fcy / (2 * desired_speed) ->
  _I2C_CalculateBRG fcy desired_speed
  = Some (divider_spec fcy desired_speed) /\
  (2 <= fcy / (2 * desired_speed) - 2 <= 65535 ->
   _I2C_CalculateBRG fcy desired_speed
   = Some (fcy / (2 * desired_speed) - 2)).
Proof.
  intros Hf Hs Hq. rewrite (CalculateBRG_value _ _ Hf Hs).
  destruct (fcy / (2 * desired_speed) <? 2) eqn:E;
    [apply Z.ltb_lt in E; lia|].
  split; [reflexivity|].
  intros Hr. unfold divider_spec. f_equal. lia.
Qed.

Lemma CalculateBRG_clamped_witness :
  _I2C_CalculateBRG 40000000 100000
  = Some (divider_spec 40000000 100000) /\
  (2 <= 40000000 / (2 * 100000) - 2 <= 65535 ->
   _I2C_CalculateBRG 40000000 100000 = Some (40000000 / (2 * 100000) - 2)).
Proof.
  apply (CalculateBRG_clamped 40000000 100000);
    [lia | lia | vm_compute; discriminate].
Defined.

Section Setup.

Context {H : Type} `{Hardware H}.

(** Backward reasoning on a computation. *)
Lemma post_bind {A B} (c : M A) (k : A -> M B) (Q : B -> @Driver H -> Prop)
    (s : @Driver H) :
  post c (fun a s1 => post (k a) Q s1) s -> post (bind c k) Q s.
Proof. unfold post, bind. destruct (c s). auto. Qed.

Lemma post_reg_read r (Q : Z -> @Driver H -> Prop) (s : @Driver H) :
  (forall v h, Q v (set_hw h s)) -> post (reg_read r) Q s.
Proof.
  intros HQ. unfold post, reg_read. destruct (hw_read r (hw s)). apply HQ.
Qed.

Lemma post_reg_write r v (Q : unit -> @Driver H -> Prop) (s : @Driver H) :
  (forall h, Q tt (set_hw h s)) -> post (reg_write r v) Q s.
Proof. intros HQ. apply HQ. Qed.

Lemma post_reg_or r v (Q : unit -> @Driver H -> Prop) (s : @Driver H) :
  (forall h, Q tt (set_hw h s)) -> post (reg_or r v) Q s.
Proof.
  intros HQ. unfold reg_or. apply post_bind, post_reg_read. intros v0 h.
  apply post_reg_write. intros h'. apply HQ.
Qed.

Lemma post_reg_and r v (Q : unit -> @Driver H -> Prop) (s : @Driver H) :
  (forall h, Q tt (set_hw h s)) -> post (reg_and r v) Q s.
Proof.
  intros HQ. unfold reg_and. apply post_bind, post_reg_read. intros v0 h.
  apply post_reg_write. intros h'. apply HQ.
Qed.

Lemma post_bit_write b v (Q : unit -> @Driver H -> Prop) (s : @Driver H) :
  (forall h, Q tt (set_hw h s)) -> post (bit_write b v) Q s.
Proof. intros HQ. apply HQ. Qed.

Lemma post_ret {A} (a : A) (Q : A -> @Driver H -> Prop) (s : @Driver H) :
  Q a s -> post (ret a) Q s.
Proof. exact (fun q => q). Qed.

Lemma post_get {A} (f : @Driver H -> A) (Q : A -> @Driver H -> Prop)
    (s : @Driver H) :
  Q (f s) s -> post (get f) Q s.
Proof. exact (fun q => q). Qed.

Lemma post_store_state p v (Q : unit -> @Driver H -> Prop) (s : @Driver H) :
  Q tt (set_state p v s) -> post (store_state p v) Q s.
Proof. exact (fun q => q). Qed.

Lemma post_store_busy p v (Q : unit -> @Driver H -> Prop) (s : @Driver H) :
  Q tt (set_busy p v s) -> post (store_busy p v) Q s.
Proof. exact (fun q => q). Qed.

Lemma post_store_config p v (Q : unit -> @Driver H -> Prop)
    (s : @Driver H) :
  Q tt (set_config p v s) -> post (store_config p v) Q s.
Proof. exact (fun q => q). Qed.

Lemma post_invoke f e d (Q : unit -> @Driver H -> Prop) (s : @Driver H) :
  Q tt (snd (invoke f e d s)) -> post (invoke f e d) Q s.
Proof. exact (fun q => q). Qed.

Lemma post_SetCallback m cb (Q : unit -> @Driver H -> Prop)
    (s : @Driver H) :
  Q tt (snd (I2C_SetCallback m cb s)) -> post (I2C_SetCallback m cb) Q s.
Proof.
  unfold post. destruct (I2C_SetCallback m cb s) as [[] s']. exact (fun q => q).
Qed.

End Setup.

Ltac post_step :=
  lazymatch goal with
  | |- post (bind _ _) _ _ => apply post_bind
  | |- post (reg_or _ _) _ _ => apply post_reg_or; intros ?h
  | |- post (reg_and _ _) _ _ => apply post_reg_and; intros ?h
  | |- post (reg_write _ _) _ _ => apply post_reg_write; intros ?h
  | |- post (bit_write _ _) _ _ => apply post_bit_write; intros ?h
  | |- post (reg_read _) _ _ => apply post_reg_read; intros ?v ?h
  | |- post (if ?b then _ else _) _ _ => destruct b eqn:?
  | |- post (match ?x with _ => _ end) _ _ => destruct x eqn:?
  | |- post (ret _) _ _ => apply post_ret
  | |- post (store_state _ _) _ _ => apply post_store_state
  | |- post (store_busy _ _) _ _ => apply post_store_busy
  | |- post (store_config _ _) _ _ => apply post_store_config
  | |- post (get _) _ _ => apply post_get
  | |- post (invoke _ _ _) _ _ => apply post_invoke
  | |- post (I2C_SetCallback _ _) _ _ => apply post_SetCallback
  end.

Section InitDeinit.

Context {H : Type} `{Hardware H}.

Lemma Init_result (config : I2C_Config_t) (s : @Driver H) :
  post (I2C_Init (Some config))
    (fun a s' =>
       match a with
       | Some _ =>
         uint32 (2 * uint32 (speed config)) <> 0 /\
         exists h, s' = set_hw h (Init_globals config s)
       | None => uint32 (2 * uint32 (speed config)) = 0
       end) s.
Proof.
  pose proof (CalculateBRG_range 40000000 (uint32 (speed config))) as Hbrg.
  unfold I2C_Init, _I2C_ConfigurePins, Init_globals.
  repeat post_step; try exact Hbrg; (split; [exact (proj1 Hbrg)|]);
    unfold I2C_SetCallback;
    destruct (module config =? I2C_MODULE_1),
      (module config =? I2C_MODULE_2);
    try discriminate;
    destruct (_I2C_GetState (module config)),
      (_I2C_GetBusyFlag (module config)), (_I2C_GetConfig (module config));
    eexists; reflexivity.
Qed.

(** X19.  [I2C_Init] with a configuration.  When twice the speed is 0 in
    32-bit arithmetic the divider computation divides by zero.  Otherwise
    the function completes, and afterwards the unit the accessors resolve
    the selector to holds the configuration, has status idle and is not
    busy; the callback of the configuration is registered for a valid
    selector, while for an invalid one, whose configuration, status and
    busy flag are those of unit 1, no callback is touched.  No bus operation
    is recorded and the wait primitive is not called. *)
Theorem Init_postcondition (config : I2C_Config_t) (s : @Driver H) :
  (uint32 (2 * uint32 (speed config)) = 0 ->
   fst (I2C_Init (Some config) s) = None) /\
  (uint32 (2 * uint32 (speed config)) <> 0 ->
   fst (I2C_Init (Some config) s) = Some tt /\
   get_config (_I2C_GetConfig (module config))
     (snd (I2C_Init (Some config) s)) = config /\
   get_state (_I2C_GetState (module config))
     (snd (I2C_Init (Some config) s)) = I2C_STATE_IDLE /\
   get_busy (_I2C_GetBusyFlag (module config))
     (snd (I2C_Init (Some config) s)) = false /\
   (module config = I2C_MODULE_1 \/ module config = I2C_MODULE_2 ->
    registered (module config) (snd (I2C_Init (Some config) s))
    = callback config) /\
   (module config <> I2C_MODULE_1 -> module config <> I2C_MODULE_2 ->
    i2c1_callback (snd (I2C_Init (Some config) s)) = i2c1_callback s /\
    i2c2_callback (snd (I2C_Init (Some config) s)) = i2c2_callback s) /\
   no_wait s (snd (I2C_Init (Some config) s))).
Proof.
  pose proof (Init_result config s) as R. unfold post in R.
  destruct (I2C_Init (Some config) s) as [[[]|] s']; cbn [fst snd] in *.
  - destruct R as [Hnz [h ->]]. split; [intros Hz; contradiction|].
    intros _. unfold Init_globals, I2C_SetCallback, registered.
    destruct (module config =? I2C_MODULE_1) eqn:E1;
      [|destruct (module config =? I2C_MODULE_2) eqn:E2];
      destruct (_I2C_GetState (module config)),
        (_I2C_GetBusyFlag (module config)),
        (_I2C_GetConfig (module config));
      cbn; repeat split; try reflexivity; intros;
      try (apply Z.eqb_eq in E1; contradiction);
      try (apply Z.eqb_eq in E2; contradiction);
      try (apply Z.eqb_neq in E1; apply Z.eqb_neq in E2; tauto).
  - split; [reflexivity|]. intros Hnz. contradiction.
Qed.

Lemma Deinit_result (module : I2C_Module_t) (s : @Driver H) :
  exists h,
    snd (I2C_Deinit module s)
    = set_hw h (set_busy (_I2C_GetBusyFlag module) false
                  (set_state (_I2C_GetState module) I2C_STATE_IDLE s)).
Proof.
  change (post (I2C_Deinit module)
            (fun _ s' =>
               exists h,
                 s' = set_hw h
                        (set_busy (_I2C_GetBusyFlag module) false
                           (set_state (_I2C_GetState module)
                              I2C_STATE_IDLE s))) s).
  unfold I2C_Deinit. repeat post_step;
    destruct (_I2C_GetState module), (_I2C_GetBusyFlag module);
    eexists; reflexivity.
Qed.

Lemma ClearErrors_result (module : I2C_Module_t) (s : @Driver H) :
  exists h,
    snd (I2C_ClearErrors module s)
    = set_hw h (set_state (_I2C_GetState module) I2C_STATE_IDLE s).
Proof.
  change (post (I2C_ClearErrors module)
            (fun _ s' =>
               exists h,
                 s' = set_hw h
                        (set_state (_I2C_GetState module)
                           I2C_STATE_IDLE s)) s).
  unfold I2C_ClearErrors. repeat post_step.
  destruct (_I2C_GetState module); eexists; reflexivity.
Qed.

(** X20.  [I2C_Deinit] releases the unit whatever its state: afterwards it
    is not busy and its status is idle, so that a following [I2C_Start]
    goes on to the bus (it calls the wait primitive).  The registered
    callback stays registered. *)
Theorem Deinit_releases (module : I2C_Module_t) (s : @Driver H) :
  fst (I2C_IsBusy module (snd (I2C_Deinit module s))) = false /\
  fst (I2C_GetLastError module (snd (I2C_Deinit module s)))
  = I2C_STATE_IDLE /\
  registered module (snd (I2C_Deinit module s)) = registered module s /\
  waits (snd (I2C_Start module (snd (I2C_Deinit module s))))
  = S (waits s).
Proof.
  destruct (Deinit_result module s) as [h ->].
  assert (Hb : get_busy (_I2C_GetBusyFlag module)
                 (set_hw h
                    (set_busy (_I2C_GetBusyFlag module) false
                       (set_state (_I2C_GetState module)
                          I2C_STATE_IDLE s))) = false)
    by (destruct (_I2C_GetBusyFlag module), (_I2C_GetState module);
        reflexivity).
  rewrite (Start_waits _ _ Hb).
  unfold I2C_IsBusy, I2C_GetLastError, load_busy, load_state, get,
    registered.
  cbn [fst]. split; [exact Hb|].
  destruct (_I2C_GetBusyFlag module), (_I2C_GetState module);
    repeat split.
Qed.

(** X21.  [I2C_ClearErrors] resets the status of a unit to idle but does
    not release it: on a unit left busy the next [I2C_Start] still fails
    at once, without calling the wait primitive, and the status read
    afterwards is idle, not an error. *)
Theorem ClearErrors_keeps_busy (module : I2C_Module_t) (s : @Driver H) :
  get_busy (_I2C_GetBusyFlag module) s = true ->
  fst (I2C_GetLastError module (snd (I2C_ClearErrors module s)))
  = I2C_STATE_IDLE /\
  fst (I2C_IsBusy module (snd (I2C_ClearErrors module s))) = true /\
  fst (I2C_Start module (snd (I2C_ClearErrors module s))) = false /\
  waits (snd (I2C_Start module (snd (I2C_ClearErrors module s))))
  = waits s /\
  fst (I2C_GetLastError module
         (snd (I2C_Start module (snd (I2C_ClearErrors module s)))))
  = I2C_STATE_IDLE.
Proof.
  intros Hb. destruct (ClearErrors_result module s) as [h ->].
  assert (Hb' : get_busy (_I2C_GetBusyFlag module)
                  (set_hw h (set_state (_I2C_GetState module)
                               I2C_STATE_IDLE s)) = true)
    by (destruct (_I2C_GetBusyFlag module), (_I2C_GetState module);
        exact Hb).
  rewrite (Start_when_busy _ _ Hb').
  unfold I2C_IsBusy, I2C_GetLastError, load_busy, load_state, get.
  cbn [fst]. split; [|split; [exact Hb'|]];
    destruct (_I2C_GetBusyFlag module), (_I2C_GetState module);
    repeat split.
Qed.

End InitDeinit.

Lemma Init_postcondition_witness :
  fst (I2C_Init (Some I2C_CONFIG_DEFAULT_MASTER) (power_on quiet_bus))
  = Some tt /\
  get_config (_I2C_GetConfig I2C_MODULE_1)
    (snd (I2C_Init (Some I2C_CONFIG_DEFAULT_MASTER) (power_on quiet_bus)))
  = I2C_CONFIG_DEFAULT_MASTER.
Proof.
  pose proof (proj2 (Init_postcondition I2C_CONFIG_DEFAULT_MASTER
                       (power_on quiet_bus))) as P.
  split; apply P; vm_compute; discriminate.
Defined.

Lemma ClearErrors_keeps_busy_witness :
  fst (I2C_Start I2C_MODULE_1
         (snd (I2C_ClearErrors I2C_MODULE_1
                 (set_busy Addr_I2C1_Busy true
                    (master_with_timeout 1 quiet_bus))))) = false.
Proof.
  apply (ClearErrors_keeps_busy I2C_MODULE_1
           (set_busy Addr_I2C1_Busy true (master_with_timeout 1 quiet_bus))).
  reflexivity.
Defined.

(** ** Interrupt dispatch *)

Section Interrupts.

Context {H : Type} `{Hardware H}.

Lemma ISR_dispatch (module : I2C_Module_t) (s : @Driver H) :
  post (I2C_ISR_Handler module)
    (fun _ s' =>
       exists evs,
         fired s' = fired s ++ evs /\
         dispatch_shape (registered module s) evs) s.
Proof.
  unfold I2C_ISR_Handler, registered.
  destruct (module =? I2C_MODULE_1);
    [|destruct (module =? I2C_MODULE_2)];
    repeat post_step;
    try (exists []; rewrite app_nil_r; split;
         [reflexivity | left; reflexivity]);
    (eexists; split; [reflexivity|]; right; do 3 eexists;
     split; [reflexivity|]; split; [reflexivity|]);
    repeat split; try lia; try discriminate; try tauto;
    try (apply Z.mod_pos_bound; reflexivity);
    try (intros He; exfalso; apply He; reflexivity).
Qed.

(** X22.  One run of [I2C_ISR_Handler] invokes at most one callback, and
    only the one registered for the selector: with no callback registered,
    or with an invalid selector, nothing is invoked.  The event is one of
    start, stop, data received and data requested, and only a received
    byte carries a payload, which is an 8-bit value.  With an invalid
    selector the handler changes nothing at all. *)
Theorem ISR_invokes_registered_callback (module : I2C_Module_t)
    (s : @Driver H) :
  (exists evs,
     fired (snd (I2C_ISR_Handler module s)) = fired s ++ evs /\
     dispatch_shape (registered module s) evs) /\
  (module <> I2C_MODULE_1 -> module <> I2C_MODULE_2 ->
   snd (I2C_ISR_Handler module s) = s).
Proof.
  split; [exact (ISR_dispatch module s)|].
  intros H1 H2. apply Z.eqb_neq in H1, H2.
  unfold I2C_ISR_Handler, bind. rewrite H1, H2. reflexivity.
Qed.

(** X23.  The events are tested in a fixed order.  With a callback
    registered for a valid selector, a status read that shows bit 15 makes
    the handler report a start, whatever the other bits of the status
    are. *)
Theorem ISR_start_first (module : I2C_Module_t) (s : @Driver H) (f : nat) :
  registered module s = Some f ->
  nonzero (Z.land (fst (reg_read (i2c_stat module) (ISR_entry module s)))
             (Z.shiftl 1 15)) = true ->
  fired (snd (I2C_ISR_Handler module s))
  = fired s ++ [(f, I2C_EVENT_START, 0)].
Proof.
  unfold registered, ISR_entry, I2C_ISR_Handler, i2c_stat.
  intros Hr Hv.
  assert (Hread : forall r (st : @Driver H),
            fired (snd (reg_read r st)) = fired st)
    by (intros r st; unfold reg_read; destruct (hw_read r (hw st));
        reflexivity).
  destruct (module =? I2C_MODULE_1);
    [|destruct (module =? I2C_MODULE_2); [|discriminate]];
    unfold bind, get; cbn [fst snd]; rewrite Hr;
    match type of Hv with
    | context [bit_write ?b 0 s] =>
      assert (Hflag : fired (snd (bit_write b 0 s)) = fired s)
        by reflexivity;
      destruct (bit_write b 0 s) as [[] s0]
    end;
    unfold ret; cbn [snd] in *;
    match type of Hv with
    | context [reg_read ?r ?st] =>
      specialize (Hread r st); destruct (reg_read r st) as [v s1]
    end;
    cbn [fst snd] in *; rewrite Hv; unfold invoke; cbn [snd fired];
    rewrite Hread, Hflag; reflexivity.
Qed.

End Interrupts.

Lemma ISR_invokes_registered_callback_witness :
  snd (I2C_ISR_Handler 3 (power_on quiet_bus)) = power_on quiet_bus.
Proof.
  apply (ISR_invokes_registered_callback 3 (power_on quiet_bus));
    discriminate.
Defined.

(** ** Waiting for an idle bus *)

Section Idle.

Context {H : Type} `{Hardware H}.

Variable module : I2C_Module_t.

(** A property of the peripheral under which every read of I2CxSTAT shows
    the stop bit. *)
Variable stuck : H -> Prop.

Hypothesis stuck_read : forall h,
  stuck h ->
  nonzero (Z.land (uint16 (fst (hw_read (i2c_stat module) h)))
             (Z.shiftl 1 14)) = true /\
  stuck (snd (hw_read (i2c_stat module) h)).

Lemma WaitIdle_loop_stuck (n : nat) : forall s : @Driver H,
  stuck (hw s) -> fst (WaitIdle_loop module n s) = uint32 (0 - 1).
Proof.
  induction n as [|n IH]; intros s Hs; cbn [WaitIdle_loop];
    unfold bind, reg_read; fold (i2c_stat module);
    destruct (stuck_read _ Hs) as [Hbit Hnext];
    destruct (hw_read (i2c_stat module) (hw s)) as [v h];
    cbn [fst snd] in *; rewrite Hbit; cbn [negb].
  - reflexivity.
  - apply IH. exact Hnext.
Qed.

Lemma WaitIdle_stuck (timeout_ms : Z) (s : @Driver H) :
  stuck (hw s) -> fst (I2C_WaitIdle module timeout_ms s) = true.
Proof.
  intros Hs. unfold I2C_WaitIdle, bind.
  pose proof (WaitIdle_loop_stuck
                (Z.to_nat (uint16 (timeout_ms * 1000))) s Hs) as L.
  destruct (WaitIdle_loop module (Z.to_nat (uint16 (timeout_ms * 1000))) s)
    as [c s1].
  cbn [fst] in L. subst c. reflexivity.
Qed.

End Idle.

Section IdleResult.

Context {H : Type} `{Hardware H}.

(** X24.  [I2C_WaitIdle] does not report an expired wait.  When the first
    read of I2CxSTAT shows the bus idle it returns true exactly when the
    16-bit product [timeout_ms x 1000] is not 0; when every read shows the
    stop bit it returns true as well, for every timeout: the counter runs
    out, is decremented once more below 0 and the final test finds it
    positive. *)
Theorem WaitIdle_result (module : I2C_Module_t) (timeout_ms : Z)
    (s : @Driver H) :
  (nonzero (Z.land (fst (reg_read (i2c_stat module) s)) (Z.shiftl 1 14))
   = false ->
   fst (I2C_WaitIdle module timeout_ms s)
   = negb (uint16 (timeout_ms * 1000) =? 0)) /\
  (forall stuck : H -> Prop,
     (forall h,
        stuck h ->
        nonzero (Z.land (uint16 (fst (hw_read (i2c_stat module) h)))
                   (Z.shiftl 1 14)) = true /\
        stuck (snd (hw_read (i2c_stat module) h))) ->
     stuck (hw s) ->
     fst (I2C_WaitIdle module timeout_ms s) = true).
Proof.
  split.
  - intros Hv. unfold I2C_WaitIdle, bind.
    assert (Hc : 0 <= uint16 (timeout_ms * 1000))
      by (apply Z.mod_pos_bound; reflexivity).
    destruct (Z.to_nat (uint16 (timeout_ms * 1000))) as [|n] eqn:En;
      cbn [WaitIdle_loop]; unfold bind; fold (i2c_stat module);
      destruct (reg_read (i2c_stat module) s) as [v s1];
      cbn [fst] in Hv; rewrite Hv; cbn [negb]; unfold ret; cbn [fst].
    + assert (uint16 (timeout_ms * 1000) = 0) as -> by lia. reflexivity.
    + destruct (uint16 (timeout_ms * 1000) =? 0) eqn:E0;
        [apply Z.eqb_eq in E0; rewrite E0 in En; discriminate|].
      cbn [negb]. rewrite Z.gtb_ltb. apply Z.ltb_lt. lia.
  - intros stuck Hstuck Hs. exact (WaitIdle_stuck module stuck Hstuck _ _ Hs).
Qed.

End IdleResult.

Lemma WaitIdle_result_witness :
  fst (I2C_WaitIdle I2C_MODULE_1 1 (power_on (mkPinned 0x4000))) = true.
Proof.
  apply (proj2 (WaitIdle_result I2C_MODULE_1 1 (power_on (mkPinned 0x4000)))
           (fun h => pinned_value h = 0x4000)).
  - intros [v] Hv. cbn in Hv. subst v. split; reflexivity.
  - reflexivity.
Defined.

(** ** Examples on the scripted peripheral *)

Lemma status_codes_reported_witness :
  status_in_codes
    (run_op (OpWriteData 1 0x50 (Some [7]) 1)
       (master_with_timeout 1 nack_bus)).
Proof.
  apply (proj1 status_codes_reported). split; reflexivity.
Defined.

Lemma units_are_isolated_witness :
  unit2_kept (master_with_timeout 1 quiet_bus)
    (run_op (OpWriteData 1 0x50 (Some [7]) 1)
       (master_with_timeout 1 quiet_bus)).
Proof.
  apply (proj1 (units_are_isolated (OpWriteData 1 0x50 (Some [7]) 1)
                  (master_with_timeout 1 quiet_bus))).
  discriminate.
Defined.


Lemma configuration_changes_only_in_Init_witness :
  config_kept (master_with_timeout 1 quiet_bus)
    (run_op (OpDeinit 1) (master_with_timeout 1 quiet_bus)).
Proof. apply configuration_changes_only_in_Init. reflexivity. Defined.

Lemma busy_flag_writers_witness :
  busy_kept (master_with_timeout 1 quiet_bus)
    (run_op (OpClearErrors 1) (master_with_timeout 1 quiet_bus)).
Proof. apply busy_flag_writers. reflexivity. Defined.

Lemma operations_without_wait_witness :
  no_wait (master_with_timeout 1 quiet_bus)
    (run_op (OpISR_Handler 1) (master_with_timeout 1 quiet_bus)).
Proof. apply operations_without_wait. reflexivity. Defined.

Lemma Start_outcome_witness :
  waits (snd (I2C_Start 1 (master_with_timeout 1 stuck_bus))) = 1%nat.
Proof.
  apply (Start_outcome 1 (master_with_timeout 1 stuck_bus)). reflexivity.
Defined.

Lemma transactions_on_busy_unit_witness :
  fst (I2C_CheckDevice 1 0x50
         (set_busy Addr_I2C1_Busy true (master_with_timeout 1 quiet_bus)))
  = false /\
  untouched
    (set_busy Addr_I2C1_Busy true (master_with_timeout 1 quiet_bus))
    (snd (I2C_CheckDevice 1 0x50
            (set_busy Addr_I2C1_Busy true
               (master_with_timeout 1 quiet_bus)))).
Proof.
  apply (transactions_on_busy_unit 1
           (set_busy Addr_I2C1_Busy true (master_with_timeout 1 quiet_bus))).
  reflexivity.
Defined.

Lemma WriteData_success_witness :
  let r := I2C_WriteData 1 0x50 (Some [7; 9]) 2
             (master_with_timeout 1 quiet_bus) in
  exists l,
    Some [7; 9] = Some l /\
    calls (snd r) =
    calls (master_with_timeout 1 quiet_bus) ++
    CallStart 1 true
    :: CallWriteByte 1 (uint8 (Z.lor (Z.shiftl 0x50 1) 0x00)) true
    :: map (fun j => CallWriteByte 1 (data_at l (Z.of_nat j)) true)
         (seq 0 (Z.to_nat 2))
    ++ [CallStop 1 true] /\
    get_busy (_I2C_GetBusyFlag 1) (snd r) = false /\
    get_state (_I2C_GetState 1) (snd r) = I2C_STATE_IDLE.
Proof.
  intros r.
  apply (WriteData_success 1 0x50 (Some [7; 9]) 2
           (master_with_timeout 1 quiet_bus) (snd r)).
  vm_compute. reflexivity.
Defined.

Lemma WriteRegister_success_witness :
  let r := I2C_WriteRegister 1 0x50 0x10 0xAB
             (master_with_timeout 1 quiet_bus) in
  calls (snd r) =
  calls (master_with_timeout 1 quiet_bus) ++
  [CallStart 1 true;
   CallWriteByte 1 (uint8 (Z.lor (Z.shiftl 0x50 1) 0x00)) true;
   CallWriteByte 1 0x10 true;
   CallWriteByte 1 0xAB true;
   CallStop 1 true] /\
  get_busy (_I2C_GetBusyFlag 1) (snd r) = false /\
  get_state (_I2C_GetState 1) (snd r) = I2C_STATE_IDLE.
Proof.
  intros r.
  apply (WriteRegister_success 1 0x50 0x10 0xAB
           (master_with_timeout 1 quiet_bus) (snd r)).
  vm_compute. reflexivity.
Defined.

Lemma ReadData_buffer_witness :
  let r := I2C_ReadData 1 0x50 (Some [0; 0; 0]) 2
             (master_with_timeout 1 quiet_bus) in
  exists new buf',
    calls (snd r) = calls (master_with_timeout 1 quiet_bus) ++ new /\
    snd (fst r) = Some buf' /\
    List.length buf' = List.length [0; 0; 0] /\
    (forall j,
       nth j buf' 0 =
       if ((j <? List.length (filter is_read new))
           && (j <? List.length [0; 0; 0]))%nat
       then nth j (map read_byte (filter is_read new)) 0
       else nth j [0; 0; 0] 0) /\
    Forall (fun b => 0 <= b < 256) (map read_byte (filter is_read new)) /\
    (fst (fst r) = true ->
     List.length (filter is_read new) = Z.to_nat 2) /\
    (existsb is_read new = false -> buf' = [0; 0; 0]).
Proof.
  intros r.
  apply (ReadData_buffer 1 0x50 [0; 0; 0] 2
           (master_with_timeout 1 quiet_bus) (snd r)
           (fst (fst r)) (snd (fst r))).
  vm_compute. reflexivity.
Defined.

Lemma CheckDevice_probe_witness :
  let r := I2C_CheckDevice 1 0x50 (master_with_timeout 1 nack_byte_bus) in
  exists new,
    calls (snd r) = calls (master_with_timeout 1 nack_byte_bus) ++ new /\
    ((new = [CallStart 1 false] /\ fst r = false) \/
     (exists ok,
        new = [CallStart 1 true;
               CallWriteByte 1 (uint8 (Z.lor (Z.shiftl 0x50 1) 0x00))
                 (fst r);
               CallStop 1 ok] /\
        get_busy (_I2C_GetBusyFlag 1) (snd r) = negb ok)).
Proof.
  intros r.
  apply (CheckDevice_probe 1 0x50 (master_with_timeout 1 nack_byte_bus)
           (snd r) (fst r)).
  vm_compute. reflexivity.
Defined.


Lemma ISR_start_first_witness :
  fired (snd (I2C_ISR_Handler 1
                (snd (I2C_SetCallback 1 (Some 7%nat)
                        (power_on (mkPinned 0x8000))))))
  = fired (snd (I2C_SetCallback 1 (Some 7%nat)
                  (power_on (mkPinned 0x8000))))
    ++ [(7%nat, I2C_EVENT_START, 0)].
Proof.
  apply (ISR_start_first 1
           (snd (I2C_SetCallback 1 (Some 7%nat)
                   (power_on (mkPinned 0x8000)))) 7%nat);
    reflexivity.
Defined.

(** ** Interrupt entry points and the register read *)

Section EntryPoints.

Context {H : Type} `{Hardware H}.

Lemma ISR_keeps_globals (module : I2C_Module_t) (s : @Driver H) :
  unit1_kept s (snd (I2C_ISR_Handler module s)) /\
  unit2_kept s (snd (I2C_ISR_Handler module s)).
Proof.
  split.
  - apply (fp_ISR_Handler module (@unit1_kept H)); fp_prim; repeat split.
  - apply (fp_ISR_Handler module (@unit2_kept H)); fp_prim; repeat split.
Qed.

(** X25.  The interrupt entry points of the demonstration program dispatch
    to their own unit: [_I2C1Interrupt] invokes at most the callback
    registered for unit 1 and [_I2C2Interrupt] at most the one registered
    for unit 2, once.  Neither changes a status code, a busy flag, a stored
    configuration or a registered callback. *)
Theorem interrupt_entry_points (s : @Driver H) :
  (exists evs,
     fired (snd (_I2C1Interrupt s)) = fired s ++ evs /\
     dispatch_shape (i2c1_callback s) evs) /\
  (exists evs,
     fired (snd (_I2C2Interrupt s)) = fired s ++ evs /\
     dispatch_shape (i2c2_callback s) evs) /\
  unit1_kept s (snd (_I2C1Interrupt s)) /\
  unit2_kept s (snd (_I2C1Interrupt s)) /\
  unit1_kept s (snd (_I2C2Interrupt s)) /\
  unit2_kept s (snd (_I2C2Interrupt s)).
Proof.
  unfold _I2C1Interrupt, _I2C2Interrupt.
  split; [exact (ISR_dispatch I2C_MODULE_1 s)|].
  split; [exact (ISR_dispatch I2C_MODULE_2 s)|].
  pose proof (ISR_keeps_globals I2C_MODULE_1 s) as [A B].
  pose proof (ISR_keeps_globals I2C_MODULE_2 s) as [C D].
  exact (conj A (conj B (conj C D))).
Qed.




End EntryPoints.


(** ** Every assignment to a status code *)

Section Stores.

Context {H : Type} `{Hardware H}.

Lemma post_mono {A} (c : M A) (Q Q' : A -> @Driver H -> Prop)
    (s : @Driver H) :
  (forall a s', Q a s' -> Q' a s') -> post c Q s -> post c Q' s.
Proof. intros HQ. unfold post. apply HQ. Qed.

Lemma post_count_wait (Q : unit -> @Driver H -> Prop) (s : @Driver H) :
  Q tt (snd (count_wait s)) -> post count_wait Q s.
Proof. exact (fun q => q). Qed.

Lemma post_count_poll (Q : unit -> @Driver H -> Prop) (s : @Driver H) :
  Q tt (snd (count_poll s)) -> post count_poll Q s.
Proof. exact (fun q => q). Qed.

Lemma post_log c (Q : unit -> @Driver H -> Prop) (s : @Driver H) :
  Q tt (snd (log c s)) -> post (log c) Q s.
Proof. exact (fun q => q). Qed.

Lemma post_and {A} (c : M A) (Q1 Q2 : A -> @Driver H -> Prop)
    (s : @Driver H) :
  post c Q1 s -> post c Q2 s -> post c (fun a s' => Q1 a s' /\ Q2 a s') s.
Proof. unfold post. split; assumption. Qed.

(** What a wait, and the functions built on one wait, assign. *)
Lemma wait_loop_stores module n : forall s : @Driver H,
  post (wait_loop module n)
    (fun r s' =>
       match r with
       | Some _ => assigns s s' []
       | None =>
         exists v,
           assigns s s' [(_I2C_GetState module, v)] /\
           wait_error v = true /\
           get_state (_I2C_GetState module) s' = v
       end) s.
Proof.
  unfold assigns.
  induction n as [|n IH]; intros s; cbn [wait_loop];
    repeat first [post_step | apply post_count_poll];
    try (cbn; rewrite app_nil_r; reflexivity);
    try (destruct (_I2C_GetState module); eexists; repeat split).
  eapply post_mono; [|apply IH]. cbn. intros r s' Hr. exact Hr.
Qed.

Lemma WaitCondition_stores module t (s : @Driver H) :
  post (_I2C_WaitCondition module t)
    (fun ok s' =>
       frame s s' /\
       if ok then assigns s s' []
       else exists v,
           assigns s s' [(_I2C_GetState module, v)] /\
           wait_error v = true /\
           get_state (_I2C_GetState module) s' = v) s.
Proof.
  apply post_and; [exact (frame_WaitCondition module t s)|].
  unfold _I2C_WaitCondition.
  apply post_bind, post_count_wait, post_bind.
  eapply post_mono; [|apply wait_loop_stores].
  unfold assigns. cbn. intros [c|] s' Hr.
  - repeat post_step.
    + exists I2C_STATE_TIMEOUT.
      destruct (_I2C_GetState module); cbn; rewrite Hr, app_nil_r;
        repeat split.
    + exact Hr.
  - post_step. exact Hr.
Qed.

(** Continue through a wait with what [WaitCondition_stores] says. *)
Ltac post_wait ok s' Hf Hw :=
  lazymatch goal with
  | |- post (_I2C_WaitCondition _ _) _ _ =>
    eapply post_mono; [|apply WaitCondition_stores];
    cbn beta; intros ok s' [Hf Hw]; destruct Hf; unfold assigns in Hw
  end.

Ltac post_prim :=
  first [ post_step | apply post_count_wait | apply post_count_poll
        | apply post_log ].

Lemma Start_stores module (s : @Driver H) :
  post (I2C_Start module)
    (fun ok s' =>
       calls s' = calls s ++ [CallStart module ok] /\
       (ok = true ->
        assigns s s' [(_I2C_GetState module, I2C_STATE_BUSY)])) s.
Proof.
  unfold I2C_Start, traced, load_busy, load_config, assigns.
  repeat post_prim.
  - split; [reflexivity | discriminate].
  - post_wait ok s' Hf Hw.
    destruct ok; cbn [negb]; repeat post_prim;
      destruct (_I2C_GetState module), (_I2C_GetBusyFlag module);
      cbn in *; (split; [congruence|]); try discriminate;
      intros _; rewrite Hw, app_nil_r; reflexivity.
Qed.

Lemma Stop_stores module (s : @Driver H) :
  post (I2C_Stop module)
    (fun ok s' =>
       calls s' = calls s ++ [CallStop module ok] /\
       exists v,
         assigns s s' [(_I2C_GetState module, v)] /\
         (if ok then v = I2C_STATE_IDLE else wait_error v = true)) s.
Proof.
  unfold I2C_Stop, traced, load_config, assigns.
  repeat post_prim.
  post_wait ok s' Hf Hw.
  destruct ok; cbn [negb]; repeat post_prim.
  - split.
    + destruct (_I2C_GetState module), (_I2C_GetBusyFlag module);
        cbn in *; congruence.
    + exists I2C_STATE_IDLE. split; [|reflexivity].
      destruct (_I2C_GetState module), (_I2C_GetBusyFlag module);
        cbn in *; rewrite Hw, app_nil_r; reflexivity.
  - destruct Hw as (v & Hv & He & _). cbn in *.
    split; [congruence|]. exists v. split; [exact Hv | exact He].
Qed.

Lemma WriteByte_stores module data (s : @Driver H) :
  post (I2C_WriteByte module data)
    (fun ok s' =>
       calls s' = calls s ++ [CallWriteByte module data ok] /\
       if ok then assigns s s' []
       else exists v,
           assigns s s' [(_I2C_GetState module, v)] /\
           get_state (_I2C_GetState module) s' = v) s.
Proof.
  unfold I2C_WriteByte, traced, load_config, assigns.
  repeat post_prim.
  post_wait ok s' Hf Hw.
  destruct ok; cbn [negb]; repeat post_prim.
  - split; [destruct (_I2C_GetState module); cbn in *; congruence|].
    exists I2C_STATE_DATA_NACK.
    destruct (_I2C_GetState module); cbn in *; rewrite Hw, app_nil_r;
      split; reflexivity.
  - split; [cbn in *; congruence|]. cbn in *. rewrite Hw. reflexivity.
  - destruct Hw as (v & Hv & _ & Hg). cbn in *.
    split; [congruence|]. exists v. split; [exact Hv|].
    destruct (_I2C_GetState module); exact Hg.
Qed.

Lemma codes_not_addr_nack (l : list (StatePtr * I2C_State_t)) :
  forallb (fun a => stored_code (snd a)) l = true ->
  Forall (fun a => snd a <> I2C_STATE_ADDR_NACK) l.
Proof.
  induction l as [|[p v] l IH]; [constructor|].
  cbn [forallb snd]. intros Hl. apply andb_prop in Hl as [Hv Hl].
  constructor; [|exact (IH Hl)].
  cbn [snd]. intros ->. discriminate Hv.
Qed.

(** A transaction up to the Stop that follows a refused address byte. *)
Lemma address_nack module ab (s : @Driver H) :
  fst (I2C_Start module s) = true ->
  nacked module ab (snd (I2C_Start module s)) ->
  fst (I2C_WriteByte module ab (snd (I2C_Start module s))) = false /\
  address_nack_recorded module ab s
    (snd (I2C_Stop module
            (snd (I2C_WriteByte module ab (snd (I2C_Start module s)))))).
Proof.
  intros Hs [Hw Hack].
  pose proof (Start_stores module s) as P1. unfold post in P1.
  destruct (I2C_Start module s) as [ok s1]. cbn [fst snd] in *. subst ok.
  destruct P1 as [C1 A1]. specialize (A1 eq_refl).
  destruct (WriteByte_nack module ab s1 Hw Hack) as [Hf Hst].
  pose proof (WriteByte_stores module ab s1) as P2. unfold post in P2.
  destruct (I2C_WriteByte module ab s1) as [ok2 s2]. cbn [fst snd] in *.
  subst ok2. destruct P2 as [C2 (v & A2 & Hv)]. rewrite Hst in Hv. subst v.
  split; [reflexivity|].
  pose proof (Stop_stores module s2) as P3. unfold post in P3.
  destruct (I2C_Stop module s2) as [ok3 s3]. cbn [fst snd] in *.
  destruct P3 as [C3 (v & A3 & Hv)].
  exists ok3, v. unfold assigns in *.
  split; [rewrite C3, C2, C1, <- !app_assoc; reflexivity|].
  split; [rewrite A3, A2, A1, <- !app_assoc; reflexivity | exact Hv].
Qed.

Lemma CheckDevice_address_nack module address (s : @Driver H) :
  fst (I2C_Start module s) = true ->
  nacked module (uint8 (Z.lor (Z.shiftl address 1) 0x00))
    (snd (I2C_Start module s)) ->
  fst (I2C_CheckDevice module address s) = false /\
  address_nack_recorded module (uint8 (Z.lor (Z.shiftl address 1) 0x00)) s
    (snd (I2C_CheckDevice module address s)).
Proof.
  intros Hs Hn. destruct (address_nack module _ s Hs Hn) as [Hf Hrec].
  unfold I2C_CheckDevice, bind.
  destruct (I2C_Start module s) as [ok s1]. cbn [fst snd] in *. subst ok.
  cbn [negb].
  destruct (I2C_WriteByte module _ s1) as [ok2 s2]. cbn [fst snd] in *.
  subst ok2. destruct (I2C_Stop module s2) as [ok3 s3].
  split; [reflexivity | exact Hrec].
Qed.

Lemma WriteData_address_nack module address data length (s : @Driver H) :
  length <> 0 ->
  fst (I2C_Start module s) = true ->
  nacked module (uint8 (Z.lor (Z.shiftl address 1) 0x00))
    (snd (I2C_Start module s)) ->
  fst (I2C_WriteData module address (Some data) length s) = false /\
  address_nack_recorded module (uint8 (Z.lor (Z.shiftl address 1) 0x00)) s
    (snd (I2C_WriteData module address (Some data) length s)).
Proof.
  intros Hl Hs Hn. destruct (address_nack module _ s Hs Hn) as [Hf Hrec].
  unfold I2C_WriteData, bind. apply Z.eqb_neq in Hl. rewrite Hl.
  destruct (I2C_Start module s) as [ok s1]. cbn [fst snd] in *. subst ok.
  cbn [negb].
  destruct (I2C_WriteByte module _ s1) as [ok2 s2]. cbn [fst snd] in *.
  subst ok2. cbn [negb]. destruct (I2C_Stop module s2) as [ok3 s3].
  split; [reflexivity | exact Hrec].
Qed.

Lemma ReadData_address_nack module address buf length (s : @Driver H) :
  length <> 0 ->
  fst (I2C_Start module s) = true ->
  nacked module (uint8 (Z.lor (Z.shiftl address 1) 0x01))
    (snd (I2C_Start module s)) ->
  fst (I2C_ReadData module address (Some buf) length s)
  = (false, Some buf) /\
  address_nack_recorded module (uint8 (Z.lor (Z.shiftl address 1) 0x01)) s
    (snd (I2C_ReadData module address (Some buf) length s)).
Proof.
  intros Hl Hs Hn. destruct (address_nack module _ s Hs Hn) as [Hf Hrec].
  unfold I2C_ReadData, bind. apply Z.eqb_neq in Hl. rewrite Hl.
  destruct (I2C_Start module s) as [ok s1]. cbn [fst snd] in *. subst ok.
  cbn [negb].
  destruct (I2C_WriteByte module _ s1) as [ok2 s2]. cbn [fst snd] in *.
  subst ok2. cbn [negb]. destruct (I2C_Stop module s2) as [ok3 s3].
  split; [reflexivity | exact Hrec].
Qed.

(** C9.  No operation of the driver assigns [I2C_STATE_ADDR_NACK] to a
    status code, not even for the time until a later assignment of the same
    operation: every assignment an operation makes, and every assignment of
    a sequence of operations from the initial values of the globals, has
    another value, and no unit has that status after an operation.
    [I2C_WriteByte], when its wait succeeds and bit 15 of I2CxCON then
    reads set (the negative acknowledge), returns false and makes one
    assignment: data-NACK to the status of the unit, whatever the byte.
    [I2C_CheckDevice], [I2C_WriteData] and [I2C_ReadData] send the address
    byte with [I2C_WriteByte]: when their Start succeeds and the address
    byte is negatively acknowledged they return false, the bus operations
    are the Start, the write of the address byte and a Stop, and the
    assignments to the status of the unit are busy, data-NACK, then the
    value the Stop leaves. *)
Theorem ADDR_NACK_is_never_stored :
  (forall (o : Op) (s : @Driver H),
     exists new,
       assigns s (run_op o s) new /\
       Forall (fun a => snd a <> I2C_STATE_ADDR_NACK) new) /\
  (forall (h : H) (os : list Op),
     Forall (fun a => snd a <> I2C_STATE_ADDR_NACK)
       (stores (run_ops os (power_on h))) /\
     no_addr_nack (run_ops os (power_on h))) /\
  (forall (o : Op) (s : @Driver H),
     no_addr_nack s -> no_addr_nack (run_op o s)) /\
  (forall module data (s : @Driver H),
     nacked module data s ->
     fst (I2C_WriteByte module data s) = false /\
     get_state (_I2C_GetState module) (snd (I2C_WriteByte module data s))
     = I2C_STATE_DATA_NACK /\
     assigns s (snd (I2C_WriteByte module data s))
       [(_I2C_GetState module, I2C_STATE_DATA_NACK)]) /\
  (forall module address (s : @Driver H),
     fst (I2C_Start module s) = true ->
     (nacked module (uint8 (Z.lor (Z.shiftl address 1) 0x00))
        (snd (I2C_Start module s)) ->
      (fst (I2C_CheckDevice module address s) = false /\
       address_nack_recorded module
         (uint8 (Z.lor (Z.shiftl address 1) 0x00)) s
         (snd (I2C_CheckDevice module address s))) /\
      (forall data length,
         length <> 0 ->
         fst (I2C_WriteData module address (Some data) length s) = false /\
         address_nack_recorded module
           (uint8 (Z.lor (Z.shiftl address 1) 0x00)) s
           (snd (I2C_WriteData module address (Some data) length s)))) /\
     (nacked module (uint8 (Z.lor (Z.shiftl address 1) 0x01))
        (snd (I2C_Start module s)) ->
      forall buf length,
        length <> 0 ->
        fst (I2C_ReadData module address (Some buf) length s)
        = (false, Some buf) /\
        address_nack_recorded module
          (uint8 (Z.lor (Z.shiftl address 1) 0x01)) s
          (snd (I2C_ReadData module address (Some buf) length s)))).
Proof.
  split; [|split; [|split; [|split]]].
  - intros o s. destruct (ops_assign_codes o s) as (new & E & Hnew).
    exists new. split; [exact E|]. apply codes_not_addr_nack, Hnew.
  - intros h os. split.
    + destruct (run_ops_assign_codes os (power_on h)) as (new & E & Hnew).
      unfold assigns in E. rewrite E. apply codes_not_addr_nack, Hnew.
    + assert (Hall : forall (s : @Driver H),
                no_addr_nack s -> no_addr_nack (run_ops os s)).
      { induction os as [|o os IH]; intros s Hs; [exact Hs|].
        apply IH, inv_run_op, Hs. }
      apply Hall. split; discriminate.
  - exact inv_run_op.
  - intros module data s [Hw Hack].
    destruct (WriteByte_nack module data s Hw Hack) as [Hf Hst].
    split; [exact Hf|]. split; [exact Hst|].
    pose proof (WriteByte_stores module data s) as P. unfold post in P.
    destruct (I2C_WriteByte module data s) as [ok s']. cbn [fst snd] in *.
    subst ok. destruct P as [_ (v & A & Hv)]. rewrite Hst in Hv. subst v.
    exact A.
  - intros module address s Hs. split.
    + intros Hn. split.
      * apply CheckDevice_address_nack; assumption.
      * intros data length Hl. apply WriteData_address_nack; assumption.
    + intros Hn buf length Hl. apply ReadData_address_nack; assumption.
Qed.

End Stores.

Lemma ADDR_NACK_is_never_stored_witness :
  no_addr_nack
    (run_op (OpWriteData 1 0x50 (Some [7]) 1)
       (master_with_timeout 1 nack_bus)) /\
  (fst (I2C_WriteByte 1 0xA0 (master_with_timeout 1 nack_byte_bus)) = false
   /\
   get_state (_I2C_GetState 1)
     (snd (I2C_WriteByte 1 0xA0 (master_with_timeout 1 nack_byte_bus)))
   = I2C_STATE_DATA_NACK /\
   assigns (master_with_timeout 1 nack_byte_bus)
     (snd (I2C_WriteByte 1 0xA0 (master_with_timeout 1 nack_byte_bus)))
     [(_I2C_GetState 1, I2C_STATE_DATA_NACK)]) /\
  (fst (I2C_WriteData 1 0x50 (Some [7]) 1 (master_with_timeout 1 nack_bus))
   = false /\
   address_nack_recorded 1 (uint8 (Z.lor (Z.shiftl 0x50 1) 0x00))
     (master_with_timeout 1 nack_bus)
     (snd (I2C_WriteData 1 0x50 (Some [7]) 1
             (master_with_timeout 1 nack_bus)))).
Proof.
  split; [|split].
  - apply (proj1 (proj2 (proj2 ADDR_NACK_is_never_stored))).
    split; discriminate.
  - apply (proj1 (proj2 (proj2 (proj2 ADDR_NACK_is_never_stored))) 1 0xA0
             (master_with_timeout 1 nack_byte_bus)).
    split; vm_compute; reflexivity.
  - apply (proj2 (proj2 (proj2 (proj2 ADDR_NACK_is_never_stored))) 1 0x50
             (master_with_timeout 1 nack_bus)).
    + vm_compute. reflexivity.
    + split; vm_compute; reflexivity.
    + discriminate.
Defined.
